(** * dnd-dice: a shallow embedding of [solution.ino]

    The sketch drives a dice-rolling gadget built on an Arduino UNO with
    the Funshield: three debounced buttons, a multiplexed four-digit
    seven-segment display and a dice engine.  Every class of the sketch is
    embedded as a module holding a record for the object's fields and one
    function per method, with the object passed in and returned.

    Machine integers are carried by [Z] with the wrap-around written out:
    [unsigned long] is 32 bits, [int] is 16 bits and [char] is a signed
    byte, as on the AVR target of the board. *)

From Stdlib Require Import ZArith List Bool Lia Ascii String DecimalString.
From stdpp Require Import base list.
Import ListNotations.
Open Scope Z_scope.

(** ** Machine arithmetic *)

Definition ulong_mod : Z := 2 ^ 32.

(** Reduction of a mathematical integer to an [unsigned long]. *)
Definition to_ulong (z : Z) : Z := z mod ulong_mod.

(** [a - b] and [a + b] on [unsigned long]. *)
Definition usub (a b : Z) : Z := to_ulong (a - b).
Definition uadd (a b : Z) : Z := to_ulong (a + b).

Definition is_ulong (z : Z) : Prop := 0 <= z < ulong_mod.

(** Reduction to a 16-bit two's complement [int]. *)
Definition to_int (z : Z) : Z := (z + 32768) mod 65536 - 32768.

(** Reduction to a signed 8-bit [char] and to an unsigned 8-bit [byte]. *)
Definition to_char (z : Z) : Z := (z + 128) mod 256 - 128.
Definition to_byte (z : Z) : Z := z mod 256.

(** Code of a character literal. *)
Definition chr (a : ascii) : Z := Z.of_N (N_of_ascii a).

(** ** enum Button_signal, enum Program_state, global constants *)

Inductive Button_signal := RELEASED | PRESSED | NOTHING.
Inductive Program_state := CONFIG | IDLE | GENERATING.

Definition Button_signal_eqb (a b : Button_signal) : bool :=
  match a, b with
  | RELEASED, RELEASED | PRESSED, PRESSED | NOTHING, NOTHING => true
  | _, _ => false
  end.

Definition Program_state_eqb (a b : Program_state) : bool :=
  match a, b with
  | CONFIG, CONFIG | IDLE, IDLE | GENERATING, GENERATING => true
  | _, _ => false
  end.

Definition dice_types : list Z := [4; 6; 8; 10; 12; 20; 100].
Definition dice_types_length : Z := Z.of_nat (length dice_types).
Definition start_state : Program_state := CONFIG.

(** ** class Timer *)

Module Timer.

Record t := mk { delay : Z; last_event : Z }.

Definition init (init_time init_delay : Z) : t :=
  {| delay := init_delay; last_event := init_time |}.

Definition should_signal (tm : t) (time_now : Z) : bool * t :=
  let diff := usub time_now (last_event tm) in
  if diff >=? delay tm
  then (true, {| delay := delay tm;
                 last_event := uadd (last_event tm) (delay tm) |})
  else (false, tm).

Definition reset_last_event_time (tm : t) (time_now : Z) : t :=
  {| delay := delay tm; last_event := time_now |}.

(** The signals of a sequence of polls, and the timer they leave. *)
Fixpoint poll (tm : t) (times : list Z) : list bool * t :=
  match times with
  | [] => ([], tm)
  | now :: rest =>
      let '(b, tm1) := should_signal tm now in
      let '(bs, tm2) := poll tm1 rest in
      (b :: bs, tm2)
  end.

End Timer.

(** ** The board: Arduino core services and the Funshield header *)

Module Arduino.

(** One reading of the environment, taken by an iteration of [loop]:
    the millisecond counter and the level of every pin ([true] is HIGH). *)
Record env := mk_env { millis : Z; digitalRead : Z -> bool }.

Inductive pin_mode := INPUT | OUTPUT.
Inductive bit_order := LSBFIRST | MSBFIRST.

(** What the sketch writes to the hardware. [shiftOut] sends a byte. *)
Inductive hw_event :=
| PinMode (pin : Z) (mode : pin_mode)
| DigitalWrite (pin : Z) (level : bool)
| ShiftOut (data clock : Z) (order : bit_order) (value : Z).

Definition pinMode (pin : Z) (mode : pin_mode) : list hw_event :=
  [PinMode pin mode].
Definition digitalWrite (pin : Z) (level : bool) : list hw_event :=
  [DigitalWrite pin level].
Definition shiftOut (data clock : Z) (order : bit_order) (value : Z)
  : list hw_event :=
  [ShiftOut data clock order (to_byte value)].

(** Modelled from the spec: the random source is a provided service,
    [seed_random(value)] and [uniform_random(bound) -> [0,bound)].  It is
    an oracle here: [stream] holds the raw values the generator will
    return, each reduced to the generator's range of 31 bits, [drawn]
    counts the values taken so far and [seeds] records the seedings. *)
Record rng := mk_rng { seeds : list Z; stream : nat -> Z; drawn : nat }.

Definition randomSeed (seed : Z) (g : rng) : rng :=
  if seed =? 0 then g
  else {| seeds := seed :: seeds g; stream := stream g; drawn := drawn g |}.

Definition random (howbig : Z) (g : rng) : Z * rng :=
  if howbig =? 0 then (0, g)
  else (Z.rem (stream g (drawn g) mod 2 ^ 31) howbig,
        {| seeds := seeds g; stream := stream g; drawn := S (drawn g) |}).

End Arduino.

Module Funshield.

(** The constants the sketch takes from [funshield.h]: the pins of the
    three buttons and of the display's shift registers, and the glyph
    table of the ten digits. *)
Record t := mk {
  button_pins : list Z;
  latch_pin : Z;
  clock_pin : Z;
  data_pin : Z;
  digits : list Z
}.

(** The header as shipped for the Arduino UNO, used to run the sketch on
    concrete inputs. *)
Definition uno : t :=
  {| button_pins := [15; 16; 17];
     latch_pin := 4;
     clock_pin := 7;
     data_pin := 8;
     digits := [0xc0; 0xf9; 0xa4; 0xb0; 0x99; 0x92; 0x82; 0xf8; 0x80; 0x90] |}.

End Funshield.

(** Arrays.  An access outside the array is undefined in the source; the
    embedding reads 0 and drops the write there.  The invariants of the
    dice engine and the index bound of the text writers, proved below,
    keep the accesses of the sketch inside the arrays. *)
Definition array_get (l : list Z) (i : Z) : Z :=
  if 0 <=? i then default 0 (l !! Z.to_nat i) else 0.

Definition array_set (l : list Z) (i : Z) (v : Z) : list Z :=
  if 0 <=? i then <[Z.to_nat i := v]> l else l.

(** ** class Dice *)

Module Dice.

Definition max_dice_amount : Z := 9.
Definition start_dice_type_index : Z := 1.
Definition start_dice_amount : Z := 1.
Definition clear_memory_value : Z := -1.

Record t := mk {
  roll_start_time : Z;
  dice : list Z;
  current_dice_amount : Z;
  current_type_index : Z;
  last_roll : Z;
  is_first_roll : bool
}.

(** The object before [init]: a global, hence zero-initialised. *)
Definition zero : t :=
  {| roll_start_time := 0;
     dice := replicate (Z.to_nat max_dice_amount) 0;
     current_dice_amount := 0;
     current_type_index := 0;
     last_roll := 0;
     is_first_roll := false |}.

Definition set_dice (d : t) (v : list Z) : t :=
  mk (roll_start_time d) v (current_dice_amount d) (current_type_index d)
     (last_roll d) (is_first_roll d).
Definition set_last_roll (d : t) (v : Z) : t :=
  mk (roll_start_time d) (dice d) (current_dice_amount d)
     (current_type_index d) v (is_first_roll d).
Definition set_current_type_index (d : t) (v : Z) : t :=
  mk (roll_start_time d) (dice d) (current_dice_amount d) v
     (last_roll d) (is_first_roll d).
Definition set_current_dice_amount (d : t) (v : Z) : t :=
  mk (roll_start_time d) (dice d) v (current_type_index d)
     (last_roll d) (is_first_roll d).

(** [for (int i = 0; i < current_dice_amount; ++i) sum += dice[i];]
    with [n] iterations left and the loop at index [i]. *)
Fixpoint get_dice_sum_loop (n : nat) (d : t) (i sum : Z) : Z :=
  match n with
  | O => sum
  | S n' => get_dice_sum_loop n' d (to_int (i + 1))
              (to_int (sum + array_get (dice d) i))
  end.

Definition get_dice_sum (d : t) : Z :=
  get_dice_sum_loop (Z.to_nat (current_dice_amount d)) d 0 0.

(** [for (...) dice[i] = random(dice_types[current_type_index]) + 1;] *)
Fixpoint refresh_all_dice_loop (n : nat) (d : t) (g : Arduino.rng) (i : Z)
  : t * Arduino.rng :=
  match n with
  | O => (d, g)
  | S n' =>
      let '(r, g1) :=
        Arduino.random (array_get dice_types (current_type_index d)) g in
      refresh_all_dice_loop n'
        (set_dice d (array_set (dice d) i (to_int (r + 1)))) g1
        (to_int (i + 1))
  end.

Definition refresh_all_dice (d : t) (g : Arduino.rng) : t * Arduino.rng :=
  refresh_all_dice_loop (Z.to_nat (current_dice_amount d)) d g 0.

Definition init (d : t) : t :=
  {| roll_start_time := 0;
     dice := dice d;
     current_dice_amount := start_dice_amount;
     current_type_index := start_dice_type_index;
     last_roll := clear_memory_value;
     is_first_roll := true |}.

Definition start_roll (d : t) (time_now : Z) : t :=
  mk time_now (dice d) (current_dice_amount d) (current_type_index d)
     (last_roll d) (is_first_roll d).

Definition finish_roll (d : t) (g : Arduino.rng) (time_now : Z)
  : Z * t * Arduino.rng :=
  let '(d1, g1) :=
    if is_first_roll d then
      let diff := usub time_now (roll_start_time d) in
      (mk (roll_start_time d) (dice d) (current_dice_amount d)
          (current_type_index d) (last_roll d) false,
       Arduino.randomSeed (uadd diff time_now) g)
    else (d, g) in
  let '(d2, g2) := refresh_all_dice d1 g1 in
  let d3 := set_last_roll d2 (get_dice_sum d2) in
  (last_roll d3, d3, g2).

Definition next_dice_type (d : t) : t :=
  let d1 := set_current_type_index d (to_int (current_type_index d + 1)) in
  set_current_type_index d1 (Z.rem (current_type_index d1) dice_types_length).

Definition get_dice_type (d : t) : Z :=
  array_get dice_types (current_type_index d).

(** [while (max_dice_value > 0) { digits_amount++; max_dice_value /= 10; }]
    The value strictly decreases, so [fuel] iterations are enough once
    [fuel] is at least the value. *)
Fixpoint get_max_digits_amount_loop (fuel : nat) (max_dice_value digits_amount : Z)
  : Z :=
  match fuel with
  | O => digits_amount
  | S fuel' =>
      if max_dice_value >? 0
      then get_max_digits_amount_loop fuel' (Z.quot max_dice_value 10)
             (to_int (digits_amount + 1))
      else digits_amount
  end.

Definition get_max_digits_amount (d : t) : Z :=
  let max_dice_value :=
    to_int (array_get dice_types (current_type_index d) * current_dice_amount d) in
  get_max_digits_amount_loop (Z.to_nat max_dice_value) max_dice_value 0.

Definition next_dice_amount (d : t) : t :=
  let d1 := set_current_dice_amount d (to_int (current_dice_amount d + 1)) in
  if current_dice_amount d1 >? max_dice_amount
  then set_current_dice_amount d1 1
  else d1.

Definition get_dice_amount (d : t) : Z := current_dice_amount d.

Definition reset_roll_memory (d : t) : t := set_last_roll d clear_memory_value.

Definition has_roll_in_memory (d : t) : bool :=
  negb (last_roll d =? clear_memory_value).

Definition get_last_roll (d : t) : Z := last_roll d.

(** The configuration changes of the Config state, and their replay. *)
Inductive config_op := NextType | NextAmount.

Definition apply_op (d : t) (o : config_op) : t :=
  match o with
  | NextType => next_dice_type d
  | NextAmount => next_dice_amount d
  end.

Definition apply_ops (d : t) (ops : list config_op) : t :=
  fold_left apply_op ops d.

(** The states of the engine that a program can reach through its
    public methods, from the zero-initialised global. *)
Inductive reachable : t -> Prop :=
| reach_init : reachable (init zero)
| reach_reinit d : reachable d -> reachable (init d)
| reach_start_roll d now : reachable d -> reachable (start_roll d now)
| reach_finish_roll d g now :
    reachable d -> reachable (snd (fst (finish_roll d g now)))
| reach_next_dice_type d : reachable d -> reachable (next_dice_type d)
| reach_next_dice_amount d : reachable d -> reachable (next_dice_amount d)
| reach_reset_roll_memory d : reachable d -> reachable (reset_roll_memory d).

End Dice.

(** ** class Button *)

Module Button.

Definition debounce_time : Z := 5.

Record t := mk { debouncing : bool; down : bool; pin : Z; last_event : Z }.

Definition zero : t := mk false false 0 0.

Definition is_pressed (digitalRead : Z -> bool) (b : t) : bool :=
  negb (digitalRead (pin b)).

Definition init (hw : Funshield.t) (index : Z) : t * list Arduino.hw_event :=
  let p := array_get (Funshield.button_pins hw) index in
  ({| debouncing := false; down := false; pin := p; last_event := 0 |},
   Arduino.pinMode p Arduino.INPUT).

Definition get_signal (digitalRead : Z -> bool) (b : t) (time_now : Z)
  : Button_signal * t :=
  if debouncing b then
    let time_diff := usub time_now (last_event b) in
    if time_diff >=? debounce_time
    then (NOTHING, mk false (down b) (pin b) (last_event b))
    else (NOTHING, b)
  else
    if down b then
      if negb (is_pressed digitalRead b)
      then (RELEASED, mk true false (pin b) time_now)
      else (NOTHING, b)
    else
      if is_pressed digitalRead b
      then (PRESSED, mk true true (pin b) time_now)
      else (NOTHING, b).

(** The signals of a sequence of polls, each with the counter value and
    the pin levels read at that moment. *)
Fixpoint poll (b : t) (samples : list (Z * (Z -> bool)))
  : list Button_signal * t :=
  match samples with
  | [] => ([], b)
  | (now, rd) :: rest =>
      let '(sg, b1) := get_signal rd b now in
      let '(sgs, b2) := poll b1 rest in
      (sg :: sgs, b2)
  end.

(** The edge a button whose flag is [dn] reports at its next transition. *)
Definition edge (dn : bool) : Button_signal :=
  if dn then RELEASED else PRESSED.

Definition is_edge (sg : Button_signal) : bool :=
  negb (Button_signal_eqb sg NOTHING).

Definition count_edges (sgs : list Button_signal) : nat :=
  length (List.filter is_edge sgs).

End Button.

(** ** class Display *)

Module Display.

Definition empty_glyph : Z := 0xff.  (* 0b11111111 *)
Definition d_glyph : Z := 0xa1.      (* 0b10100001 *)
Definition animation_start_frame : Z := 0x80.
Definition animation_end_frame : Z := 0x04.
Definition display_digits : Z := 4.
Definition dice_type_digits : Z := 2.
Definition dice_amount_digits : Z := 1.
Definition multiplex_delay : Z := 1.
Definition animation_delay : Z := 50.

Record t := mk {
  multiplex_timer : Timer.t;
  animation_timer : Timer.t;
  current_animation_frame : Z;
  current_active_index : Z;
  display_buffer : list Z
}.

(** The object before [init]: a global, hence zero-initialised, with a
    buffer of [display_digits + 1] characters. *)
Definition zero : t :=
  {| multiplex_timer := Timer.mk 0 0;
     animation_timer := Timer.mk 0 0;
     current_animation_frame := 0;
     current_active_index := 0;
     display_buffer := replicate (Z.to_nat (display_digits + 1)) 0 |}.

Definition set_display_buffer (d : t) (v : list Z) : t :=
  mk (multiplex_timer d) (animation_timer d) (current_animation_frame d)
     (current_active_index d) v.
Definition set_current_active_index (d : t) (v : Z) : t :=
  mk (multiplex_timer d) (animation_timer d) (current_animation_frame d)
     v (display_buffer d).
Definition set_current_animation_frame (d : t) (v : Z) : t :=
  mk (multiplex_timer d) (animation_timer d) v
     (current_active_index d) (display_buffer d).
Definition set_multiplex_timer (d : t) (v : Timer.t) : t :=
  mk v (animation_timer d) (current_animation_frame d)
     (current_active_index d) (display_buffer d).
Definition set_animation_timer (d : t) (v : Timer.t) : t :=
  mk (multiplex_timer d) v (current_animation_frame d)
     (current_active_index d) (display_buffer d).

(** The body of the loop of [write_next_number], with [n] iterations of
    the [digit_limit] left.  The division and remainder of C++ truncate
    towards zero. *)
Fixpoint write_next_number_loop (n : nat) (buf : list Z) (number index : Z)
  : list Z * Z :=
  match n with
  | O => (buf, index)
  | S n' =>
      let remainder := Z.rem number 10 in
      let buf1 := array_set buf index (to_char (remainder + chr "0")) in
      let index1 := to_int (index - 1) in
      let number1 := Z.quot number 10 in
      if number1 <? 1 then (buf1, index1)
      else write_next_number_loop n' buf1 number1 index1
  end.

(** [index] is passed by reference: its new value is returned. *)
Definition write_next_number (d : t) (number index digit_limit : Z) : t * Z :=
  let '(buf, index1) :=
    write_next_number_loop (Z.to_nat digit_limit) (display_buffer d)
      number index in
  (set_display_buffer d buf, index1).

(** The glyph [output_char] selects for a character. *)
Definition output_char_glyph (hw : Funshield.t) (ch : Z) : Z :=
  if ch =? chr "d" then d_glyph
  else if (ch >=? chr "0") && (ch <=? chr "9")
       then array_get (Funshield.digits hw) (to_int (ch - chr "0"))
       else empty_glyph.

Definition output_char (hw : Funshield.t) (ch pos : Z)
  : list Arduino.hw_event :=
  let glyph := output_char_glyph hw ch in
  Arduino.digitalWrite (Funshield.latch_pin hw) false
  ++ Arduino.shiftOut (Funshield.data_pin hw) (Funshield.clock_pin hw)
       Arduino.MSBFIRST glyph
  ++ Arduino.shiftOut (Funshield.data_pin hw) (Funshield.clock_pin hw)
       Arduino.MSBFIRST (to_int (Z.shiftl 1 (to_byte pos)))
  ++ Arduino.digitalWrite (Funshield.latch_pin hw) true.

(** [for (int i = index; i >= 0; --i) display_buffer[i] = ' ';] *)
Fixpoint erase_others_loop (n : nat) (buf : list Z) (i : Z) : list Z :=
  match n with
  | O => buf
  | S n' => erase_others_loop n' (array_set buf i (chr " ")) (to_int (i - 1))
  end.

Definition erase_others (d : t) (index : Z) : t :=
  set_display_buffer d
    (erase_others_loop (Z.to_nat (index + 1)) (display_buffer d) index).

Fixpoint erase_all_loop (n : nat) (buf : list Z) (i : Z) : list Z :=
  match n with
  | O => buf
  | S n' => erase_all_loop n' (array_set buf i (chr " ")) (to_int (i + 1))
  end.

Definition erase_all (d : t) : t :=
  set_display_buffer d
    (erase_all_loop (Z.to_nat display_digits) (display_buffer d) 0).

Definition update_active_index (d : t) (time_now : Z) : t :=
  let '(fired, tm) := Timer.should_signal (multiplex_timer d) time_now in
  let d1 := set_multiplex_timer d tm in
  if fired
  then set_current_active_index d1
         (Z.rem (to_int (current_active_index d1 + 1)) display_digits)
  else d1.

Definition output_animation_frame (hw : Funshield.t) (d : t)
  : list Arduino.hw_event :=
  Arduino.digitalWrite (Funshield.latch_pin hw) false
  ++ Arduino.shiftOut (Funshield.data_pin hw) (Funshield.clock_pin hw)
       Arduino.LSBFIRST (Z.lnot (current_animation_frame d))
  ++ Arduino.shiftOut (Funshield.data_pin hw) (Funshield.clock_pin hw)
       Arduino.LSBFIRST
       (to_int (Z.shiftl 1 (to_int (current_active_index d + 4))))
  ++ Arduino.digitalWrite (Funshield.latch_pin hw) true.

Definition init (hw : Funshield.t) (d : t) (init_time : Z)
  : t * list Arduino.hw_event :=
  (mk (Timer.init init_time multiplex_delay)
      (Timer.init init_time animation_delay)
      animation_start_frame
      (current_active_index d) (display_buffer d),
   Arduino.pinMode (Funshield.latch_pin hw) Arduino.OUTPUT
   ++ Arduino.pinMode (Funshield.clock_pin hw) Arduino.OUTPUT
   ++ Arduino.pinMode (Funshield.data_pin hw) Arduino.OUTPUT).

Definition next_animation (d : t) : t :=
  let d1 := set_current_animation_frame d
              (to_byte (Z.shiftr (current_animation_frame d) 1)) in
  if current_animation_frame d1 <? animation_end_frame
  then set_current_animation_frame d1 animation_start_frame
  else d1.

Definition multiplex_animation (hw : Funshield.t) (d : t)
    (time_now max_digits_amount : Z) : t * list Arduino.hw_event :=
  let d1 := update_active_index d time_now in
  let d2 := if current_active_index d1 >=? max_digits_amount
            then set_current_active_index d1 0
            else d1 in
  (d2, output_animation_frame hw d2).

Definition multiplex (hw : Funshield.t) (d : t) (time_now : Z)
  : t * list Arduino.hw_event :=
  let d1 := update_active_index d time_now in
  (d1, output_char hw
         (array_get (display_buffer d1) (current_active_index d1))
         (current_active_index d1)).

Definition write_number (d : t) (number : Z) : t :=
  let index := to_int (display_digits - 1) in
  let '(d1, index1) := write_next_number d number index display_digits in
  erase_others d1 index1.

Definition write_config_string (d : t) (amount type : Z) : t :=
  let index := to_int (display_digits - 1) in
  let '(d1, index1) := write_next_number d type index dice_type_digits in
  let d2 := set_display_buffer d1
              (array_set (display_buffer d1) index1 (chr "d")) in
  let index2 := to_int (index1 - 1) in
  let '(d3, index3) := write_next_number d2 amount index2 dice_amount_digits in
  erase_others d3 index3.

Definition prepare_animation (d : t) (time_now : Z) : t :=
  let d1 := set_current_animation_frame d animation_start_frame in
  set_animation_timer d1
    (Timer.reset_last_event_time (animation_timer d1) time_now).

Definition should_animate (d : t) (time_now : Z) : bool * t :=
  let '(fired, tm) := Timer.should_signal (animation_timer d) time_now in
  (if fired then true else false, set_animation_timer d tm).

(** The four cells shown on the display. *)
Definition cells (d : t) : list Z :=
  take (Z.to_nat display_digits) (display_buffer d).

End Display.

(** The codes of the characters of a string, to write buffers down. *)
Definition codes (s : string) : list Z := map chr (list_ascii_of_string s).

(** ** The sketch: global objects, [setup] and [loop] *)

Module Sketch.

Definition roll_button_index : Z := 0.
Definition amount_button_index : Z := 1.
Definition type_button_index : Z := 2.

(** The global variables of the sketch, with the state of the random
    source of the board. *)
Record t := mk {
  current_state : Program_state;
  roll_button : Button.t;
  type_button : Button.t;
  amount_button : Button.t;
  disp : Display.t;
  dice : Dice.t;
  rng : Arduino.rng
}.

(** The globals when the program starts. *)
Definition zero (g : Arduino.rng) : t :=
  mk CONFIG Button.zero Button.zero Button.zero Display.zero Dice.zero g.

Definition set_current_state (s : t) (v : Program_state) : t :=
  mk v (roll_button s) (type_button s) (amount_button s) (disp s) (dice s)
     (rng s).
Definition set_disp (s : t) (v : Display.t) : t :=
  mk (current_state s) (roll_button s) (type_button s) (amount_button s) v
     (dice s) (rng s).
Definition set_dice (s : t) (v : Dice.t) : t :=
  mk (current_state s) (roll_button s) (type_button s) (amount_button s)
     (disp s) v (rng s).
Definition set_rng (s : t) (v : Arduino.rng) : t :=
  mk (current_state s) (roll_button s) (type_button s) (amount_button s)
     (disp s) (dice s) v.

Definition init_buttons (hw : Funshield.t) (s : t)
  : t * list Arduino.hw_event :=
  let '(rb, o1) := Button.init hw roll_button_index in
  let '(ab, o2) := Button.init hw amount_button_index in
  let '(tb, o3) := Button.init hw type_button_index in
  (mk (current_state s) rb tb ab (disp s) (dice s) (rng s), o1 ++ o2 ++ o3).

(** [init_display] receives a copy of the dice engine. *)
Definition init_display (hw : Funshield.t) (s : t) (time_now : Z)
    (dice_copy : Dice.t) : t * list Arduino.hw_event :=
  let o1 := Arduino.pinMode (Funshield.latch_pin hw) Arduino.OUTPUT
            ++ Arduino.pinMode (Funshield.clock_pin hw) Arduino.OUTPUT
            ++ Arduino.pinMode (Funshield.data_pin hw) Arduino.OUTPUT in
  let '(d1, o2) := Display.init hw (disp s) time_now in
  let d2 := Display.write_config_string d1
              (Dice.get_dice_amount dice_copy)
              (Dice.get_dice_type dice_copy) in
  (set_disp s d2, o1 ++ o2).

Definition setup (hw : Funshield.t) (s : t) (e : Arduino.env)
  : t * list Arduino.hw_event :=
  let time_now := to_ulong (Arduino.millis e) in
  let s1 := set_current_state s start_state in
  let '(s2, o1) := init_buttons hw s1 in
  let s3 := set_dice s2 (Dice.init (dice s2)) in
  let '(s4, o2) := init_display hw s3 time_now (dice s3) in
  (s4, o1 ++ o2).

(** The three calls of [get_signal] that open an iteration of [loop]. *)
Definition read_buttons (s : t) (e : Arduino.env)
  : (Button_signal * Button_signal * Button_signal) * t :=
  let time_now := to_ulong (Arduino.millis e) in
  let '(roll_signal, rb) :=
    Button.get_signal (Arduino.digitalRead e) (roll_button s) time_now in
  let '(type_signal, tb) :=
    Button.get_signal (Arduino.digitalRead e) (type_button s) time_now in
  let '(amount_signal, ab) :=
    Button.get_signal (Arduino.digitalRead e) (amount_button s) time_now in
  ((roll_signal, type_signal, amount_signal),
   mk (current_state s) rb tb ab (disp s) (dice s) (rng s)).

(** [case IDLE] *)
Definition idle_case (s : t) (time_now : Z)
    (roll_signal type_signal amount_signal : Button_signal) : t :=
  let s1 :=
    if Button_signal_eqb roll_signal PRESSED
       || negb (Dice.has_roll_in_memory (dice s))
    then
      let s' := set_dice s (Dice.start_roll (dice s) time_now) in
      let s' := set_disp s' (Display.prepare_animation (disp s') time_now) in
      let s' := set_disp s' (Display.next_animation (disp s')) in
      set_current_state s' GENERATING
    else s in
  if Button_signal_eqb type_signal PRESSED
     || Button_signal_eqb amount_signal PRESSED
  then
    let s' := set_disp s1
                (Display.write_config_string (disp s1)
                   (Dice.get_dice_amount (dice s1))
                   (Dice.get_dice_type (dice s1))) in
    set_current_state s' CONFIG
  else s1.

(** [case CONFIG] *)
Definition config_case (s : t)
    (roll_signal type_signal amount_signal : Button_signal) : t :=
  let s1 :=
    if Button_signal_eqb type_signal PRESSED then
      let s' := set_dice s (Dice.reset_roll_memory (dice s)) in
      let s' := set_dice s' (Dice.next_dice_type (dice s')) in
      set_disp s'
        (Display.write_config_string (disp s')
           (Dice.get_dice_amount (dice s')) (Dice.get_dice_type (dice s')))
    else s in
  let s2 :=
    if Button_signal_eqb amount_signal PRESSED then
      let s' := set_dice s1 (Dice.reset_roll_memory (dice s1)) in
      let s' := set_dice s' (Dice.next_dice_amount (dice s')) in
      set_disp s'
        (Display.write_config_string (disp s')
           (Dice.get_dice_amount (dice s')) (Dice.get_dice_type (dice s')))
    else s1 in
  if Button_signal_eqb roll_signal PRESSED then
    let s' := set_disp s2
                (Display.write_number (disp s2)
                   (Dice.get_last_roll (dice s2))) in
    set_current_state s' IDLE
  else s2.

(** [case GENERATING] *)
Definition generating_case (s : t) (time_now : Z)
    (roll_signal : Button_signal) : t :=
  if Button_signal_eqb roll_signal RELEASED then
    let '(r, dc, g) := Dice.finish_roll (dice s) (rng s) time_now in
    let s' := set_rng (set_dice s dc) g in
    let s' := set_disp s' (Display.write_number (disp s') r) in
    set_current_state s' IDLE
  else
    let '(fired, d1) := Display.should_animate (disp s) time_now in
    let s' := set_disp s d1 in
    if fired then set_disp s' (Display.next_animation (disp s')) else s'.

(** The [switch] of [loop], applied to the signals of the iteration. *)
Definition handle_state (s : t) (time_now : Z)
    (roll_signal type_signal amount_signal : Button_signal) : t :=
  match current_state s with
  | IDLE => idle_case s time_now roll_signal type_signal amount_signal
  | CONFIG => config_case s roll_signal type_signal amount_signal
  | GENERATING => generating_case s time_now roll_signal
  end.

(** The multiplexing that closes an iteration of [loop]. *)
Definition service_display (hw : Funshield.t) (s : t) (time_now : Z)
  : t * list Arduino.hw_event :=
  if Program_state_eqb (current_state s) GENERATING
  then
    let '(d1, o) :=
      Display.multiplex_animation hw (disp s) time_now
        (Dice.get_max_digits_amount (dice s)) in
    (set_disp s d1, o)
  else
    let '(d1, o) := Display.multiplex hw (disp s) time_now in
    (set_disp s d1, o).

(** The state the [switch] of an iteration leaves, before the display
    is multiplexed. *)
Definition tick_state (s : t) (e : Arduino.env) : t :=
  let time_now := to_ulong (Arduino.millis e) in
  let '((roll_signal, type_signal, amount_signal), s1) := read_buttons s e in
  handle_state s1 time_now roll_signal type_signal amount_signal.

Definition loop (hw : Funshield.t) (s : t) (e : Arduino.env)
  : t * list Arduino.hw_event :=
  let time_now := to_ulong (Arduino.millis e) in
  service_display hw (tick_state s e) time_now.

(** The iterations of [loop] over a sequence of readings. *)
Fixpoint run (hw : Funshield.t) (s : t) (es : list Arduino.env) : t :=
  match es with
  | [] => s
  | e :: rest => run hw (fst (loop hw s e)) rest
  end.

End Sketch.

(** * Vocabulary of the properties *)

(** ** Timer: polls laid out on the interval boundaries

    A poll is tagged [true] when it is the first one made at or after the
    next interval boundary, and [false] when it repeats inside the window
    of the boundary already served.  [in_windows d last polls] says that
    every poll falls, in wrapping arithmetic, less than one interval [d]
    after the boundary it belongs to, the boundaries being [last + d],
    [last + 2 * d], ... on the counter. *)
Fixpoint in_windows (d last : Z) (polls : list (bool * Z)) : Prop :=
  match polls with
  | [] => True
  | (fresh, now) :: rest =>
      let boundary := if fresh then uadd last d else last in
      usub now boundary < d /\ in_windows d boundary rest
  end.

Definition count_true (bs : list bool) : nat :=
  length (List.filter (fun b => b) bs).

(** ** Button: samples of the pin

    A sample is the counter value of a poll with the pin levels read at
    it.  [reads p lv s] says that the button on pin [p] is read pressed
    ([lv = true]) or released in the sample [s]; [elapsed b s] that the
    debounce window counted from the last event of [b] is over at [s]. *)
Definition reads (p : Z) (lv : bool) (s : Z * (Z -> bool)) : Prop :=
  negb (snd s p) = lv.

Definition elapsed (b : Button.t) (s : Z * (Z -> bool)) : Prop :=
  Button.debounce_time <= usub (fst s) (Button.last_event b).

Definition nothing_or (sg0 sg : Button_signal) : Prop :=
  sg = NOTHING \/ sg = sg0.

(** Pin readings used in the examples: no button pressed, and only the
    button on pin [p] pressed (a pressed button pulls its pin LOW). *)
Definition all_up : Z -> bool := fun _ => true.
Definition pressing (p : Z) : Z -> bool := fun q => negb (q =? p).

(** ** Dice: valid configurations *)

Definition config_valid (d : Dice.t) : Prop :=
  0 <= Dice.current_type_index d < dice_types_length
  /\ 1 <= Dice.current_dice_amount d <= Dice.max_dice_amount.

Definition dice_valid (d : Dice.t) : Prop :=
  config_valid d /\ length (Dice.dice d) = Z.to_nat Dice.max_dice_amount.

(** The mathematical sum of a list of integers. *)
Definition sum_list_Z (l : list Z) : Z := fold_right Z.add 0 l.

(** The value [refresh_all_dice] gives a die of [faces] faces from the
    raw value [raw] of the random source. *)
Definition die_of_raw (faces raw : Z) : Z := Z.rem (raw mod 2 ^ 31) faces + 1.

(** ** Display: what the buffer should show

    [decimal n] is the decimal numeral of [n] as the standard library
    prints it, and [right_justified w s] the characters of [s] padded with
    blanks on the left up to the width [w]. *)
Definition decimal (n : Z) : string :=
  NilZero.string_of_uint (N.to_uint (Z.to_N n)).

Definition right_justified (w : nat) (s : string) : list Z :=
  replicate (w - String.length s) (chr " ") ++ codes s.

(** The character of a decimal digit. *)
Definition digit_char (k : Z) : Z := chr "0" + k.

(** The cell of the ['d'] marker: the first cell holding it, if any. *)
Fixpoint marker_offset (cs : list Z) : option nat :=
  match cs with
  | [] => None
  | c :: rest =>
      if c =? chr "d" then Some 0%nat
      else option_map S (marker_offset rest)
  end.

Fixpoint list_Z_eqb (l1 l2 : list Z) : bool :=
  match l1, l2 with
  | [], [] => true
  | x :: r1, y :: r2 => (x =? y) && list_Z_eqb r1 r2
  | _, _ => false
  end.

(** ** Sketch: the signals of an iteration, and sample runs *)

Definition roll_signal (s : Sketch.t) (e : Arduino.env) : Button_signal :=
  fst (fst (fst (Sketch.read_buttons s e))).
Definition type_signal (s : Sketch.t) (e : Arduino.env) : Button_signal :=
  snd (fst (fst (Sketch.read_buttons s e))).
Definition amount_signal (s : Sketch.t) (e : Arduino.env) : Button_signal :=
  snd (fst (Sketch.read_buttons s e)).

(** A random source, the board after [setup] at 0 ms, and the board after
    a press of the roll button at 10 ms: Idle, with no result in memory. *)
Definition rng0 : Arduino.rng :=
  Arduino.mk_rng [] (fun n => Z.of_nat n * 7919 + 13) 0.

Definition after_setup : Sketch.t :=
  fst (Sketch.setup Funshield.uno (Sketch.zero rng0) (Arduino.mk_env 0 all_up)).

Definition idle_without_result : Sketch.t :=
  fst (Sketch.loop Funshield.uno after_setup (Arduino.mk_env 10 (pressing 15))).

(** ** Button: the edges of a run of polls

    [alternating dn n] is the sequence of [n] edges a button whose flag is
    [dn] can report: the edge of [dn], then the opposite one, and so on. *)
Fixpoint alternating (dn : bool) (n : nat) : list Button_signal :=
  match n with
  | O => []
  | S n' => Button.edge dn :: alternating (negb dn) n'
  end.

(** ** Display: animation frames and rendered digits

    [animation_frames] are the frames of the rolling dot, from the start
    frame down to the end frame.  [shown_digit n i] is the decimal digit
    of [n] that belongs in cell [i] of the four, if any: the last cell
    always shows a digit, the others only from the leading digit on. *)
Definition animation_frames : list Z := [0x80; 0x40; 0x20; 0x10; 0x08; 0x04].

Definition shown_digit (n i : Z) : option Z :=
  if (i =? 3) || (10 ^ (3 - i) <=? n)
  then Some ((n / 10 ^ (3 - i)) mod 10)
  else None.

Definition shown_cell (n i : Z) : Z :=
  match shown_digit n i with
  | Some k => digit_char k
  | None => chr " "
  end.

(** The [n] consecutive integers from [start] on. *)
Fixpoint zrange (n : nat) (start : Z) : list Z :=
  match n with
  | O => []
  | S n' => start :: zrange n' (start + 1)
  end.

(** ** Sketch: what holds between the iterations

    [config_cells amount type] is the text of a configuration and
    [idle_cells d] the text of the last roll of the engine [d], the
    sentinel showing as three blanks and the character before ['0'].
    [display_valid] bounds what the display indexes with;
    [display_shows] says that the text on the display belongs to the state
    of the controller; [sketch_inv] puts them together with the states
    the dice engine can reach. *)
Definition config_cells (amount type : Z) : list Z :=
  if type <? 10
  then [chr " "; digit_char amount; chr "d"; digit_char type]
  else [digit_char amount; chr "d";
        digit_char ((type / 10) mod 10); digit_char (type mod 10)].

Definition idle_cells (d : Dice.t) : list Z :=
  if Dice.has_roll_in_memory d
  then right_justified 4 (decimal (Dice.get_last_roll d))
  else codes "   /".

Definition display_valid (d : Display.t) : Prop :=
  length (Display.display_buffer d) = 5%nat
  /\ 0 <= Display.current_active_index d < Display.display_digits
  /\ In (Display.current_animation_frame d) animation_frames
  /\ Timer.delay (Display.multiplex_timer d) = Display.multiplex_delay
  /\ Timer.delay (Display.animation_timer d) = Display.animation_delay
  /\ is_ulong (Timer.last_event (Display.multiplex_timer d))
  /\ is_ulong (Timer.last_event (Display.animation_timer d)).

Definition display_shows (s : Sketch.t) : Prop :=
  match Sketch.current_state s with
  | CONFIG =>
      Display.cells (Sketch.disp s)
        = config_cells (Dice.get_dice_amount (Sketch.dice s))
            (Dice.get_dice_type (Sketch.dice s))
  | IDLE => Display.cells (Sketch.disp s) = idle_cells (Sketch.dice s)
  | GENERATING => True
  end.

Definition sketch_inv (s : Sketch.t) : Prop :=
  Dice.reachable (Sketch.dice s)
  /\ display_valid (Sketch.disp s)
  /\ display_shows s.

(** The sample board in Generating: the roll button pressed at 10 ms and
    still held at 20 ms. *)
Definition generating_held : Sketch.t :=
  Sketch.run Funshield.uno after_setup
    [Arduino.mk_env 10 (pressing 15); Arduino.mk_env 20 (pressing 15)].

(** * Properties *)

(** ** Machine arithmetic *)

Lemma ulong_mod_value : ulong_mod = 4294967296.
Proof. reflexivity. Qed.

Lemma to_ulong_range z : is_ulong (to_ulong z).
Proof.
  unfold is_ulong, to_ulong. rewrite ulong_mod_value.
  apply Z.mod_pos_bound. lia.
Qed.

Lemma to_ulong_id z : is_ulong z -> to_ulong z = z.
Proof.
  unfold is_ulong, to_ulong. rewrite ulong_mod_value. intros H.
  apply Z.mod_small. exact H.
Qed.

Lemma uadd_range a b : is_ulong (uadd a b).
Proof. apply to_ulong_range. Qed.

Lemma uadd_to_ulong_l a b : uadd (to_ulong a) b = to_ulong (a + b).
Proof.
  unfold uadd, to_ulong. rewrite Z.add_mod_idemp_l; [reflexivity|].
  rewrite ulong_mod_value. lia.
Qed.

(** One interval after a boundary, the wrapping difference to the previous
    boundary is the interval plus the time into the window. *)
Lemma usub_after_boundary now last d :
  2 * d <= ulong_mod ->
  usub now (uadd last d) < d ->
  usub now last = usub now (uadd last d) + d.
Proof.
  unfold usub, uadd, to_ulong. rewrite ulong_mod_value. intros Hd Hr.
  rewrite Zminus_mod_idemp_r in *.
  replace (now - (last + d)) with (now - last - d) in * by lia.
  Z.div_mod_to_equations. lia.
Qed.

(** Once the interval has elapsed, moving the deadline by one interval
    takes exactly one interval off the wrapping difference. *)
Lemma usub_uadd_elapsed now last d :
  0 <= d -> d <= usub now last ->
  usub now (uadd last d) = usub now last - d.
Proof.
  unfold usub, uadd, to_ulong. rewrite ulong_mod_value. intros Hd Hle.
  rewrite Zminus_mod_idemp_r.
  replace (now - (last + d)) with (now - last - d) by lia.
  Z.div_mod_to_equations. lia.
Qed.

(** ** Timer *)

Lemma Timer_should_signal_spec tm now :
  Timer.should_signal tm now =
    if usub now (Timer.last_event tm) >=? Timer.delay tm
    then (true, Timer.mk (Timer.delay tm)
                  (uadd (Timer.last_event tm) (Timer.delay tm)))
    else (false, tm).
Proof. reflexivity. Qed.

Lemma Timer_poll_in_windows polls :
  forall tm,
    2 * Timer.delay tm <= ulong_mod ->
    in_windows (Timer.delay tm) (Timer.last_event tm) polls ->
    fst (Timer.poll tm (map snd polls)) = map fst polls
    /\ Timer.delay (snd (Timer.poll tm (map snd polls))) = Timer.delay tm
    /\ uadd (Timer.last_event (snd (Timer.poll tm (map snd polls)))) 0 =
       to_ulong (Timer.last_event tm
                 + Z.of_nat (count_true (map fst polls)) * Timer.delay tm).
Proof.
  induction polls as [|[fresh now] rest IH]; intros tm Hd Hw.
  - cbn. repeat split; try (unfold uadd; f_equal; lia).
  - cbn [in_windows] in Hw. destruct Hw as [Hnow Hrest].
    cbn [map fst snd Timer.poll]. rewrite Timer_should_signal_spec.
    assert (Hge : 0 <= usub now (if fresh then uadd (Timer.last_event tm) (Timer.delay tm)
                                   else Timer.last_event tm)).
    { unfold usub. apply to_ulong_range. }
    destruct fresh.
    + rewrite (usub_after_boundary _ _ _ Hd Hnow).
      destruct (Z.geb_spec (usub now (uadd (Timer.last_event tm) (Timer.delay tm))
                            + Timer.delay tm) (Timer.delay tm)) as [_|Hlt];
        [|lia].
      specialize (IH (Timer.mk (Timer.delay tm)
                        (uadd (Timer.last_event tm) (Timer.delay tm))) Hd Hrest).
      cbn [Timer.delay Timer.last_event] in IH.
      destruct (Timer.poll _ (map snd rest)) as [bs tm2].
      cbn [fst snd] in *. destruct IH as (IH1 & IH2 & IH3).
      repeat split; [congruence | assumption |].
      rewrite IH3. unfold count_true. cbn [List.filter length].
      unfold uadd at 1. unfold to_ulong.
      rewrite Z.add_mod_idemp_l by (rewrite ulong_mod_value; lia).
      f_equal. lia.
    + destruct (Z.geb_spec (usub now (Timer.last_event tm)) (Timer.delay tm))
        as [Hle|_]; [lia|].
      specialize (IH tm Hd Hrest).
      destruct (Timer.poll tm (map snd rest)) as [bs tm2].
      cbn [fst snd] in *. destruct IH as (IH1 & IH2 & IH3).
      repeat split; [congruence | assumption |].
      rewrite IH3. reflexivity.
Qed.

Lemma Timer_should_signal_ulong tm now :
  is_ulong (Timer.last_event tm) ->
  is_ulong (Timer.last_event (snd (Timer.should_signal tm now))).
Proof.
  intros H. rewrite Timer_should_signal_spec.
  destruct (_ >=? _); cbn; [apply uadd_range | exact H].
Qed.

Lemma Timer_poll_ulong times :
  forall tm,
    is_ulong (Timer.last_event tm) ->
    is_ulong (Timer.last_event (snd (Timer.poll tm times))).
Proof.
  induction times as [|now rest IH]; intros tm H; [exact H|].
  cbn [Timer.poll].
  pose proof (Timer_should_signal_ulong tm now H) as H1.
  destruct (Timer.should_signal tm now) as [b tm1].
  specialize (IH tm1 H1).
  destruct (Timer.poll tm1 rest) as [bs tm2]. exact IH.
Qed.

(** C1. [should_signal] fires exactly when the wrapping difference
    [time_now - last_event] has reached the interval, and a firing call
    moves [last_event] forward by the interval, not to [time_now]; a call
    that does not fire leaves the timer as it is.  A firing call takes
    exactly one interval off the wrapping difference, so that each
    elapsed boundary is served by one call.  Hence, for an interval
    of at most half the range of the counter, polls laid out on the
    successive boundaries fire at the first poll of every window and at no
    other, and after [n] boundaries [last_event] is the start plus [n]
    intervals on the wrapping counter: no double firing and no drift, also
    across the overflow of the counter. *)
Theorem Timer_should_signal_contract
    (tm : Timer.t) (now : Z) (polls : list (bool * Z)) :
  (fst (Timer.should_signal tm now) = true
   <-> Timer.delay tm <= usub now (Timer.last_event tm))
  /\ (fst (Timer.should_signal tm now) = true ->
      snd (Timer.should_signal tm now) =
        Timer.mk (Timer.delay tm) (uadd (Timer.last_event tm) (Timer.delay tm)))
  /\ (fst (Timer.should_signal tm now) = false ->
      snd (Timer.should_signal tm now) = tm)
  /\ (0 <= Timer.delay tm ->
      fst (Timer.should_signal tm now) = true ->
      usub now (Timer.last_event (snd (Timer.should_signal tm now)))
        = usub now (Timer.last_event tm) - Timer.delay tm)
  /\ (is_ulong (Timer.last_event tm) ->
      2 * Timer.delay tm <= ulong_mod ->
      in_windows (Timer.delay tm) (Timer.last_event tm) polls ->
      fst (Timer.poll tm (map snd polls)) = map fst polls
      /\ count_true (fst (Timer.poll tm (map snd polls)))
         = count_true (map fst polls)
      /\ Timer.last_event (snd (Timer.poll tm (map snd polls))) =
         to_ulong (Timer.last_event tm
                   + Z.of_nat (count_true (map fst polls)) * Timer.delay tm)).
Proof.
  rewrite Timer_should_signal_spec.
  destruct (Z.geb_spec (usub now (Timer.last_event tm)) (Timer.delay tm))
    as [Hle|Hlt]; cbn [fst snd].
  - split; [tauto|]. split; [reflexivity|]. split; [discriminate|].
    split; [intros Hpos _; apply usub_uadd_elapsed; assumption|].
    intros Hu Hd Hw.
    destruct (Timer_poll_in_windows polls tm Hd Hw) as (H1 & _ & H3).
    rewrite H1. split; [reflexivity|]. split; [reflexivity|].
    rewrite <- H3. unfold uadd. rewrite Z.add_0_r. symmetry.
    apply to_ulong_id, Timer_poll_ulong, Hu.
  - split; [split; [discriminate | lia]|].
    split; [discriminate|]. split; [reflexivity|].
    split; [discriminate|].
    intros Hu Hd Hw.
    destruct (Timer_poll_in_windows polls tm Hd Hw) as (H1 & _ & H3).
    rewrite H1. split; [reflexivity|]. split; [reflexivity|].
    rewrite <- H3. unfold uadd. rewrite Z.add_0_r. symmetry.
    apply to_ulong_id, Timer_poll_ulong, Hu.
Qed.

(** A timer of 50 ms armed 60 ms before the counter overflows: two polls
    in the window of the first boundary, then one poll in each of the next
    two windows, which lie beyond the overflow. *)
Lemma Timer_should_signal_contract_witness :
  let tm := Timer.mk 50 (ulong_mod - 60) in
  let polls := [(true, ulong_mod - 2); (false, ulong_mod - 1);
                (true, 45); (true, 139)] in
  fst (Timer.poll tm (map snd polls)) = [true; false; true; true]
  /\ Timer.last_event (snd (Timer.poll tm (map snd polls))) = 90.
Proof.
  intros tm polls.
  destruct (Timer_should_signal_contract tm 0 polls) as (_ & _ & _ & _ & H).
  destruct H as (H1 & _ & H3).
  - vm_compute. split; [discriminate | reflexivity].
  - vm_compute. discriminate.
  - vm_compute. repeat split.
  - split; [exact H1 | exact H3].
Defined.

(** ** Button *)

Lemma Button_poll_app l1 :
  forall b l2,
    Button.poll b (l1 ++ l2) =
      (fst (Button.poll b l1) ++ fst (Button.poll (snd (Button.poll b l1)) l2),
       snd (Button.poll (snd (Button.poll b l1)) l2)).
Proof.
  induction l1 as [|[now rd] rest IH]; intros b l2.
  - cbn. destruct (Button.poll b l2); reflexivity.
  - cbn [app Button.poll].
    destruct (Button.get_signal rd b now) as [sg b1].
    rewrite IH.
    destruct (Button.poll b1 rest) as [sgs b2]. cbn [fst snd].
    destruct (Button.poll b2 l2) as [sgs' b3]. reflexivity.
Qed.

Lemma count_edges_app l1 l2 :
  Button.count_edges (l1 ++ l2) =
    (Button.count_edges l1 + Button.count_edges l2)%nat.
Proof.
  unfold Button.count_edges. rewrite List.filter_app, length_app. reflexivity.
Qed.

Lemma count_edges_nothing sgs :
  Forall (fun sg => sg = NOTHING) sgs -> Button.count_edges sgs = 0%nat.
Proof.
  induction 1 as [|sg sgs Hsg _ IH]; [reflexivity|].
  subst sg. exact IH.
Qed.

Lemma nothing_or_weaken sg0 sgs :
  Forall (fun sg => sg = NOTHING) sgs -> Forall (nothing_or sg0) sgs.
Proof.
  intros H. eapply Forall_impl; [exact H|].
  intros sg Hsg. left. exact Hsg.
Qed.

(** While the pin reads the level the button already holds, no poll
    signals; the button keeps its flag and its time stamp, and leaves the
    cooldown once a poll finds the debounce window over. *)
Lemma Button_poll_stable samples :
  forall b,
    Forall (reads (Button.pin b) (Button.down b)) samples ->
    Forall (fun sg => sg = NOTHING) (fst (Button.poll b samples))
    /\ Button.down (snd (Button.poll b samples)) = Button.down b
    /\ Button.pin (snd (Button.poll b samples)) = Button.pin b
    /\ Button.last_event (snd (Button.poll b samples)) = Button.last_event b
    /\ (Button.debouncing b = false \/ Exists (elapsed b) samples ->
        Button.debouncing (snd (Button.poll b samples)) = false).
Proof.
  induction samples as [|[now rd] rest IH]; intros b Hall.
  - cbn. repeat split; [constructor|].
    intros [H|H]; [exact H | inversion H].
  - apply Forall_cons in Hall. destruct Hall as [Hs Hrest].
    unfold reads in Hs. cbn [snd] in Hs.
    cbn [Button.poll]. unfold Button.get_signal, Button.is_pressed.
    destruct b as [deb dn p le]. cbn [Button.debouncing Button.down
      Button.pin Button.last_event] in *.
    destruct deb.
    + destruct (Z.geb_spec (usub now le) Button.debounce_time) as [Hge|Hlt].
      * specialize (IH (Button.mk false dn p le) Hrest).
        cbn [Button.debouncing Button.down Button.pin Button.last_event] in IH.
        destruct (Button.poll _ rest) as [sgs b2]. cbn [fst snd] in *.
        destruct IH as (I1 & I2 & I3 & I4 & I5).
        repeat split; try assumption; [constructor; auto|].
        intros _. apply I5. left. reflexivity.
      * specialize (IH (Button.mk true dn p le) Hrest).
        cbn [Button.debouncing Button.down Button.pin Button.last_event] in IH.
        destruct (Button.poll _ rest) as [sgs b2]. cbn [fst snd] in *.
        destruct IH as (I1 & I2 & I3 & I4 & I5).
        repeat split; try assumption; [constructor; auto|].
        intros [H|H]; [discriminate|]. apply I5. right.
        apply Exists_cons in H. destruct H as [H|H]; [|exact H].
        unfold elapsed in H. cbn in H. lia.
    + rewrite Hs.
      assert (Hstep : (if dn
                       then if negb dn
                            then (RELEASED, Button.mk true false p now)
                            else (NOTHING, Button.mk false dn p le)
                       else if dn
                            then (PRESSED, Button.mk true true p now)
                            else (NOTHING, Button.mk false dn p le))
                      = (NOTHING, Button.mk false dn p le)).
      { destruct dn; reflexivity. }
      rewrite Hstep. specialize (IH (Button.mk false dn p le) Hrest).
      cbn [Button.debouncing Button.down Button.pin Button.last_event] in IH.
      destruct (Button.poll _ rest) as [sgs b2]. cbn [fst snd] in *.
      destruct IH as (I1 & I2 & I3 & I4 & I5).
      repeat split; try assumption; [constructor; auto|].
      intros _. apply I5. left. reflexivity.
Qed.

(** While the pin reads the level opposite to the button's flag, the
    polls are silent as long as the cooldown lasts; the first poll outside
    the cooldown reports the edge, and the polls after it are silent
    again. *)
Lemma Button_poll_pending post :
  forall b,
    Forall (reads (Button.pin b) (negb (Button.down b))) post ->
    (Forall (fun sg => sg = NOTHING) (fst (Button.poll b post))
     /\ Button.down (snd (Button.poll b post)) = Button.down b
     /\ Button.pin (snd (Button.poll b post)) = Button.pin b
     /\ Button.last_event (snd (Button.poll b post)) = Button.last_event b
     /\ (Button.debouncing b = true \/ post = [])
     /\ (Button.debouncing b = false \/ Exists (elapsed b) post ->
         Button.debouncing (snd (Button.poll b post)) = false))
    \/ (Button.count_edges (fst (Button.poll b post)) = 1%nat
        /\ Forall (nothing_or (Button.edge (Button.down b)))
             (fst (Button.poll b post))
        /\ Button.down (snd (Button.poll b post)) = negb (Button.down b)
        /\ Button.pin (snd (Button.poll b post)) = Button.pin b).
Proof.
  induction post as [|[now rd] rest IH]; intros b Hall.
  - left. cbn. repeat split; [constructor | right; reflexivity |].
    intros [H|H]; [exact H | inversion H].
  - apply Forall_cons in Hall. destruct Hall as [Hs Hrest].
    unfold reads in Hs. cbn [snd] in Hs.
    cbn [Button.poll]. unfold Button.get_signal, Button.is_pressed.
    destruct b as [deb dn p le]. cbn [Button.debouncing Button.down
      Button.pin Button.last_event] in *.
    destruct deb.
    + (* in the cooldown: silent, and the induction goes on *)
      assert (Hcool : exists deb',
                 (if usub now le >=? Button.debounce_time
                  then (NOTHING, Button.mk false dn p le)
                  else (NOTHING, Button.mk true dn p le))
                 = (NOTHING, Button.mk deb' dn p le)
                 /\ (Button.debounce_time <= usub now le -> deb' = false)).
      { destruct (Z.geb_spec (usub now le) Button.debounce_time) as [Hge|Hlt].
        - exists false. split; [reflexivity | reflexivity].
        - exists true. split; [reflexivity | lia]. }
      destruct Hcool as (deb' & -> & Hdeb').
      specialize (IH (Button.mk deb' dn p le) Hrest).
      cbn [Button.debouncing Button.down Button.pin Button.last_event] in IH.
      destruct (Button.poll _ rest) as [sgs b2]. cbn [fst snd] in *.
      destruct IH as [(I1 & I2 & I3 & I4 & I5 & I6) | (I1 & I2 & I3 & I4)].
      * left. repeat split; try assumption;
          [constructor; auto | left; reflexivity |].
        intros [H|H]; [discriminate|].
        apply Exists_cons in H. destruct H as [H|H].
        -- unfold elapsed in H. cbn in H. specialize (Hdeb' H). subst deb'.
           apply I6. left. reflexivity.
        -- apply I6. right. exact H.
      * right. repeat split; try assumption.
        constructor; [left; reflexivity | exact I2].
    + (* outside the cooldown: this poll reports the edge *)
      right. rewrite Hs.
      assert (Hstep : (if dn
                       then if negb (negb dn)
                            then (RELEASED, Button.mk true false p now)
                            else (NOTHING, Button.mk false dn p le)
                       else if negb dn
                            then (PRESSED, Button.mk true true p now)
                            else (NOTHING, Button.mk false dn p le))
                      = (Button.edge dn, Button.mk true (negb dn) p now)).
      { destruct dn; reflexivity. }
      rewrite Hstep.
      assert (Hq : Forall (reads (Button.pin (Button.mk true (negb dn) p now))
                             (Button.down (Button.mk true (negb dn) p now)))
                     rest) by exact Hrest.
      destruct (Button_poll_stable rest _ Hq) as (S1 & S2 & S3 & _).
      destruct (Button.poll _ rest) as [sgs b2]. cbn [fst snd] in *.
      repeat split; try assumption.
      * change (Button.edge dn :: sgs) with ([Button.edge dn] ++ sgs).
        rewrite count_edges_app, (count_edges_nothing sgs S1).
        destruct dn; reflexivity.
      * constructor; [right; reflexivity|].
        apply nothing_or_weaken, S1.
Qed.



(** ** Dice: configuration *)

Lemma to_int_small z : -32768 <= z <= 32767 -> to_int z = z.
Proof.
  intros H. unfold to_int.
  rewrite Z.mod_small by lia. lia.
Qed.

Lemma dice_types_length_value : dice_types_length = 7.
Proof. reflexivity. Qed.

Lemma Dice_init_config_valid d : config_valid (Dice.init d).
Proof. repeat split; vm_compute; congruence. Qed.

Lemma Dice_next_dice_type_index d :
  0 <= Dice.current_type_index d < dice_types_length ->
  Dice.current_type_index (Dice.next_dice_type d)
    = (Dice.current_type_index d + 1) mod dice_types_length.
Proof.
  rewrite dice_types_length_value. intros H.
  unfold Dice.next_dice_type, Dice.set_current_type_index.
  cbn [Dice.current_type_index]. rewrite dice_types_length_value.
  rewrite to_int_small by lia.
  apply Z.rem_mod_nonneg; lia.
Qed.

Lemma Dice_next_dice_amount_amount d :
  1 <= Dice.current_dice_amount d <= Dice.max_dice_amount ->
  Dice.current_dice_amount (Dice.next_dice_amount d)
    = if Dice.current_dice_amount d =? Dice.max_dice_amount
      then 1 else Dice.current_dice_amount d + 1.
Proof.
  unfold Dice.max_dice_amount. intros H.
  unfold Dice.next_dice_amount, Dice.set_current_dice_amount.
  cbn [Dice.current_dice_amount]. unfold Dice.max_dice_amount.
  rewrite to_int_small by lia.
  destruct (Z.gtb_spec (Dice.current_dice_amount d + 1) 9) as [Hgt|Hle];
    destruct (Z.eqb_spec (Dice.current_dice_amount d) 9) as [He|Hne];
    cbn [Dice.current_dice_amount]; lia.
Qed.

Lemma Dice_next_dice_type_valid d :
  config_valid d -> config_valid (Dice.next_dice_type d).
Proof.
  intros [Hi Ha]. split.
  - rewrite (Dice_next_dice_type_index d Hi).
    apply Z.mod_pos_bound. rewrite dice_types_length_value. lia.
  - exact Ha.
Qed.

Lemma Dice_next_dice_amount_valid d :
  config_valid d -> config_valid (Dice.next_dice_amount d).
Proof.
  intros [Hi Ha]. split.
  - unfold Dice.next_dice_amount.
    destruct (_ >? _); exact Hi.
  - rewrite (Dice_next_dice_amount_amount d Ha).
    unfold Dice.max_dice_amount in *.
    destruct (Z.eqb_spec (Dice.current_dice_amount d) 9); lia.
Qed.

Lemma Dice_apply_ops_valid ops :
  forall d, config_valid d -> config_valid (Dice.apply_ops d ops).
Proof.
  induction ops as [|o ops IH]; intros d Hd; [exact Hd|].
  cbn [Dice.apply_ops fold_left]. apply IH.
  destruct o; [apply Dice_next_dice_type_valid | apply Dice_next_dice_amount_valid];
    exact Hd.
Qed.

(** A valid type index selects an entry of the table of face counts. *)
Lemma Dice_get_dice_type_in_table d :
  0 <= Dice.current_type_index d < dice_types_length ->
  In (Dice.get_dice_type d) dice_types.
Proof.
  rewrite dice_types_length_value. intros H. unfold Dice.get_dice_type.
  assert (Hc : Dice.current_type_index d = 0 \/ Dice.current_type_index d = 1
               \/ Dice.current_type_index d = 2 \/ Dice.current_type_index d = 3
               \/ Dice.current_type_index d = 4 \/ Dice.current_type_index d = 5
               \/ Dice.current_type_index d = 6) by lia.
  destruct Hc as [-> | [-> | [-> | [-> | [-> | [-> | ->]]]]]];
    cbn; tauto.
Qed.

(** C5. After [init] and any sequence of [next_dice_type] and
    [next_dice_amount], the type index is an index of the table of the
    seven face counts 4, 6, 8, 10, 12, 20, 100 and the amount is between 1
    and 9; the next increment of the type wraps modulo the length of the
    table, and the next increment of the amount goes back to 1 after 9. *)
Theorem Dice_configuration_invariant (d0 : Dice.t) (ops : list Dice.config_op) :
  dice_types = [4; 6; 8; 10; 12; 20; 100]
  /\ 0 <= Dice.current_type_index (Dice.apply_ops (Dice.init d0) ops)
       < dice_types_length
  /\ In (Dice.get_dice_type (Dice.apply_ops (Dice.init d0) ops)) dice_types
  /\ 1 <= Dice.current_dice_amount (Dice.apply_ops (Dice.init d0) ops) <= 9
  /\ Dice.current_type_index
       (Dice.next_dice_type (Dice.apply_ops (Dice.init d0) ops))
     = (Dice.current_type_index (Dice.apply_ops (Dice.init d0) ops) + 1)
         mod dice_types_length
  /\ Dice.current_dice_amount
       (Dice.next_dice_amount (Dice.apply_ops (Dice.init d0) ops))
     = (if Dice.current_dice_amount (Dice.apply_ops (Dice.init d0) ops) =? 9
        then 1
        else Dice.current_dice_amount (Dice.apply_ops (Dice.init d0) ops) + 1).
Proof.
  pose proof (Dice_apply_ops_valid ops _ (Dice_init_config_valid d0)) as [Hi Ha].
  split; [reflexivity|]. split; [exact Hi|].
  split; [apply Dice_get_dice_type_in_table, Hi|].
  split; [exact Ha|].
  split; [apply Dice_next_dice_type_index, Hi|].
  apply Dice_next_dice_amount_amount, Ha.
Qed.

(** ** Dice: rolling *)

(** [refresh_all_dice] touches the dice array only. *)
Lemma Dice_refresh_loop_frame n :
  forall d g i,
    let r := Dice.refresh_all_dice_loop n d g i in
    Dice.roll_start_time (fst r) = Dice.roll_start_time d
    /\ Dice.current_dice_amount (fst r) = Dice.current_dice_amount d
    /\ Dice.current_type_index (fst r) = Dice.current_type_index d
    /\ Dice.last_roll (fst r) = Dice.last_roll d
    /\ Dice.is_first_roll (fst r) = Dice.is_first_roll d
    /\ length (Dice.dice (fst r)) = length (Dice.dice d).
Proof.
  induction n as [|n IH]; intros d g i; cbn [Dice.refresh_all_dice_loop].
  - cbn. repeat split.
  - destruct (Arduino.random _ g) as [v g1].
    specialize (IH (Dice.set_dice d (array_set (Dice.dice d) i (to_int (v + 1))))
                  g1 (to_int (i + 1))).
    cbn zeta in *. cbn [Dice.set_dice Dice.roll_start_time
      Dice.current_dice_amount Dice.current_type_index Dice.last_roll
      Dice.is_first_roll Dice.dice] in IH.
    destruct IH as (I1 & I2 & I3 & I4 & I5 & I6).
    repeat split; try assumption.
    rewrite I6. unfold array_set. destruct (0 <=? i); [|reflexivity].
    apply length_insert.
Qed.

Lemma Arduino_random_spec howbig g :
  howbig <> 0 ->
  Arduino.random howbig g =
    (Z.rem (Arduino.stream g (Arduino.drawn g) mod 2 ^ 31) howbig,
     Arduino.mk_rng (Arduino.seeds g) (Arduino.stream g) (S (Arduino.drawn g))).
Proof.
  intros H. unfold Arduino.random.
  destruct (Z.eqb_spec howbig 0); [contradiction | reflexivity].
Qed.

Lemma die_of_raw_range faces raw :
  1 <= faces -> 1 <= die_of_raw faces raw <= faces.
Proof.
  intros H. unfold die_of_raw.
  assert (0 <= raw mod 2 ^ 31) by (apply Z.mod_pos_bound; lia).
  rewrite Z.rem_mod_nonneg by lia.
  pose proof (Z.mod_pos_bound (raw mod 2 ^ 31) faces). lia.
Qed.

(** The loop of [refresh_all_dice] from index [i]: it takes one raw value
    of the random source for each of the [n] dice it writes, in order, and
    leaves the other cells alone. *)
Lemma Dice_refresh_loop_cells n :
  forall d g i,
    0 <= i ->
    i + Z.of_nat n <= Z.of_nat (length (Dice.dice d)) <= 9 ->
    1 <= Dice.get_dice_type d <= 100 ->
    let r := Dice.refresh_all_dice_loop n d g i in
    Arduino.drawn (snd r) = (Arduino.drawn g + n)%nat
    /\ Arduino.stream (snd r) = Arduino.stream g
    /\ Arduino.seeds (snd r) = Arduino.seeds g
    /\ forall j : nat,
         (i <= Z.of_nat j < i + Z.of_nat n ->
          Dice.dice (fst r) !! j =
            Some (die_of_raw (Dice.get_dice_type d)
                    (Arduino.stream g (Arduino.drawn g + (j - Z.to_nat i))%nat)))
         /\ (~ (i <= Z.of_nat j < i + Z.of_nat n) ->
             Dice.dice (fst r) !! j = Dice.dice d !! j).
Proof.
  induction n as [|n IH]; intros d g i Hi Hlen Hf;
    cbn [Dice.refresh_all_dice_loop].
  - cbn. split; [lia|]. split; [reflexivity|]. split; [reflexivity|].
    intros j. split; [lia | reflexivity].
  - fold (Dice.get_dice_type d). rewrite Arduino_random_spec by lia.
    set (v := Z.rem _ _).
    assert (Hv : to_int (v + 1) = die_of_raw (Dice.get_dice_type d)
                                   (Arduino.stream g (Arduino.drawn g))).
    { pose proof (die_of_raw_range (Dice.get_dice_type d)
                    (Arduino.stream g (Arduino.drawn g)) ltac:(lia)) as Hr.
      unfold die_of_raw in *. fold v in Hr |- *.
      apply to_int_small. lia. }
    rewrite Hv. rewrite (to_int_small (i + 1)) by lia.
    set (d1 := Dice.set_dice d _). set (g1 := Arduino.mk_rng _ _ _).
    assert (Hlen1 : length (Dice.dice d1) = length (Dice.dice d)).
    { subst d1. cbn [Dice.set_dice Dice.dice]. unfold array_set.
      destruct (0 <=? i); [apply length_insert | reflexivity]. }
    specialize (IH d1 g1 (i + 1) ltac:(lia) ltac:(lia) Hf).
    cbn zeta in *. destruct IH as (I1 & I2 & I3 & I4).
    subst g1. cbn [Arduino.drawn Arduino.stream Arduino.seeds] in *.
    split; [lia|]. split; [assumption|]. split; [assumption|].
    intros j. split.
    + intros Hj. destruct (I4 j) as [Ia Ib].
      destruct (Z.eq_dec (Z.of_nat j) i) as [He|Hne].
      * rewrite Ib by lia. subst d1. cbn [Dice.set_dice Dice.dice].
        unfold array_set. destruct (Z.leb_spec 0 i) as [_|]; [|lia].
        replace (Z.to_nat i) with j by lia.
        replace (Arduino.drawn g + (j - j))%nat with (Arduino.drawn g) by lia.
        apply list_lookup_insert_eq. lia.
      * rewrite Ia by lia. unfold Dice.get_dice_type. subst d1.
        cbn [Dice.set_dice Dice.current_type_index].
        do 3 f_equal. lia.
    + intros Hj. destruct (I4 j) as [_ Ib].
      rewrite Ib by lia. subst d1. cbn [Dice.set_dice Dice.dice].
      unfold array_set. destruct (Z.leb_spec 0 i) as [_|]; [|lia].
      apply list_lookup_insert_ne. lia.
Qed.

(** The loop of [get_dice_sum] adds the cells without overflow when they
    are dice of at most [F] faces. *)
Lemma Dice_sum_loop_spec n :
  forall d i sum F,
    0 <= i -> 1 <= F -> 0 <= sum ->
    sum + Z.of_nat n * F <= 32767 -> i + Z.of_nat n <= 32767 ->
    (forall j : nat, i <= Z.of_nat j < i + Z.of_nat n ->
       exists v, Dice.dice d !! j = Some v /\ 1 <= v <= F) ->
    Dice.get_dice_sum_loop n d i sum
      = sum + sum_list_Z (take n (drop (Z.to_nat i) (Dice.dice d)))
    /\ sum + Z.of_nat n <= Dice.get_dice_sum_loop n d i sum
       <= sum + Z.of_nat n * F.
Proof.
  induction n as [|n IH]; intros d i sum F Hi HF Hs Hmax Himax Hcells;
    cbn [Dice.get_dice_sum_loop].
  - rewrite firstn_O. cbn. lia.
  - destruct (Hcells (Z.to_nat i) ltac:(lia)) as (v & Hv & Hvr).
    unfold array_get. destruct (Z.leb_spec 0 i) as [_|]; [|lia].
    rewrite Hv. cbn [default from_option id].
    rewrite (to_int_small (i + 1)) by lia.
    rewrite (to_int_small (sum + v)) by nia.
    destruct (IH d (i + 1) (sum + v) F ltac:(lia) HF ltac:(lia) ltac:(nia)
                ltac:(lia)) as [E B].
    { intros j Hj. apply Hcells. lia. }
    rewrite E. rewrite E in B.
    rewrite (drop_S _ _ _ Hv), firstn_cons.
    replace (Z.to_nat (i + 1)) with (S (Z.to_nat i)) in * by lia.
    unfold sum_list_Z in *. cbn [fold_right].
    split; [lia | nia].
Qed.

Lemma Arduino_randomSeed_stream seed g :
  Arduino.stream (Arduino.randomSeed seed g) = Arduino.stream g
  /\ Arduino.drawn (Arduino.randomSeed seed g) = Arduino.drawn g.
Proof. unfold Arduino.randomSeed. destruct (seed =? 0); split; reflexivity. Qed.

(** [finish_roll] leaves the configuration and the size of the array. *)
Lemma Dice_finish_roll_frame d g now :
  let d' := snd (fst (Dice.finish_roll d g now)) in
  Dice.current_dice_amount d' = Dice.current_dice_amount d
  /\ Dice.current_type_index d' = Dice.current_type_index d
  /\ length (Dice.dice d') = length (Dice.dice d)
  /\ Dice.last_roll d' = fst (fst (Dice.finish_roll d g now)).
Proof.
  unfold Dice.finish_roll, Dice.refresh_all_dice.
  destruct (Dice.is_first_roll d).
  - match goal with
    | |- context [Dice.refresh_all_dice_loop ?n ?d1 ?g1 ?i] =>
        pose proof (Dice_refresh_loop_frame n d1 g1 i) as H;
        destruct (Dice.refresh_all_dice_loop n d1 g1 i) as [d2 g2]
    end.
    cbn in *. tauto.
  - match goal with
    | |- context [Dice.refresh_all_dice_loop ?n ?d1 ?g1 ?i] =>
        pose proof (Dice_refresh_loop_frame n d1 g1 i) as H;
        destruct (Dice.refresh_all_dice_loop n d1 g1 i) as [d2 g2]
    end.
    cbn in *. tauto.
Qed.

Lemma Dice_reachable_valid d : Dice.reachable d -> dice_valid d.
Proof.
  induction 1 as [ | d _ IH | d now _ IH | d g now _ IH | d _ IH | d _ IH
                 | d _ IH ].
  - split; [apply Dice_init_config_valid | reflexivity].
  - split; [apply Dice_init_config_valid | apply IH].
  - exact IH.
  - destruct (Dice_finish_roll_frame d g now) as (F1 & F2 & F3 & _).
    destruct IH as [[Hi Ha] Hl].
    split; [split|]; congruence.
  - destruct IH as [Hc Hl].
    split; [apply Dice_next_dice_type_valid, Hc | exact Hl].
  - destruct IH as [Hc Hl].
    split; [apply Dice_next_dice_amount_valid, Hc|].
    unfold Dice.next_dice_amount. destruct (_ >? _); exact Hl.
  - exact IH.
Qed.

Lemma dice_types_range faces : In faces dice_types -> 4 <= faces <= 100.
Proof. cbn. intros H. repeat (destruct H as [<-|H]; [lia|]). contradiction. Qed.

(** One refresh of the dice followed by their sum, in a valid state. *)
Lemma Dice_roll_core d g :
  dice_valid d ->
  let r := Dice.refresh_all_dice d g in
  let count := Dice.current_dice_amount d in
  let faces := Dice.get_dice_type d in
  Arduino.drawn (snd r) = (Arduino.drawn g + Z.to_nat count)%nat
  /\ (forall i : nat, (i < Z.to_nat count)%nat ->
        Dice.dice (fst r) !! i =
          Some (die_of_raw faces (Arduino.stream g (Arduino.drawn g + i)%nat)))
  /\ Dice.get_dice_sum (fst r)
     = sum_list_Z (take (Z.to_nat count) (Dice.dice (fst r)))
  /\ count <= Dice.get_dice_sum (fst r) <= faces * count.
Proof.
  intros [[Hi Ha] Hl]. cbn zeta. unfold Dice.refresh_all_dice.
  set (count := Dice.current_dice_amount d).
  set (faces := Dice.get_dice_type d).
  pose proof (dice_types_range _ (Dice_get_dice_type_in_table d Hi)) as Hf.
  fold faces in Hf. unfold Dice.max_dice_amount in *. fold count in Ha.
  pose proof (Dice_refresh_loop_frame (Z.to_nat count) d g 0)
    as (_ & F2 & _ & _ & _ & _).
  pose proof (Dice_refresh_loop_cells (Z.to_nat count) d g 0 ltac:(lia)
                ltac:(lia) ltac:(fold faces; lia))
    as (C1 & _ & _ & C4).
  fold faces in C4.
  set (r := Dice.refresh_all_dice_loop (Z.to_nat count) d g 0) in *.
  assert (Hcells : forall i : nat, (i < Z.to_nat count)%nat ->
            Dice.dice (fst r) !! i =
              Some (die_of_raw faces (Arduino.stream g (Arduino.drawn g + i)%nat))).
  { intros i Hlt. destruct (C4 i) as [Ca _].
    rewrite Ca by lia. do 3 f_equal. change (Z.to_nat 0) with 0%nat. lia. }
  split; [exact C1|]. split; [exact Hcells|].
  unfold Dice.get_dice_sum. rewrite F2. fold count.
  destruct (Dice_sum_loop_spec (Z.to_nat count) (fst r) 0 0 faces
              ltac:(lia) ltac:(lia) ltac:(lia) ltac:(nia) ltac:(lia)) as [E B].
  { intros j Hj. eexists. split; [apply Hcells; lia|].
    apply die_of_raw_range. lia. }
  rewrite E. rewrite E in B. change (Z.to_nat 0) with 0%nat in *.
  rewrite drop_0 in *. rewrite Z2Nat.id in B by lia.
  split; [lia|]. lia.
Qed.

(** [finish_roll] is a refresh of the dice and their sum, run on the
    engine and the random source as the seeding of the first roll leaves
    them: same configuration, same raw values to come. *)
Lemma Dice_finish_roll_unfold d g time_now :
  exists d1 g1,
    Dice.finish_roll d g time_now =
      (Dice.get_dice_sum (fst (Dice.refresh_all_dice d1 g1)),
       Dice.set_last_roll (fst (Dice.refresh_all_dice d1 g1))
         (Dice.get_dice_sum (fst (Dice.refresh_all_dice d1 g1))),
       snd (Dice.refresh_all_dice d1 g1))
    /\ (dice_valid d -> dice_valid d1)
    /\ Dice.current_dice_amount d1 = Dice.current_dice_amount d
    /\ Dice.get_dice_type d1 = Dice.get_dice_type d
    /\ Arduino.stream g1 = Arduino.stream g
    /\ Arduino.drawn g1 = Arduino.drawn g.
Proof.
  unfold Dice.finish_roll. destruct (Dice.is_first_roll d).
  - exists (Dice.mk (Dice.roll_start_time d) (Dice.dice d)
              (Dice.current_dice_amount d) (Dice.current_type_index d)
              (Dice.last_roll d) false),
           (Arduino.randomSeed
              (uadd (usub time_now (Dice.roll_start_time d)) time_now) g).
    split.
    + destruct (Dice.refresh_all_dice _ _) as [d2 g2]. reflexivity.
    + split; [intros H; exact H|]. split; [reflexivity|].
      split; [reflexivity|]. apply Arduino_randomSeed_stream.
  - exists d, g. split.
    + destruct (Dice.refresh_all_dice _ _) as [d2 g2]. reflexivity.
    + split; [intros H; exact H|]. repeat split.
Qed.

(** C4. In every state the dice engine can reach, [finish_roll] keeps the
    configuration, takes one fresh raw value of the random source for each
    of the [count] dice and stores in die [i] the value [1 + raw mod faces]
    of the [i]-th of them, which lies in [1, faces]; it returns the sum of
    these [count] dice, which is also the new stored result, and this sum
    lies between [count] and [faces * count]. *)
Theorem Dice_finish_roll_sum_bounds
    (d : Dice.t) (g : Arduino.rng) (time_now : Z) :
  Dice.reachable d ->
  let r := Dice.finish_roll d g time_now in
  let result := fst (fst r) in
  let d' := snd (fst r) in
  let count := Dice.current_dice_amount d in
  let faces := Dice.get_dice_type d in
  In faces dice_types
  /\ 1 <= count <= 9
  /\ Dice.current_dice_amount d' = count
  /\ Dice.get_dice_type d' = faces
  /\ Arduino.drawn (snd r) = (Arduino.drawn g + Z.to_nat count)%nat
  /\ (forall i : nat, (i < Z.to_nat count)%nat ->
        Dice.dice d' !! i =
          Some (die_of_raw faces (Arduino.stream g (Arduino.drawn g + i)%nat))
        /\ 1 <= die_of_raw faces (Arduino.stream g (Arduino.drawn g + i)%nat)
           <= faces)
  /\ result = sum_list_Z (take (Z.to_nat count) (Dice.dice d'))
  /\ Dice.last_roll d' = result
  /\ count <= result <= faces * count.
Proof.
  intros Hreach r result d' count faces.
  pose proof (Dice_reachable_valid d Hreach) as Hvalid.
  destruct Hvalid as [[Hi Ha] Hl].
  pose proof (Dice_get_dice_type_in_table d Hi) as Hin. fold faces in Hin.
  pose proof (dice_types_range _ Hin) as Hf.
  destruct (Dice_finish_roll_frame d g time_now) as (F1 & F2 & _ & F4).
  fold r in F1, F2, F4. fold d' in F1, F2, F4. fold result in F4.
  split; [exact Hin|]. split; [exact Ha|]. split; [exact F1|].
  split; [unfold Dice.get_dice_type, faces; rewrite F2; reflexivity|].
  destruct (Dice_finish_roll_unfold d g time_now)
    as (d1 & g1 & Hr & Hv1 & Hc1 & Hf1 & Hs1 & Hn1).
  fold r in Hr. fold count in Hc1. fold faces in Hf1.
  specialize (Hv1 (conj (conj Hi Ha) Hl)).
  destruct (Dice_roll_core d1 g1 Hv1) as (R1 & R2 & R3 & R4).
  rewrite Hc1, Hf1, Hs1, Hn1 in *.
  subst result d'. rewrite Hr. cbn [fst snd Dice.set_last_roll Dice.dice
    Dice.last_roll].
  split; [exact R1|].
  split.
  { intros i Hlt. split; [apply R2, Hlt | apply die_of_raw_range; lia]. }
  split; [exact R3|]. split; [reflexivity | exact R4].
Qed.

(** Two six-sided dice after one change of the amount: a roll on raw
    values 13 and 7932 gives 2 and 1, and stores and returns 3. *)
Lemma Dice_finish_roll_sum_bounds_witness :
  let d := Dice.next_dice_amount (Dice.init Dice.zero) in
  let g := Arduino.mk_rng [] (fun n => Z.of_nat n * 7919 + 13) 0 in
  fst (fst (Dice.finish_roll d g 5)) = 3
  /\ 2 <= fst (fst (Dice.finish_roll d g 5)) <= 6 * 2.
Proof.
  intros d g.
  assert (Hreach : Dice.reachable d).
  { apply Dice.reach_next_dice_amount, Dice.reach_init. }
  destruct (Dice_finish_roll_sum_bounds d g 5 Hreach)
    as (_ & _ & _ & _ & _ & _ & _ & _ & H).
  split; [reflexivity | exact H].
Defined.

(** ** Display: text mode *)

Lemma list_Z_eqb_eq l1 : forall l2, list_Z_eqb l1 l2 = true -> l1 = l2.
Proof.
  induction l1 as [|x r1 IH]; intros [|y r2] H; cbn in H;
    try discriminate; [reflexivity|].
  apply andb_true_iff in H. destruct H as [Hxy Hr].
  apply Z.eqb_eq in Hxy. subst y. f_equal. apply IH, Hr.
Qed.

Lemma buffer_of_length_5 (buf : list Z) :
  length buf = 5%nat -> exists a b c e f, buf = [a; b; c; e; f].
Proof.
  destruct buf as [|a [|b [|c [|e [|f [|x r]]]]]]; intros H;
    try discriminate H.
  exists a, b, c, e, f. reflexivity.
Qed.

(** The cells [write_number] leaves do not depend on what the buffer
    held: each of the four cells is written, by the digits or by the
    blanks. *)
Lemma Display_write_number_cells_fresh d n :
  length (Display.display_buffer d) = 5%nat ->
  Display.cells (Display.write_number d n)
    = Display.cells (Display.write_number Display.zero n).
Proof.
  intros Hlen. destruct (buffer_of_length_5 _ Hlen) as (a & b & c & e & f & Hb).
  unfold Display.cells, Display.write_number, Display.write_next_number.
  rewrite Hb. change (Display.display_buffer Display.zero) with [0; 0; 0; 0; 0].
  change (Z.to_nat Display.display_digits) with 4%nat.
  change (to_int (Display.display_digits - 1)) with 3.
  cbn [Display.write_next_number_loop].
  repeat match goal with
         | |- context [if ?c then _ else _] => destruct c
         end; reflexivity.
Qed.

Lemma Display_write_number_decimal_check :
  forallb (fun k =>
             list_Z_eqb
               (Display.cells (Display.write_number Display.zero (Z.of_nat k)))
               (right_justified 4 (decimal (Z.of_nat k))))
    (seq 0 (Z.to_nat 10000)) = true.
Proof. vm_compute. reflexivity. Qed.

(** C8. For every [n] from 0 to 9999, [write_number n] leaves in the four
    cells of the display exactly the decimal digits of [n], right-justified
    with the lowest digit in the last cell and blanks in the unused leading
    cells; read from right to left, the cells give the digits of [n] from
    the lowest one, then the blanks. *)
Theorem Display_write_number_decimal (d : Display.t) (n : Z) :
  length (Display.display_buffer d) = 5%nat ->
  0 <= n <= 9999 ->
  Display.cells (Display.write_number d n) = right_justified 4 (decimal n)
  /\ rev (Display.cells (Display.write_number d n))
     = rev (codes (decimal n))
       ++ replicate (4 - String.length (decimal n)) (chr " ").
Proof.
  intros Hlen Hn.
  assert (Hcells : Display.cells (Display.write_number d n)
                   = right_justified 4 (decimal n)).
  { rewrite (Display_write_number_cells_fresh d n Hlen).
    pose proof Display_write_number_decimal_check as Hall.
    rewrite forallb_forall in Hall.
    specialize (Hall (Z.to_nat n)).
    rewrite Z2Nat.id in Hall by lia.
    apply list_Z_eqb_eq, Hall, in_seq. lia. }
  split; [exact Hcells|].
  rewrite Hcells. unfold right_justified.
  rewrite rev_app_distr. f_equal.
  generalize (4 - String.length (decimal n))%nat. intros k.
  induction k as [|k IH]; [reflexivity|].
  cbn [replicate rev]. rewrite IH.
  clear IH. induction k as [|k IH]; [reflexivity|].
  cbn [replicate app]. f_equal. exact IH.
Qed.

(** The zero-initialised display asked to show 42. *)
Lemma Display_write_number_decimal_witness :
  Display.cells (Display.write_number Display.zero 42) = codes "  42".
Proof.
  destruct (Display_write_number_decimal Display.zero 42) as [H _].
  - reflexivity.
  - lia.
  - exact H.
Defined.

Lemma amount_cases amount :
  1 <= amount <= 9 ->
  amount = 1 \/ amount = 2 \/ amount = 3 \/ amount = 4 \/ amount = 5
  \/ amount = 6 \/ amount = 7 \/ amount = 8 \/ amount = 9.
Proof. lia. Qed.

(** C7, as the code has it.  For an amount from 1 to 9 and a type of the
    face table, [write_config_string] writes the type right-justified in
    the last cells, in one cell when it is below 10 and in two cells
    otherwise (its two lowest digits, so that 100 shows as 00), then the
    ['d'] marker in the cell before the type and the amount in the cell
    before the marker, and blanks the leading cell that is left for a type
    of one digit.  The marker is hence in cell 2 for the types 4, 6 and 8
    and in cell 1 for the others: (3,20) gives "3d20" and (1,6) gives
    " 1d6". *)
Theorem Display_write_config_string_layout (d : Display.t) (amount type : Z) :
  length (Display.display_buffer d) = 5%nat ->
  1 <= amount <= 9 ->
  In type dice_types ->
  Display.cells (Display.write_config_string d amount type)
    = (if type <? 10
       then [chr " "; digit_char amount; chr "d"; digit_char type]
       else [digit_char amount; chr "d";
             digit_char ((type / 10) mod 10); digit_char (type mod 10)])
  /\ marker_offset (Display.cells (Display.write_config_string d amount type))
     = Some (if type <? 10 then 2%nat else 1%nat)
  /\ Display.cells (Display.write_config_string d 3 20) = codes "3d20"
  /\ Display.cells (Display.write_config_string d 1 6) = codes " 1d6".
Proof.
  intros Hlen Ha Ht.
  destruct (buffer_of_length_5 _ Hlen) as (a & b & c & e & f & Hb).
  destruct d as [mt at_ fr ix buf]. cbn [Display.display_buffer] in Hb.
  subst buf.
  split; [|split; [|split; reflexivity]].
  - cbn in Ht.
    destruct (amount_cases amount Ha)
      as [-> | [-> | [-> | [-> | [-> | [-> | [-> | [-> | ->]]]]]]]];
      repeat (destruct Ht as [<- | Ht]; [reflexivity|]); contradiction.
  - cbn in Ht.
    destruct (amount_cases amount Ha)
      as [-> | [-> | [-> | [-> | [-> | [-> | [-> | [-> | ->]]]]]]]];
      repeat (destruct Ht as [<- | Ht]; [reflexivity|]); contradiction.
Qed.

(** Nine dice of a hundred faces on the zero-initialised display: the
    type is cut to its two lowest digits. *)
Lemma Display_write_config_string_layout_witness :
  Display.cells (Display.write_config_string Display.zero 9 100) = codes "9d00"
  /\ marker_offset
       (Display.cells (Display.write_config_string Display.zero 9 100))
     = Some 1%nat.
Proof.
  destruct (Display_write_config_string_layout Display.zero 9 100)
    as (H1 & H2 & _).
  - reflexivity.
  - lia.
  - cbn. tauto.
  - split; [exact H1 | exact H2].
Defined.

(** C7, as stated, fails: no cell of the buffer holds the ['d'] marker for
    every valid amount and type.  It is in cell 2 for (1,6) and in cell 1
    for (3,20). *)
Lemma Display_write_config_string_marker_moves :
  ~ exists k : nat,
      forall amount type,
        1 <= amount <= 9 -> In type dice_types ->
        Display.cells (Display.write_config_string Display.zero amount type)
          !! k = Some (chr "d").
Proof.
  intros [k H].
  pose proof (H 1 6 ltac:(lia) ltac:(cbn; tauto)) as H6.
  pose proof (H 3 20 ltac:(lia) ltac:(cbn; tauto)) as H20.
  destruct k as [|[|[|[|k]]]]; vm_compute in H6, H20; congruence.
Qed.

(** ** Sketch: the controller *)

Lemma Button_signal_eqb_eq a b : Button_signal_eqb a b = true <-> a = b.
Proof. destruct a, b; cbn; split; congruence. Qed.

Lemma Button_signal_eqb_neq a b : Button_signal_eqb a b = false <-> a <> b.
Proof. destruct a, b; cbn; split; congruence. Qed.

(** Reading the buttons changes the buttons only. *)
Lemma Sketch_read_buttons_frame s e :
  Sketch.current_state (snd (Sketch.read_buttons s e)) = Sketch.current_state s
  /\ Sketch.disp (snd (Sketch.read_buttons s e)) = Sketch.disp s
  /\ Sketch.dice (snd (Sketch.read_buttons s e)) = Sketch.dice s
  /\ Sketch.rng (snd (Sketch.read_buttons s e)) = Sketch.rng s.
Proof.
  unfold Sketch.read_buttons.
  destruct (Button.get_signal _ (Sketch.roll_button s) _).
  destruct (Button.get_signal _ (Sketch.type_button s) _).
  destruct (Button.get_signal _ (Sketch.amount_button s) _).
  cbn. repeat split.
Qed.

(** [tick_state] in terms of the signals of the iteration. *)
Lemma Sketch_tick_state_signals s e :
  Sketch.tick_state s e =
    Sketch.handle_state (snd (Sketch.read_buttons s e))
      (to_ulong (Arduino.millis e))
      (roll_signal s e) (type_signal s e) (amount_signal s e).
Proof.
  unfold Sketch.tick_state, roll_signal, type_signal, amount_signal.
  destruct (Sketch.read_buttons s e) as [[[r t] a] s1]. reflexivity.
Qed.

(** Multiplexing changes the display only. *)
Lemma Sketch_service_display_frame hw s now :
  Sketch.current_state (fst (Sketch.service_display hw s now))
    = Sketch.current_state s
  /\ Sketch.dice (fst (Sketch.service_display hw s now)) = Sketch.dice s
  /\ Display.display_buffer (Sketch.disp (fst (Sketch.service_display hw s now)))
     = Display.display_buffer (Sketch.disp s)
  /\ Display.current_animation_frame
       (Sketch.disp (fst (Sketch.service_display hw s now)))
     = Display.current_animation_frame (Sketch.disp s)
  /\ Display.animation_timer
       (Sketch.disp (fst (Sketch.service_display hw s now)))
     = Display.animation_timer (Sketch.disp s).
Proof.
  unfold Sketch.service_display, Display.multiplex_animation,
    Display.multiplex, Display.update_active_index.
  destruct (Program_state_eqb _ _);
    destruct (Timer.should_signal _ _) as [[|] tm]; cbn;
    try destruct (_ >=? _); cbn; repeat split.
Qed.

(** C3, as stated, fails: the board that is Idle with no result in memory
    and sees the type button pressed ends the iteration in Config. *)
Lemma Sketch_idle_not_always_generating :
  ~ (forall hw s e,
        Sketch.current_state s = IDLE ->
        roll_signal s e = PRESSED
        \/ Dice.has_roll_in_memory (Sketch.dice s) = false ->
        Sketch.current_state (fst (Sketch.loop hw s e)) = GENERATING).
Proof.
  intros H.
  specialize (H Funshield.uno idle_without_result
                (Arduino.mk_env 11 (pressing 17))).
  assert (Hidle : Sketch.current_state idle_without_result = IDLE)
    by reflexivity.
  assert (Hmem : Dice.has_roll_in_memory (Sketch.dice idle_without_result)
                 = false) by reflexivity.
  specialize (H Hidle (or_intror Hmem)).
  vm_compute in H. discriminate H.
Qed.

(** C3, as the code has it.  An iteration that begins in Idle with the
    roll button signalling [PRESSED] or with no result in memory, and in
    which neither the type nor the amount button signals [PRESSED], calls
    [start_roll], prepares and advances the animation, and ends in
    Generating; a press of the roll button is not needed when the memory
    is empty. *)
Theorem Sketch_idle_to_generating
    (hw : Funshield.t) (s : Sketch.t) (e : Arduino.env) :
  Sketch.current_state s = IDLE ->
  roll_signal s e = PRESSED
  \/ Dice.has_roll_in_memory (Sketch.dice s) = false ->
  type_signal s e <> PRESSED ->
  amount_signal s e <> PRESSED ->
  Sketch.current_state (Sketch.tick_state s e) = GENERATING
  /\ Sketch.dice (Sketch.tick_state s e)
     = Dice.start_roll (Sketch.dice s) (to_ulong (Arduino.millis e))
  /\ Sketch.disp (Sketch.tick_state s e)
     = Display.next_animation
         (Display.prepare_animation (Sketch.disp s)
            (to_ulong (Arduino.millis e)))
  /\ Sketch.current_state (fst (Sketch.loop hw s e)) = GENERATING
  /\ Sketch.dice (fst (Sketch.loop hw s e))
     = Dice.start_roll (Sketch.dice s) (to_ulong (Arduino.millis e)).
Proof.
  intros Hidle Hgen Ht Ha.
  assert (Htick : Sketch.current_state (Sketch.tick_state s e) = GENERATING
                  /\ Sketch.dice (Sketch.tick_state s e)
                     = Dice.start_roll (Sketch.dice s)
                         (to_ulong (Arduino.millis e))
                  /\ Sketch.disp (Sketch.tick_state s e)
                     = Display.next_animation
                         (Display.prepare_animation (Sketch.disp s)
                            (to_ulong (Arduino.millis e)))).
  { rewrite Sketch_tick_state_signals.
    destruct (Sketch_read_buttons_frame s e) as (F1 & F2 & F3 & _).
    unfold Sketch.handle_state. rewrite F1, Hidle.
    unfold Sketch.idle_case. rewrite F3.
    apply Button_signal_eqb_neq in Ht, Ha. rewrite Ht, Ha.
    assert (Hc : Button_signal_eqb (roll_signal s e) PRESSED
                 || negb (Dice.has_roll_in_memory (Sketch.dice s)) = true).
    { destruct Hgen as [Hr | Hm].
      - rewrite Hr. reflexivity.
      - rewrite Hm. apply orb_true_r. }
    rewrite Hc.
    cbn [Sketch.current_state Sketch.dice Sketch.disp
         Sketch.set_current_state Sketch.set_disp Sketch.set_dice].
    rewrite ?F2, ?F3. repeat split. }
  destruct Htick as (T1 & T2 & T3).
  split; [exact T1|]. split; [exact T2|]. split; [exact T3|].
  unfold Sketch.loop.
  destruct (Sketch_service_display_frame hw (Sketch.tick_state s e)
              (to_ulong (Arduino.millis e))) as (S1 & S2 & _).
  rewrite S1, S2. split; assumption.
Qed.

(** The board that is Idle with no result in memory, with no button
    pressed at 11 ms. *)
Lemma Sketch_idle_to_generating_witness :
  Sketch.current_state
    (fst (Sketch.loop Funshield.uno idle_without_result
            (Arduino.mk_env 11 all_up))) = GENERATING.
Proof.
  destruct (Sketch_idle_to_generating Funshield.uno idle_without_result
              (Arduino.mk_env 11 all_up)) as (_ & _ & _ & H & _).
  - reflexivity.
  - right. reflexivity.
  - vm_compute. discriminate.
  - vm_compute. discriminate.
  - exact H.
Defined.

(** Writing text touches the buffer only, and keeps its size. *)
Lemma array_set_length l i v : length (array_set l i v) = length l.
Proof.
  unfold array_set. destruct (0 <=? i); [apply length_insert | reflexivity].
Qed.

Lemma Display_write_next_number_loop_length n :
  forall buf number index,
    length (fst (Display.write_next_number_loop n buf number index))
      = length buf.
Proof.
  induction n as [|n IH]; intros buf number index;
    cbn [Display.write_next_number_loop]; [reflexivity|].
  destruct (_ <? _); cbn [fst]; [|rewrite IH]; apply array_set_length.
Qed.

Lemma Display_erase_others_loop_length n :
  forall buf i, length (Display.erase_others_loop n buf i) = length buf.
Proof.
  induction n as [|n IH]; intros buf i; cbn [Display.erase_others_loop];
    [reflexivity|].
  rewrite IH. apply array_set_length.
Qed.

Lemma Display_write_next_number_frame d number index limit :
  let r := Display.write_next_number d number index limit in
  Display.multiplex_timer (fst r) = Display.multiplex_timer d
  /\ Display.animation_timer (fst r) = Display.animation_timer d
  /\ Display.current_animation_frame (fst r) = Display.current_animation_frame d
  /\ Display.current_active_index (fst r) = Display.current_active_index d
  /\ length (Display.display_buffer (fst r)) = length (Display.display_buffer d).
Proof.
  unfold Display.write_next_number.
  pose proof (Display_write_next_number_loop_length (Z.to_nat limit)
                (Display.display_buffer d) number index) as H.
  destruct (Display.write_next_number_loop _ _ _ _) as [buf i].
  cbn in *. repeat split. exact H.
Qed.

Lemma Display_write_config_string_frame d amount type :
  let d' := Display.write_config_string d amount type in
  Display.multiplex_timer d' = Display.multiplex_timer d
  /\ Display.animation_timer d' = Display.animation_timer d
  /\ Display.current_animation_frame d' = Display.current_animation_frame d
  /\ Display.current_active_index d' = Display.current_active_index d
  /\ length (Display.display_buffer d') = length (Display.display_buffer d).
Proof.
  unfold Display.write_config_string.
  pose proof (Display_write_next_number_frame d type
                (to_int (Display.display_digits - 1))
                Display.dice_type_digits) as H1.
  destruct (Display.write_next_number d type _ _) as [d1 i1].
  match goal with
  | |- context [Display.write_next_number ?d2 ?a ?i ?l] =>
      pose proof (Display_write_next_number_frame d2 a i l) as H3;
      destruct (Display.write_next_number d2 a i l) as [d3 i3]
  end.
  cbn [fst Display.set_display_buffer Display.multiplex_timer
       Display.animation_timer Display.current_animation_frame
       Display.current_active_index Display.display_buffer
       Display.erase_others] in *.
  rewrite Display_erase_others_loop_length.
  rewrite array_set_length in H3.
  destruct H1 as (A1 & A2 & A3 & A4 & A5).
  destruct H3 as (B1 & B2 & B3 & B4 & B5).
  repeat split; congruence.
Qed.

(** C9. An iteration that begins in Idle with the Generating condition
    true (roll [PRESSED], or no result in memory) and with the type or the
    amount button signalling [PRESSED] ends in Config: the second branch
    overwrites the state the first one set.  The effects of the first
    branch stay: the start time of the roll is the time of the iteration,
    the animation timer is re-armed at it and the animation frame is the
    start frame advanced once. *)
Theorem Sketch_idle_config_overrides_generating
    (hw : Funshield.t) (s : Sketch.t) (e : Arduino.env) :
  Sketch.current_state s = IDLE ->
  roll_signal s e = PRESSED
  \/ Dice.has_roll_in_memory (Sketch.dice s) = false ->
  type_signal s e = PRESSED \/ amount_signal s e = PRESSED ->
  Sketch.current_state (fst (Sketch.loop hw s e)) = CONFIG
  /\ Sketch.dice (fst (Sketch.loop hw s e))
     = Dice.start_roll (Sketch.dice s) (to_ulong (Arduino.millis e))
  /\ Sketch.disp (Sketch.tick_state s e)
     = Display.write_config_string
         (Display.next_animation
            (Display.prepare_animation (Sketch.disp s)
               (to_ulong (Arduino.millis e))))
         (Dice.get_dice_amount (Sketch.dice s))
         (Dice.get_dice_type (Sketch.dice s))
  /\ Display.current_animation_frame (Sketch.disp (fst (Sketch.loop hw s e)))
     = Z.shiftr Display.animation_start_frame 1
  /\ Timer.last_event
       (Display.animation_timer (Sketch.disp (fst (Sketch.loop hw s e))))
     = to_ulong (Arduino.millis e).
Proof.
  intros Hidle Hgen Hcfg.
  assert (Htick : Sketch.tick_state s e =
            Sketch.set_current_state
              (Sketch.set_disp
                 (Sketch.set_current_state
                    (Sketch.set_disp
                       (Sketch.set_disp
                          (Sketch.set_dice (snd (Sketch.read_buttons s e))
                             (Dice.start_roll (Sketch.dice s)
                                (to_ulong (Arduino.millis e))))
                          (Display.prepare_animation (Sketch.disp s)
                             (to_ulong (Arduino.millis e))))
                       (Display.next_animation
                          (Display.prepare_animation (Sketch.disp s)
                             (to_ulong (Arduino.millis e)))))
                    GENERATING)
                 (Display.write_config_string
                    (Display.next_animation
                       (Display.prepare_animation (Sketch.disp s)
                          (to_ulong (Arduino.millis e))))
                    (Dice.get_dice_amount (Sketch.dice s))
                    (Dice.get_dice_type (Sketch.dice s))))
              CONFIG).
  { rewrite Sketch_tick_state_signals.
    destruct (Sketch_read_buttons_frame s e) as (F1 & F2 & F3 & _).
    unfold Sketch.handle_state. rewrite F1, Hidle.
    unfold Sketch.idle_case. rewrite F3.
    assert (Hc : Button_signal_eqb (roll_signal s e) PRESSED
                 || negb (Dice.has_roll_in_memory (Sketch.dice s)) = true).
    { destruct Hgen as [Hr | Hm].
      - rewrite Hr. reflexivity.
      - rewrite Hm. apply orb_true_r. }
    assert (Hc2 : Button_signal_eqb (type_signal s e) PRESSED
                  || Button_signal_eqb (amount_signal s e) PRESSED = true).
    { destruct Hcfg as [Ht | Ha].
      - rewrite Ht. reflexivity.
      - rewrite Ha. apply orb_true_r. }
    rewrite Hc, Hc2.
    cbn [Sketch.current_state Sketch.dice Sketch.disp
         Sketch.set_current_state Sketch.set_disp Sketch.set_dice].
    rewrite ?F2, ?F3. reflexivity. }
  unfold Sketch.loop.
  destruct (Sketch_service_display_frame hw (Sketch.tick_state s e)
              (to_ulong (Arduino.millis e))) as (S1 & S2 & _ & S4 & S5).
  rewrite S1, S2, S4, S5. rewrite Htick.
  cbn [Sketch.current_state Sketch.dice Sketch.disp
       Sketch.set_current_state Sketch.set_disp Sketch.set_dice].
  destruct (Display_write_config_string_frame
              (Display.next_animation
                 (Display.prepare_animation (Sketch.disp s)
                    (to_ulong (Arduino.millis e))))
              (Dice.get_dice_amount (Sketch.dice s))
              (Dice.get_dice_type (Sketch.dice s))) as (_ & W2 & W3 & _).
  rewrite W2, W3.
  repeat split.
Qed.

(** The board that is Idle with no result in memory, with the type
    button pressed at 11 ms. *)
Lemma Sketch_idle_config_overrides_generating_witness :
  let s' := fst (Sketch.loop Funshield.uno idle_without_result
                   (Arduino.mk_env 11 (pressing 17))) in
  Sketch.current_state s' = CONFIG
  /\ Dice.roll_start_time (Sketch.dice s') = 11
  /\ Display.current_animation_frame (Sketch.disp s') = 0x40.
Proof.
  intros s'.
  destruct (Sketch_idle_config_overrides_generating Funshield.uno
              idle_without_result (Arduino.mk_env 11 (pressing 17)))
    as (H1 & H2 & _ & H4 & _).
  - reflexivity.
  - right. reflexivity.
  - left. reflexivity.
  - subst s'. split; [exact H1|]. split; [rewrite H2; reflexivity | exact H4].
Defined.

Lemma Display_write_number_sentinel_cells d :
  length (Display.display_buffer d) = 5%nat ->
  Display.cells (Display.write_number d (-1)) = codes "   /".
Proof.
  intros Hlen. rewrite (Display_write_number_cells_fresh d (-1) Hlen).
  reflexivity.
Qed.

(** The state the Config case hands to its last branch: the dice engine
    after the changes of type and amount, and the display with it. *)
Lemma Sketch_config_case_roll_pressed s r t a :
  r = PRESSED ->
  exists s2,
    Sketch.config_case s r t a =
      Sketch.set_current_state
        (Sketch.set_disp s2
           (Display.write_number (Sketch.disp s2)
              (Dice.get_last_roll (Sketch.dice s2)))) IDLE
    /\ (Dice.last_roll (Sketch.dice s) = Dice.clear_memory_value ->
        Dice.last_roll (Sketch.dice s2) = Dice.clear_memory_value)
    /\ length (Display.display_buffer (Sketch.disp s2))
       = length (Display.display_buffer (Sketch.disp s)).
Proof.
  intros ->. unfold Sketch.config_case.
  cbn [Button_signal_eqb].
  eexists. split; [reflexivity|].
  destruct (Button_signal_eqb t PRESSED), (Button_signal_eqb a PRESSED);
    cbn [Sketch.current_state Sketch.dice Sketch.disp
         Sketch.set_current_state Sketch.set_disp Sketch.set_dice];
    rewrite ?(proj2 (proj2 (proj2 (proj2
               (Display_write_config_string_frame _ _ _)))));
    split; try reflexivity; try (intros H; exact H);
    unfold Dice.next_dice_amount; try destruct (_ >? _); reflexivity.
Qed.

(** C10. When the roll button signals [PRESSED] in Config while no roll is
    in memory, the controller hands the sentinel -1, which [get_last_roll]
    returns unguarded, to [write_number], and goes to Idle.  The number is
    outside 0..9999: its last cell holds the character before ['0'], which
    is neither a digit nor ['d'], and [output_char] sends the blank glyph
    for it, as it does for the three blanks before it. *)
Theorem Sketch_config_roll_shows_sentinel
    (hw : Funshield.t) (s : Sketch.t) (e : Arduino.env) (pos : Z) :
  Sketch.current_state s = CONFIG ->
  roll_signal s e = PRESSED ->
  Dice.has_roll_in_memory (Sketch.dice s) = false ->
  length (Display.display_buffer (Sketch.disp s)) = 5%nat ->
  Sketch.current_state (fst (Sketch.loop hw s e)) = IDLE
  /\ (exists s2,
         Dice.get_last_roll (Sketch.dice s2) = -1
         /\ Sketch.disp (Sketch.tick_state s e)
            = Display.write_number (Sketch.disp s2)
                (Dice.get_last_roll (Sketch.dice s2)))
  /\ Display.cells (Sketch.disp (fst (Sketch.loop hw s e))) = codes "   /"
  /\ chr "/" = chr "0" + Z.rem (-1) 10
  /\ ~ (chr "0" <= chr "/" <= chr "9")
  /\ chr "/" <> chr "d"
  /\ Forall (fun ch => Display.output_char_glyph hw ch = Display.empty_glyph)
       (Display.cells (Sketch.disp (fst (Sketch.loop hw s e))))
  /\ Display.output_char hw (chr "/") pos !! 1%nat
     = Some (Arduino.ShiftOut (Funshield.data_pin hw) (Funshield.clock_pin hw)
               Arduino.MSBFIRST Display.empty_glyph).
Proof.
  intros Hcfg Hroll Hmem Hlen.
  assert (Hlast : Dice.last_roll (Sketch.dice s) = Dice.clear_memory_value).
  { unfold Dice.has_roll_in_memory in Hmem.
    apply negb_false_iff, Z.eqb_eq in Hmem. exact Hmem. }
  destruct (Sketch_read_buttons_frame s e) as (F1 & F2 & F3 & _).
  destruct (Sketch_config_case_roll_pressed (snd (Sketch.read_buttons s e))
              (roll_signal s e) (type_signal s e) (amount_signal s e) Hroll)
    as (s2 & Hcase & Hkeep & Hlen2).
  rewrite F3 in Hkeep. rewrite F2 in Hlen2. specialize (Hkeep Hlast).
  assert (Htick : Sketch.tick_state s e =
            Sketch.set_current_state
              (Sketch.set_disp s2
                 (Display.write_number (Sketch.disp s2)
                    (Dice.get_last_roll (Sketch.dice s2)))) IDLE).
  { rewrite Sketch_tick_state_signals. unfold Sketch.handle_state.
    rewrite F1, Hcfg. exact Hcase. }
  assert (Hcells : Display.cells (Sketch.disp (fst (Sketch.loop hw s e)))
                   = codes "   /").
  { unfold Sketch.loop, Display.cells.
    destruct (Sketch_service_display_frame hw (Sketch.tick_state s e)
                (to_ulong (Arduino.millis e))) as (_ & _ & S3 & _).
    rewrite S3, Htick.
    cbn [Sketch.disp Sketch.set_current_state Sketch.set_disp].
    unfold Dice.get_last_roll. rewrite Hkeep.
    apply Display_write_number_sentinel_cells. congruence. }
  split.
  { unfold Sketch.loop.
    destruct (Sketch_service_display_frame hw (Sketch.tick_state s e)
                (to_ulong (Arduino.millis e))) as (S1 & _).
    rewrite S1, Htick. reflexivity. }
  split.
  { exists s2. split; [exact Hkeep|]. rewrite Htick. reflexivity. }
  split; [exact Hcells|].
  split; [reflexivity|].
  split; [intros [H _]; vm_compute in H; apply H; reflexivity|].
  split; [vm_compute; discriminate|].
  split.
  { rewrite Hcells. repeat constructor. }
  reflexivity.
Qed.

(** The board after [setup], with the roll button pressed at 10 ms. *)
Lemma Sketch_config_roll_shows_sentinel_witness :
  let s' := fst (Sketch.loop Funshield.uno after_setup
                   (Arduino.mk_env 10 (pressing 15))) in
  Sketch.current_state s' = IDLE
  /\ Display.cells (Sketch.disp s') = codes "   /".
Proof.
  intros s'.
  destruct (Sketch_config_roll_shows_sentinel Funshield.uno after_setup
              (Arduino.mk_env 10 (pressing 15)) 3)
    as (H1 & _ & H3 & _).
  - reflexivity.
  - reflexivity.
  - reflexivity.
  - reflexivity.
  - split; [exact H1 | exact H3].
Defined.

(** ** Dice: the memory of the last roll *)

Lemma Sketch_setup_dice hw s e :
  Sketch.dice (fst (Sketch.setup hw s e)) = Dice.init (Sketch.dice s).
Proof. reflexivity. Qed.

Lemma Dice_next_dice_type_last_roll d :
  Dice.last_roll (Dice.next_dice_type d) = Dice.last_roll d.
Proof. reflexivity. Qed.

Lemma Dice_next_dice_amount_last_roll d :
  Dice.last_roll (Dice.next_dice_amount d) = Dice.last_roll d.
Proof. unfold Dice.next_dice_amount. destruct (_ >? _); reflexivity. Qed.

(** The dice engine after the Config case. *)
Lemma Sketch_config_case_dice s r t a :
  (t = PRESSED \/ a = PRESSED ->
   Dice.last_roll (Sketch.dice (Sketch.config_case s r t a))
     = Dice.clear_memory_value)
  /\ (t <> PRESSED -> a <> PRESSED ->
      Sketch.dice (Sketch.config_case s r t a) = Sketch.dice s).
Proof.
  unfold Sketch.config_case. split.
  - intros H.
    assert (Hc : Button_signal_eqb t PRESSED = true
                 \/ Button_signal_eqb a PRESSED = true).
    { destruct H as [-> | ->]; [left | right]; reflexivity. }
    destruct (Button_signal_eqb t PRESSED), (Button_signal_eqb a PRESSED),
      (Button_signal_eqb r PRESSED);
      cbn [Sketch.current_state Sketch.dice Sketch.disp
           Sketch.set_current_state Sketch.set_disp Sketch.set_dice];
      rewrite ?Dice_next_dice_amount_last_roll, ?Dice_next_dice_type_last_roll;
      try reflexivity; destruct Hc; discriminate.
  - intros Ht Ha. apply Button_signal_eqb_neq in Ht, Ha. rewrite Ht, Ha.
    destruct (Button_signal_eqb r PRESSED); reflexivity.
Qed.

(** An iteration of [loop] either leaves the configuration of the dice or
    leaves the memory cleared. *)
Lemma Sketch_loop_config_or_cleared hw s e :
  Dice.last_roll (Sketch.dice (fst (Sketch.loop hw s e)))
    = Dice.clear_memory_value
  \/ (Dice.current_type_index (Sketch.dice (fst (Sketch.loop hw s e)))
        = Dice.current_type_index (Sketch.dice s)
      /\ Dice.current_dice_amount (Sketch.dice (fst (Sketch.loop hw s e)))
         = Dice.current_dice_amount (Sketch.dice s)).
Proof.
  unfold Sketch.loop.
  destruct (Sketch_service_display_frame hw (Sketch.tick_state s e)
              (to_ulong (Arduino.millis e))) as (_ & S2 & _).
  rewrite S2, Sketch_tick_state_signals.
  destruct (Sketch_read_buttons_frame s e) as (F1 & _ & F3 & _).
  set (s1 := snd (Sketch.read_buttons s e)) in *.
  rewrite <- F3. unfold Sketch.handle_state.
  destruct (Sketch.current_state s1).
  - (* Config *)
    destruct (Sketch_config_case_dice s1 (roll_signal s e) (type_signal s e)
                (amount_signal s e)) as [Hclr Hsame].
    destruct (Button_signal_eqb (type_signal s e) PRESSED) eqn:Et.
    { left. apply Hclr. left. apply Button_signal_eqb_eq, Et. }
    destruct (Button_signal_eqb (amount_signal s e) PRESSED) eqn:Ea.
    { left. apply Hclr. right. apply Button_signal_eqb_eq, Ea. }
    right. rewrite Hsame by (apply Button_signal_eqb_neq; assumption).
    split; reflexivity.
  - (* Idle *)
    right. unfold Sketch.idle_case.
    destruct (_ || _); destruct (_ || _); split; reflexivity.
  - (* Generating *)
    right. unfold Sketch.generating_case.
    destruct (Button_signal_eqb (roll_signal s e) RELEASED).
    + pose proof (Dice_finish_roll_frame (Sketch.dice s1) (Sketch.rng s1)
                    (to_ulong (Arduino.millis e))) as (G1 & G2 & _).
      destruct (Dice.finish_roll _ _ _) as [[r dc] g].
      cbn in *. split; assumption.
    + destruct (Display.should_animate _ _) as [[|] d1]; split; reflexivity.
Qed.

(** C6. The sentinel is -1 and [has_roll_in_memory] is false exactly when
    the stored result is the sentinel.  Every sum [finish_roll] computes in
    a reachable state is at least the amount of dice, hence at least 1 and
    above the sentinel, so that a roll is in memory after it.  The result
    is the sentinel after [init], hence after [setup], and after
    [reset_roll_memory]; an iteration of [loop] in Config in which the type
    or the amount button signals [PRESSED] leaves it the sentinel, and so
    does every iteration of [loop] that changes the type or the amount. *)
Theorem Dice_result_sentinel
    (hw : Funshield.t) (s : Sketch.t) (e : Arduino.env)
    (d : Dice.t) (g : Arduino.rng) (time_now : Z) :
  Dice.clear_memory_value = -1
  /\ (Dice.has_roll_in_memory d = false
      <-> Dice.last_roll d = Dice.clear_memory_value)
  /\ (Dice.reachable d ->
      Dice.clear_memory_value < 1
      /\ 1 <= Dice.current_dice_amount d
           <= fst (fst (Dice.finish_roll d g time_now))
      /\ Dice.has_roll_in_memory (snd (fst (Dice.finish_roll d g time_now)))
         = true)
  /\ Dice.last_roll (Dice.init d) = Dice.clear_memory_value
  /\ Dice.has_roll_in_memory (Sketch.dice (fst (Sketch.setup hw s e))) = false
  /\ Dice.last_roll (Dice.reset_roll_memory d) = Dice.clear_memory_value
  /\ (Sketch.current_state s = CONFIG ->
      type_signal s e = PRESSED \/ amount_signal s e = PRESSED ->
      Dice.last_roll (Sketch.dice (fst (Sketch.loop hw s e)))
        = Dice.clear_memory_value)
  /\ (Dice.current_type_index (Sketch.dice (fst (Sketch.loop hw s e)))
        <> Dice.current_type_index (Sketch.dice s)
      \/ Dice.current_dice_amount (Sketch.dice (fst (Sketch.loop hw s e)))
         <> Dice.current_dice_amount (Sketch.dice s) ->
      Dice.last_roll (Sketch.dice (fst (Sketch.loop hw s e)))
        = Dice.clear_memory_value).
Proof.
  split; [reflexivity|].
  split.
  { unfold Dice.has_roll_in_memory. rewrite negb_false_iff. apply Z.eqb_eq. }
  split.
  { intros Hreach.
    pose proof (Dice_reachable_valid d Hreach) as Hvalid.
    destruct (Dice_finish_roll_unfold d g time_now)
      as (d1 & g1 & Hr & Hv1 & Hc1 & _).
    destruct (Dice_roll_core d1 g1 (Hv1 Hvalid)) as (_ & _ & _ & Hsum).
    destruct Hvalid as [[_ Ha] _]. rewrite Hc1 in Hsum.
    rewrite Hr. cbn [fst snd Dice.set_last_roll].
    split; [reflexivity|]. split; [lia|].
    unfold Dice.has_roll_in_memory.
    apply negb_true_iff, Z.eqb_neq.
    unfold Dice.clear_memory_value, Dice.set_last_roll.
    cbn [Dice.last_roll]. lia. }
  split; [reflexivity|]. split; [reflexivity|]. split; [reflexivity|].
  split.
  { intros Hcfg Hsig. unfold Sketch.loop.
    destruct (Sketch_service_display_frame hw (Sketch.tick_state s e)
                (to_ulong (Arduino.millis e))) as (_ & S2 & _).
    rewrite S2, Sketch_tick_state_signals.
    destruct (Sketch_read_buttons_frame s e) as (F1 & _).
    unfold Sketch.handle_state. rewrite F1, Hcfg.
    apply Sketch_config_case_dice, Hsig. }
  intros Hchg.
  destruct (Sketch_loop_config_or_cleared hw s e) as [H | [H1 H2]];
    [exact H|].
  destruct Hchg as [Hc | Hc]; contradiction.
Qed.

(** The board after [setup], with the type button pressed at 10 ms, and
    the first roll of the freshly initialised engine. *)
Lemma Dice_result_sentinel_witness :
  let s' := fst (Sketch.loop Funshield.uno after_setup
                   (Arduino.mk_env 10 (pressing 17))) in
  Dice.current_type_index (Sketch.dice s') = 2
  /\ Dice.last_roll (Sketch.dice s') = -1
  /\ Dice.has_roll_in_memory
       (snd (fst (Dice.finish_roll (Dice.init Dice.zero) rng0 5))) = true.
Proof.
  intros s'.
  destruct (Dice_result_sentinel Funshield.uno after_setup
              (Arduino.mk_env 10 (pressing 17)) (Dice.init Dice.zero) rng0 5)
    as (_ & _ & H3 & _ & _ & _ & H7 & H8).
  split; [reflexivity|]. split.
  - apply H7; [reflexivity | left; reflexivity].
  - apply H3, Dice.reach_init.
Defined.

(** ** Dice: the digit count terminates

    The loop of [get_max_digits_amount] has stopped by itself when the
    fuel is at least the value: more fuel does not change its result. *)
Lemma Dice_get_max_digits_amount_loop_fuel fuel :
  forall v acc extra,
    v <= Z.of_nat fuel ->
    Dice.get_max_digits_amount_loop (fuel + extra) v acc
      = Dice.get_max_digits_amount_loop fuel v acc.
Proof.
  induction fuel as [|fuel IH]; intros v acc extra Hv.
  - destruct extra as [|extra]; [reflexivity|].
    cbn [Nat.add Dice.get_max_digits_amount_loop].
    destruct (Z.gtb_spec v 0); [lia | reflexivity].
  - cbn [Nat.add Dice.get_max_digits_amount_loop].
    destruct (Z.gtb_spec v 0) as [Hpos|_]; [|reflexivity].
    apply IH. pose proof (Z.quot_lt v 10 ltac:(lia) ltac:(lia)). lia.
Qed.

(** ** Display: the cells the text writers reach

    [write_next_number] writes downwards from [index] and stops after at
    most [n] cells: with [index] 3 and at most four digits in all,
    [write_number] and [write_config_string] stay inside the buffer. *)
Lemma Display_write_next_number_loop_index n :
  forall buf number index,
    (0 < n)%nat ->
    -32768 <= index - Z.of_nat n -> index <= 32767 ->
    index - Z.of_nat n
      <= snd (Display.write_next_number_loop n buf number index) < index.
Proof.
  induction n as [|n IH]; intros buf number index Hn Hlo Hhi; [lia|].
  cbn [Display.write_next_number_loop].
  rewrite (to_int_small (index - 1)) by lia.
  destruct (Z.quot number 10 <? 1); cbn [snd]; [lia|].
  destruct n as [|n]; [cbn; lia|].
  pose proof (IH (array_set buf index (to_char (Z.rem number 10 + chr "0")))
                (Z.quot number 10) (index - 1) ltac:(lia) ltac:(lia)
                ltac:(lia)).
  lia.
Qed.

(** ** Timer: catching up after missed polls *)

(** X1. Polled again and again at one moment, a timer whose deadline lies
    [lag] behind fires on the first [lag / delay] polls and on no later
    one, and each firing takes one interval off the lag: every boundary
    that elapsed while no poll was made is served once, never twice. *)
Theorem Timer_poll_catch_up (k : nat) :
  forall (tm : Timer.t) (now : Z),
    0 < Timer.delay tm ->
    let owed := Z.to_nat (usub now (Timer.last_event tm) / Timer.delay tm) in
    fst (Timer.poll tm (replicate k now))
      = replicate (Nat.min k owed) true ++ replicate (k - owed) false
    /\ Timer.delay (snd (Timer.poll tm (replicate k now))) = Timer.delay tm
    /\ usub now (Timer.last_event (snd (Timer.poll tm (replicate k now))))
       = usub now (Timer.last_event tm)
         - Z.of_nat (Nat.min k owed) * Timer.delay tm.
Proof.
  induction k as [|k IH]; intros tm now Hd owed.
  - cbn. repeat split. lia.
  - cbn [replicate Timer.poll]. rewrite Timer_should_signal_spec.
    assert (Hlag : 0 <= usub now (Timer.last_event tm))
      by (unfold usub; apply to_ulong_range).
    destruct (Z.geb_spec (usub now (Timer.last_event tm)) (Timer.delay tm))
      as [Hge|Hlt].
    + specialize (IH (Timer.mk (Timer.delay tm)
                        (uadd (Timer.last_event tm) (Timer.delay tm)))
                    now Hd).
      cbn [Timer.delay Timer.last_event] in IH. cbn zeta in IH.
      rewrite (usub_uadd_elapsed now (Timer.last_event tm) (Timer.delay tm))
        in IH by lia.
      assert (Howed : owed = S (Z.to_nat ((usub now (Timer.last_event tm)
                                           - Timer.delay tm)
                                          / Timer.delay tm))).
      { subst owed.
        replace (usub now (Timer.last_event tm))
          with ((usub now (Timer.last_event tm) - Timer.delay tm)
                + 1 * Timer.delay tm) at 1 by lia.
        rewrite Z.div_add by lia.
        assert (0 <= (usub now (Timer.last_event tm) - Timer.delay tm)
                     / Timer.delay tm) by (apply Z.div_pos; lia).
        lia. }
      destruct (Timer.poll _ (replicate k now)) as [bs tm2].
      cbn [fst snd] in *. destruct IH as (I1 & I2 & I3).
      rewrite Howed. cbn [Nat.min Nat.sub replicate app].
      split; [rewrite I1; reflexivity|]. split; [exact I2|].
      rewrite I3. lia.
    + assert (Howed : owed = 0%nat).
      { subst owed. rewrite Z.div_small by lia. reflexivity. }
      specialize (IH tm now Hd). cbn zeta in IH.
      rewrite Z.div_small in IH by lia. change (Z.to_nat 0) with 0%nat in IH.
      destruct (Timer.poll tm (replicate k now)) as [bs tm2].
      cbn [fst snd] in *. destruct IH as (I1 & I2 & I3).
      rewrite Howed. rewrite Nat.min_0_r in *.
      cbn [replicate app Nat.sub] in *. rewrite Nat.sub_0_r in I1.
      split; [rewrite I1; reflexivity|]. split; [exact I2|].
      rewrite I3. lia.
Qed.

(** A timer of 50 ms whose deadline lies 120 ms back, polled four times. *)
Lemma Timer_poll_catch_up_witness :
  fst (Timer.poll (Timer.mk 50 1000) (replicate 4 1120))
    = [true; true; false; false].
Proof.
  destruct (Timer_poll_catch_up 4 (Timer.mk 50 1000) 1120) as (H & _).
  - cbn. lia.
  - exact H.
Defined.

(** ** Button: bounces and alternation *)



Lemma Button_get_signal_step rd b now :
  (fst (Button.get_signal rd b now) = NOTHING
   /\ Button.down (snd (Button.get_signal rd b now)) = Button.down b)
  \/ (fst (Button.get_signal rd b now) = Button.edge (Button.down b)
      /\ Button.down (snd (Button.get_signal rd b now)) = negb (Button.down b)
      /\ Button.debouncing b = false
      /\ Button.debouncing (snd (Button.get_signal rd b now)) = true
      /\ Button.last_event (snd (Button.get_signal rd b now)) = now).
Proof.
  unfold Button.get_signal, Button.is_pressed.
  destruct b as [deb dn p le]. cbn [Button.debouncing Button.down Button.pin
    Button.last_event].
  destruct deb.
  - left. destruct (_ >=? _); split; reflexivity.
  - destruct dn, (rd p); cbn; auto 10.
Qed.

(** X3. Whatever the pin levels and the times of the polls, the edges a
    button reports alternate, beginning with the edge of its current flag:
    two presses are always separated by a release, and the flag after the
    polls has flipped once per edge reported. *)
Theorem Button_poll_edges_alternate (samples : list (Z * (Z -> bool))) :
  forall b : Button.t,
    exists n : nat,
      List.filter Button.is_edge (fst (Button.poll b samples))
        = alternating (Button.down b) n
      /\ Button.count_edges (fst (Button.poll b samples)) = n
      /\ Button.down (snd (Button.poll b samples))
         = Nat.iter n negb (Button.down b).
Proof.
  induction samples as [|[now rd] rest IH]; intros b.
  - exists 0%nat. cbn. repeat split.
  - cbn [Button.poll].
    pose proof (Button_get_signal_step rd b now) as Hstep.
    destruct (Button.get_signal rd b now) as [sg b1]. cbn [fst snd] in Hstep.
    destruct (IH b1) as (n & I1 & I2 & I3).
    unfold Button.count_edges in *.
    destruct (Button.poll b1 rest) as [sgs b2]. cbn [fst snd] in *.
    destruct Hstep as [[-> Hdn] | (-> & Hdn & _)].
    + exists n. cbn [List.filter Button.is_edge Button_signal_eqb negb].
      rewrite <- Hdn. repeat split; assumption.
    + exists (S n).
      assert (He : Button.is_edge (Button.edge (Button.down b)) = true)
        by (destruct (Button.down b); reflexivity).
      cbn [List.filter]. rewrite He. cbn [alternating length].
      rewrite Hdn in I1, I3.
      split; [f_equal; exact I1|].
      split; [f_equal; exact I2|].
      rewrite I3. symmetry. apply Nat.iter_succ_r.
Qed.

(** ** Dice: cycles of the configuration, digit count, seeding *)

Lemma type_index_cases i :
  0 <= i < dice_types_length ->
  i = 0 \/ i = 1 \/ i = 2 \/ i = 3 \/ i = 4 \/ i = 5 \/ i = 6.
Proof. rewrite dice_types_length_value. lia. Qed.

(** X4. On a valid configuration, seven calls of [next_dice_type] and
    nine calls of [next_dice_amount] give the engine back as it was, and
    no smaller positive number of calls does: the types cycle with period
    7 and the amounts with period 9. *)
Theorem Dice_configuration_cycles (d : Dice.t) (k : nat) :
  config_valid d ->
  Nat.iter 7 Dice.next_dice_type d = d
  /\ Nat.iter 9 Dice.next_dice_amount d = d
  /\ ((0 < k < 7)%nat ->
      Dice.current_type_index (Nat.iter k Dice.next_dice_type d)
        <> Dice.current_type_index d)
  /\ ((0 < k < 9)%nat ->
      Dice.current_dice_amount (Nat.iter k Dice.next_dice_amount d)
        <> Dice.current_dice_amount d).
Proof.
  intros [Hi Ha]. destruct d as [st dc am ix lr fr].
  cbn [Dice.current_type_index Dice.current_dice_amount] in *.
  unfold Dice.max_dice_amount in Ha.
  split; [|split; [|split]].
  - destruct (type_index_cases ix Hi)
      as [-> | [-> | [-> | [-> | [-> | [-> | ->]]]]]]; reflexivity.
  - destruct (amount_cases am Ha)
      as [-> | [-> | [-> | [-> | [-> | [-> | [-> | [-> | ->]]]]]]]];
      reflexivity.
  - intros Hk.
    assert (Hc : (k = 1 \/ k = 2 \/ k = 3 \/ k = 4 \/ k = 5 \/ k = 6)%nat)
      by lia.
    destruct (type_index_cases ix Hi)
      as [-> | [-> | [-> | [-> | [-> | [-> | ->]]]]]];
      destruct Hc as [-> | [-> | [-> | [-> | [-> | ->]]]]];
      vm_compute; discriminate.
  - intros Hk.
    assert (Hc : (k = 1 \/ k = 2 \/ k = 3 \/ k = 4 \/ k = 5 \/ k = 6
                  \/ k = 7 \/ k = 8)%nat) by lia.
    destruct (amount_cases am Ha)
      as [-> | [-> | [-> | [-> | [-> | [-> | [-> | [-> | ->]]]]]]]];
      destruct Hc as [-> | [-> | [-> | [-> | [-> | [-> | [-> | ->]]]]]]];
      vm_compute; discriminate.
Qed.

(** The engine as [init] leaves it, two steps into a cycle. *)
Lemma Dice_configuration_cycles_witness :
  Nat.iter 7 Dice.next_dice_type (Dice.init Dice.zero) = Dice.init Dice.zero
  /\ Dice.current_type_index
       (Nat.iter 2 Dice.next_dice_type (Dice.init Dice.zero))
     <> Dice.current_type_index (Dice.init Dice.zero).
Proof.
  destruct (Dice_configuration_cycles (Dice.init Dice.zero) 2
              (Dice_init_config_valid Dice.zero)) as (H1 & _ & H3 & _).
  split; [exact H1 | apply H3; lia].
Defined.

(** X5. On a valid configuration [get_max_digits_amount] is the number of
    decimal digits of the largest sum of the roll, [faces * count], which
    is between 1 and 3; on a product that is not positive the loop is not
    entered and the count is 0. *)
Theorem Dice_get_max_digits_amount_decimal (d : Dice.t) :
  (config_valid d ->
   Dice.get_max_digits_amount d
     = Z.of_nat (String.length
                   (decimal (Dice.get_dice_type d * Dice.current_dice_amount d)))
   /\ 1 <= Dice.get_max_digits_amount d <= 3)
  /\ (to_int (Dice.get_dice_type d * Dice.current_dice_amount d) <= 0 ->
      Dice.get_max_digits_amount d = 0).
Proof.
  split.
  - intros [Hi Ha]. destruct d as [st dc am ix lr fr].
    cbn [Dice.current_type_index Dice.current_dice_amount] in *.
    unfold Dice.max_dice_amount in Ha.
    destruct (type_index_cases ix Hi)
      as [-> | [-> | [-> | [-> | [-> | [-> | ->]]]]]];
      destruct (amount_cases am Ha)
        as [-> | [-> | [-> | [-> | [-> | [-> | [-> | [-> | ->]]]]]]]];
      vm_compute; repeat split; discriminate.
  - intros Hle. unfold Dice.get_max_digits_amount, Dice.get_dice_type in *.
    set (v := to_int _) in *.
    destruct (Z.to_nat v) as [|fuel]; [reflexivity|].
    cbn [Dice.get_max_digits_amount_loop].
    destruct (Z.gtb_spec v 0); [lia | reflexivity].
Qed.

(** Nine dice of a hundred faces need three digits; the zero-initialised
    engine, with no dice, needs none. *)
Lemma Dice_get_max_digits_amount_decimal_witness :
  Dice.get_max_digits_amount
    (Dice.apply_ops (Dice.init Dice.zero)
       (replicate 5 Dice.NextType ++ replicate 8 Dice.NextAmount)) = 3
  /\ Dice.get_max_digits_amount Dice.zero = 0.
Proof.
  split.
  - destruct (Dice_get_max_digits_amount_decimal
                (Dice.apply_ops (Dice.init Dice.zero)
                   (replicate 5 Dice.NextType ++ replicate 8 Dice.NextAmount)))
      as [H _].
    destruct H as [H _].
    + apply Dice_apply_ops_valid, Dice_init_config_valid.
    + exact H.
  - apply (proj2 (Dice_get_max_digits_amount_decimal Dice.zero)).
    vm_compute. discriminate.
Defined.

Lemma Arduino_random_seeds howbig g :
  Arduino.seeds (snd (Arduino.random howbig g)) = Arduino.seeds g.
Proof. unfold Arduino.random. destruct (howbig =? 0); reflexivity. Qed.

Lemma Dice_refresh_loop_seeds n :
  forall d g i,
    Arduino.seeds (snd (Dice.refresh_all_dice_loop n d g i)) = Arduino.seeds g.
Proof.
  induction n as [|n IH]; intros d g i; cbn [Dice.refresh_all_dice_loop];
    [reflexivity|].
  pose proof (Arduino_random_seeds
                (array_get dice_types (Dice.current_type_index d)) g) as Hs.
  destruct (Arduino.random _ g) as [v g1]. cbn [snd] in Hs.
  rewrite IH. exact Hs.
Qed.

(** X6. [finish_roll] seeds the random source on the first roll after
    [init] only, with the sum of the hold time and the time of the release
    on the wrapping counter (a seed of 0 leaves the source as it is), and
    clears the first-roll flag: no later roll seeds again. *)
Theorem Dice_finish_roll_seeds_once
    (d : Dice.t) (g g2 : Arduino.rng) (time_now time2 : Z) :
  let seed := uadd (usub time_now (Dice.roll_start_time d)) time_now in
  Arduino.seeds (snd (Dice.finish_roll d g time_now))
    = (if Dice.is_first_roll d && negb (seed =? 0)
       then seed :: Arduino.seeds g
       else Arduino.seeds g)
  /\ Dice.is_first_roll (snd (fst (Dice.finish_roll d g time_now))) = false
  /\ Arduino.seeds
       (snd (Dice.finish_roll (snd (fst (Dice.finish_roll d g time_now)))
               g2 time2))
     = Arduino.seeds g2.
Proof.
  assert (Hone : forall d0 g0 t0,
             Arduino.seeds (snd (Dice.finish_roll d0 g0 t0))
               = (if Dice.is_first_roll d0
                     && negb (uadd (usub t0 (Dice.roll_start_time d0)) t0 =? 0)
                  then uadd (usub t0 (Dice.roll_start_time d0)) t0
                       :: Arduino.seeds g0
                  else Arduino.seeds g0)
             /\ Dice.is_first_roll (snd (fst (Dice.finish_roll d0 g0 t0)))
                = false).
  { intros d0 g0 t0. unfold Dice.finish_roll, Dice.refresh_all_dice.
    destruct (Dice.is_first_roll d0) eqn:Hf.
    - match goal with
      | |- context [Dice.refresh_all_dice_loop ?n ?d1 ?g1 ?i] =>
          pose proof (Dice_refresh_loop_seeds n d1 g1 i) as Hs;
          pose proof (Dice_refresh_loop_frame n d1 g1 i)
            as (_ & _ & _ & _ & Hfr & _);
          destruct (Dice.refresh_all_dice_loop n d1 g1 i) as [d2 g3]
      end.
      cbn in Hs, Hfr |- *. rewrite Hs, Hfr. split; [|reflexivity].
      unfold Arduino.randomSeed.
      destruct (_ =? 0); reflexivity.
    - match goal with
      | |- context [Dice.refresh_all_dice_loop ?n ?d1 ?g1 ?i] =>
          pose proof (Dice_refresh_loop_seeds n d1 g1 i) as Hs;
          pose proof (Dice_refresh_loop_frame n d1 g1 i)
            as (_ & _ & _ & _ & Hfr & _);
          destruct (Dice.refresh_all_dice_loop n d1 g1 i) as [d2 g3]
      end.
      cbn in Hs, Hfr |- *. rewrite Hs, Hfr. split; [reflexivity | exact Hf]. }
  intros seed. destruct (Hone d g time_now) as [H1 H2].
  split; [exact H1|]. split; [exact H2|].
  destruct (Hone (snd (fst (Dice.finish_roll d g time_now))) g2 time2)
    as [H3 _].
  rewrite H3, H2. reflexivity.
Qed.

(** ** Display: animation and multiplexing *)

(** X7. [next_animation] changes the frame only.  From any byte it gives
    a frame between the end frame 0x04 and the start frame 0x80; on the
    frames of the rolling dot it moves the single bit one place down and
    goes from 0x04 back to 0x80, so that six calls return to the frame
    they started from. *)
Theorem Display_next_animation_cycle (d : Display.t) :
  Display.set_current_animation_frame (Display.next_animation d)
    (Display.current_animation_frame d) = d
  /\ (0 <= Display.current_animation_frame d <= 255 ->
      Display.animation_end_frame
        <= Display.current_animation_frame (Display.next_animation d)
        <= Display.animation_start_frame)
  /\ (In (Display.current_animation_frame d) animation_frames ->
      In (Display.current_animation_frame (Display.next_animation d))
        animation_frames
      /\ Nat.iter 6 Display.next_animation d = d).
Proof.
  destruct d as [mt at_ fr ix buf].
  cbn [Display.current_animation_frame].
  split; [|split].
  - unfold Display.next_animation.
    cbn [Display.set_current_animation_frame Display.current_animation_frame
         Display.multiplex_timer Display.animation_timer
         Display.current_active_index Display.display_buffer].
    destruct (_ <? _); reflexivity.
  - intros Hfr. unfold Display.next_animation.
    cbn [Display.set_current_animation_frame Display.current_animation_frame
         Display.multiplex_timer Display.animation_timer
         Display.current_active_index Display.display_buffer].
    unfold Display.animation_end_frame, Display.animation_start_frame, to_byte.
    rewrite Z.shiftr_div_pow2 by lia. change (2 ^ 1) with 2.
    rewrite Z.mod_small by (Z.div_mod_to_equations; lia).
    destruct (Z.ltb_spec (fr / 2) 4) as [Hlt|Hge];
      unfold Display.set_current_animation_frame;
      cbn [Display.current_animation_frame];
      [lia | Z.div_mod_to_equations; lia].
  - intros Hin. cbn in Hin.
    repeat (destruct Hin as [<- | Hin];
            [split; [vm_compute; tauto | reflexivity]|]).
    contradiction.
Qed.

(** The display as [prepare_animation] leaves it at 7 ms. *)
Lemma Display_next_animation_cycle_witness :
  Display.current_animation_frame
    (Display.next_animation (Display.prepare_animation Display.zero 7)) = 0x40
  /\ Nat.iter 6 Display.next_animation (Display.prepare_animation Display.zero 7)
     = Display.prepare_animation Display.zero 7.
Proof.
  destruct (Display_next_animation_cycle
              (Display.prepare_animation Display.zero 7)) as (_ & _ & H).
  destruct H as [_ H]; [cbn; tauto|].
  split; [reflexivity | exact H].
Defined.

Lemma Display_update_active_index_spec d now :
  0 <= Display.current_active_index d < Display.display_digits ->
  let d' := Display.update_active_index d now in
  Display.current_active_index d'
    = (if fst (Timer.should_signal (Display.multiplex_timer d) now)
       then (Display.current_active_index d + 1) mod Display.display_digits
       else Display.current_active_index d)
  /\ 0 <= Display.current_active_index d' < Display.display_digits
  /\ Display.multiplex_timer d'
     = snd (Timer.should_signal (Display.multiplex_timer d) now)
  /\ Display.animation_timer d' = Display.animation_timer d
  /\ Display.current_animation_frame d' = Display.current_animation_frame d
  /\ Display.display_buffer d' = Display.display_buffer d.
Proof.
  unfold Display.display_digits. intros Hix.
  unfold Display.update_active_index.
  destruct (Timer.should_signal (Display.multiplex_timer d) now) as [[|] tm];
    cbn [fst snd Display.set_multiplex_timer Display.set_current_active_index
         Display.current_active_index Display.multiplex_timer
         Display.animation_timer Display.current_animation_frame
         Display.display_buffer].
  - unfold Display.display_digits.
    rewrite to_int_small by lia.
    rewrite Z.rem_mod_nonneg by lia.
    pose proof (Z.mod_pos_bound (Display.current_active_index d + 1) 4).
    repeat split; lia.
  - repeat split; lia.
Qed.

(** X8. With the active index inside the four positions, [multiplex]
    keeps it or moves it to the next position round-robin, exactly when
    the multiplex timer fires, and [multiplex_animation] does the same but
    falls back to position 0 when the position is not below the number of
    digits: the index stays inside the four positions, and the animation
    only lights positions below a positive digit count. *)
Theorem Display_multiplex_active_index
    (hw : Funshield.t) (d : Display.t) (time_now max_digits_amount : Z) :
  0 <= Display.current_active_index d < Display.display_digits ->
  let next :=
    if fst (Timer.should_signal (Display.multiplex_timer d) time_now)
    then (Display.current_active_index d + 1) mod Display.display_digits
    else Display.current_active_index d in
  Display.current_active_index (fst (Display.multiplex hw d time_now)) = next
  /\ Display.current_active_index
       (fst (Display.multiplex_animation hw d time_now max_digits_amount))
     = (if next >=? max_digits_amount then 0 else next)
  /\ 0 <= Display.current_active_index (fst (Display.multiplex hw d time_now))
       < Display.display_digits
  /\ 0 <= Display.current_active_index
            (fst (Display.multiplex_animation hw d time_now max_digits_amount))
       < Display.display_digits
  /\ (1 <= max_digits_amount ->
      Display.current_active_index
        (fst (Display.multiplex_animation hw d time_now max_digits_amount))
        < max_digits_amount).
Proof.
  intros Hix next.
  destruct (Display_update_active_index_spec d time_now Hix)
    as (U1 & U2 & _).
  fold next in U1. unfold Display.multiplex, Display.multiplex_animation.
  cbn [fst]. rewrite U1 in *. unfold Display.display_digits in *.
  split; [reflexivity|].
  destruct (Z.geb_spec next max_digits_amount) as [Hge|Hlt];
    cbn [Display.set_current_active_index Display.current_active_index];
    rewrite ?U1; repeat split; lia.
Qed.

(** The display after [init] at 0 ms, multiplexed at 1 ms while a die of
    one digit is rolled: the timer fires, and position 1 falls back to 0. *)
Lemma Display_multiplex_active_index_witness :
  let d := fst (Display.init Funshield.uno Display.zero 0) in
  Display.current_active_index (fst (Display.multiplex Funshield.uno d 1)) = 1
  /\ Display.current_active_index
       (fst (Display.multiplex_animation Funshield.uno d 1 1)) = 0.
Proof.
  intros d.
  destruct (Display_multiplex_active_index Funshield.uno d 1 1)
    as (H1 & H2 & _).
  - vm_compute. split; [discriminate | reflexivity].
  - split; [exact H1 | exact H2].
Defined.

(** ** Display: the text writers and the buffer *)

(** X9. Whatever the numbers they are given, [write_number] and
    [write_config_string] change nothing but the four cells of the
    display: the fifth character of the buffer, its length, the timers,
    the frame and the active index stay.  [erase_all] blanks exactly the
    four cells. *)
Theorem Display_text_writers_stay_in_cells
    (d : Display.t) (number amount type : Z) :
  length (Display.display_buffer d) = 5%nat ->
  (exists cs,
      length cs = 4%nat
      /\ Display.write_number d number
         = Display.set_display_buffer d
             (cs ++ drop 4 (Display.display_buffer d)))
  /\ (exists cs,
         length cs = 4%nat
         /\ Display.write_config_string d amount type
            = Display.set_display_buffer d
                (cs ++ drop 4 (Display.display_buffer d)))
  /\ Display.erase_all d
     = Display.set_display_buffer d
         (replicate 4 (chr " ") ++ drop 4 (Display.display_buffer d)).
Proof.
  intros Hlen. destruct (buffer_of_length_5 _ Hlen) as (a & b & c & e & f & Hb).
  destruct d as [mt at_ fr ix buf]. cbn [Display.display_buffer] in Hb.
  subst buf.
  split; [|split].
  - unfold Display.write_number, Display.write_next_number.
    change (Z.to_nat Display.display_digits) with 4%nat.
    change (to_int (Display.display_digits - 1)) with 3.
    cbn [Display.write_next_number_loop Display.display_buffer].
    repeat match goal with
           | |- context [if ?c then _ else _] => destruct c
           end;
      eexists [_; _; _; _]; (split; [reflexivity|]); reflexivity.
  - unfold Display.write_config_string, Display.write_next_number.
    change (Z.to_nat Display.dice_type_digits) with 2%nat.
    change (Z.to_nat Display.dice_amount_digits) with 1%nat.
    change (to_int (Display.display_digits - 1)) with 3.
    cbn [Display.write_next_number_loop Display.display_buffer].
    repeat match goal with
           | |- context [if ?c then _ else _] => destruct c
           end;
      eexists [_; _; _; _]; (split; [reflexivity|]); reflexivity.
  - reflexivity.
Qed.

(** The zero-initialised display given a number no roll can produce. *)
Lemma Display_text_writers_stay_in_cells_witness :
  (exists cs,
      length cs = 4%nat
      /\ Display.write_number Display.zero 31999
         = Display.set_display_buffer Display.zero
             (cs ++ drop 4 (Display.display_buffer Display.zero)))
  /\ Display.display_buffer (Display.write_number Display.zero 31999)
     = codes "1999" ++ [0].
Proof.
  destruct (Display_text_writers_stay_in_cells Display.zero 31999 345 (-7))
    as (H1 & _ & _); [reflexivity|].
  split; [exact H1 | reflexivity].
Defined.

Lemma Display_write_number_length d n :
  length (Display.display_buffer (Display.write_number d n))
    = length (Display.display_buffer d).
Proof.
  unfold Display.write_number.
  pose proof (Display_write_next_number_frame d n
                (to_int (Display.display_digits - 1)) Display.display_digits)
    as (_ & _ & _ & _ & H).
  destruct (Display.write_next_number d n _ _) as [d1 i1]. cbn [fst] in H.
  unfold Display.erase_others. cbn [Display.set_display_buffer
    Display.display_buffer].
  rewrite Display_erase_others_loop_length. exact H.
Qed.

Lemma Display_write_number_shown_check :
  forallb (fun k =>
             list_Z_eqb
               (Display.cells (Display.write_number Display.zero (Z.of_nat k)))
               (map (shown_cell (Z.of_nat k)) [0; 1; 2; 3]))
    (seq 0 (Z.to_nat 10000)) = true.
Proof. vm_compute. reflexivity. Qed.

Lemma Display_output_char_glyph_digit hw k :
  0 <= k <= 9 ->
  Display.output_char_glyph hw (digit_char k)
    = array_get (Funshield.digits hw) k.
Proof.
  intros Hk. unfold Display.output_char_glyph, digit_char.
  change (chr "0") with 48. change (chr "9") with 57.
  change (chr "d") with 100.
  destruct (Z.eqb_spec (48 + k) 100); [lia|].
  destruct (Z.geb_spec (48 + k) 48); [|lia].
  destruct (Z.leb_spec (48 + k) 57); [|lia].
  cbn [andb]. f_equal. rewrite to_int_small by lia. lia.
Qed.

Lemma shown_digit_range n i k :
  0 <= n -> 0 <= i <= 3 -> shown_digit n i = Some k -> 0 <= k <= 9.
Proof.
  intros Hn Hi. unfold shown_digit.
  destruct (_ || _); [|discriminate].
  intros [= <-].
  pose proof (Z.mod_pos_bound (n / 10 ^ (3 - i)) 10). lia.
Qed.

(** X10. For [n] from 0 to 9999, the glyph [output_char] selects for cell
    [i] after [write_number n] is the glyph the table of the shield holds
    for the decimal digit of [n] at that place, and the blank glyph for
    the cells before the leading digit: the display shows the number. *)
Theorem Display_write_number_glyphs
    (hw : Funshield.t) (d : Display.t) (n i : Z) :
  length (Display.display_buffer d) = 5%nat ->
  0 <= n <= 9999 ->
  0 <= i <= 3 ->
  array_get (Display.display_buffer (Display.write_number d n)) i
    = shown_cell n i
  /\ Display.output_char_glyph hw
       (array_get (Display.display_buffer (Display.write_number d n)) i)
     = match shown_digit n i with
       | Some k => array_get (Funshield.digits hw) k
       | None => Display.empty_glyph
       end.
Proof.
  intros Hlen Hn Hi.
  assert (Hcells : Display.cells (Display.write_number d n)
                   = map (shown_cell n) [0; 1; 2; 3]).
  { rewrite (Display_write_number_cells_fresh d n Hlen).
    pose proof Display_write_number_shown_check as Hall.
    rewrite forallb_forall in Hall.
    specialize (Hall (Z.to_nat n)).
    rewrite Z2Nat.id in Hall by lia.
    apply list_Z_eqb_eq, Hall, in_seq. lia. }
  assert (Hcell : array_get (Display.display_buffer (Display.write_number d n)) i
                  = shown_cell n i).
  { pose proof (Display_write_number_length d n) as Hl. rewrite Hlen in Hl.
    destruct (buffer_of_length_5 _ Hl) as (a & b & c & e & f & Hb).
    unfold Display.cells in Hcells. rewrite Hb in Hcells |- *.
    cbn in Hcells. injection Hcells as -> -> -> ->.
    assert (Hc : i = 0 \/ i = 1 \/ i = 2 \/ i = 3) by lia.
    destruct Hc as [-> | [-> | [-> | ->]]]; reflexivity. }
  split; [exact Hcell|].
  rewrite Hcell. unfold shown_cell.
  destruct (shown_digit n i) as [k|] eqn:Hk.
  - apply Display_output_char_glyph_digit.
    apply (shown_digit_range n i k); [lia | lia | exact Hk].
  - reflexivity.
Qed.

(** The number 42 on the shield of the Arduino UNO: blank, blank, the
    glyphs of 4 and of 2. *)
Lemma Display_write_number_glyphs_witness :
  map (fun i => Display.output_char_glyph Funshield.uno
                  (array_get (Display.display_buffer
                                (Display.write_number Display.zero 42)) i))
    [0; 1; 2]
    = [0xff; 0xff; 0x99]
  /\ Display.output_char_glyph Funshield.uno
       (array_get (Display.display_buffer
                     (Display.write_number Display.zero 42)) 3) = 0xa4.
Proof.
  split; [reflexivity|].
  destruct (Display_write_number_glyphs Funshield.uno Display.zero 42 3)
    as [_ H].
  - reflexivity.
  - lia.
  - lia.
  - exact H.
Defined.

Lemma In_zrange n :
  forall start m, start <= m < start + Z.of_nat n -> In m (zrange n start).
Proof.
  induction n as [|n IH]; intros start m Hm; [lia|].
  cbn [zrange]. destruct (Z.eq_dec start m) as [->|Hne]; [left; reflexivity|].
  right. apply IH. lia.
Qed.

Lemma Display_write_number_overflow_check :
  forallb (fun m =>
             list_Z_eqb
               (Display.cells (Display.write_number Display.zero m))
               (map (fun i => digit_char ((m / 10 ^ (3 - i)) mod 10))
                  [0; 1; 2; 3]))
    (zrange (Z.to_nat 22768) 10000) = true.
Proof. vm_compute. reflexivity. Qed.

(** X11. A number of five digits does not fit: for [n] from 10000 to the
    largest [int], 32767, [write_number n] stops after four digits and the
    cells show the four lowest digits of [n], the leading one dropped. *)
Theorem Display_write_number_truncates (d : Display.t) (n : Z) :
  length (Display.display_buffer d) = 5%nat ->
  10000 <= n <= 32767 ->
  Display.cells (Display.write_number d n)
    = map (fun i => digit_char ((n / 10 ^ (3 - i)) mod 10)) [0; 1; 2; 3].
Proof.
  intros Hlen Hn. rewrite (Display_write_number_cells_fresh d n Hlen).
  pose proof Display_write_number_overflow_check as Hall.
  rewrite forallb_forall in Hall.
  apply list_Z_eqb_eq, Hall, In_zrange. lia.
Qed.

(** The number 12345 is shown as 2345. *)
Lemma Display_write_number_truncates_witness :
  Display.cells (Display.write_number Display.zero 12345) = codes "2345".
Proof.
  rewrite (Display_write_number_truncates Display.zero 12345).
  - reflexivity.
  - reflexivity.
  - lia.
Defined.

(** ** Sketch: start-up, output and transitions *)

(** X12. Whatever the globals held, [setup] leaves the controller in
    Config with one six-sided die and no result in memory, the buttons
    released and out of cooldown on the three button pins of the shield,
    both display timers armed at the time of the call with periods of 1 ms
    and 50 ms, the animation at its start frame, and the text " 1d6" in
    the cells; it leaves the random source alone. *)
Theorem Sketch_setup_initial_state
    (hw : Funshield.t) (s : Sketch.t) (e : Arduino.env) :
  length (Display.display_buffer (Sketch.disp s)) = 5%nat ->
  let s' := fst (Sketch.setup hw s e) in
  Sketch.current_state s' = CONFIG
  /\ Dice.get_dice_type (Sketch.dice s') = 6
  /\ Dice.get_dice_amount (Sketch.dice s') = 1
  /\ Dice.has_roll_in_memory (Sketch.dice s') = false
  /\ Dice.is_first_roll (Sketch.dice s') = true
  /\ Sketch.roll_button s'
     = Button.mk false false (array_get (Funshield.button_pins hw) 0) 0
  /\ Sketch.amount_button s'
     = Button.mk false false (array_get (Funshield.button_pins hw) 1) 0
  /\ Sketch.type_button s'
     = Button.mk false false (array_get (Funshield.button_pins hw) 2) 0
  /\ Display.multiplex_timer (Sketch.disp s')
     = Timer.mk 1 (to_ulong (Arduino.millis e))
  /\ Display.animation_timer (Sketch.disp s')
     = Timer.mk 50 (to_ulong (Arduino.millis e))
  /\ Display.current_animation_frame (Sketch.disp s') = 0x80
  /\ Display.current_active_index (Sketch.disp s')
     = Display.current_active_index (Sketch.disp s)
  /\ Display.cells (Sketch.disp s') = codes " 1d6"
  /\ Sketch.rng s' = Sketch.rng s.
Proof.
  intros Hlen. destruct (buffer_of_length_5 _ Hlen) as (a & b & c & x & f & Hb).
  destruct s as [st rb tb ab [mt at_ fr ix buf] dc g].
  cbn [Sketch.disp Display.display_buffer] in Hb. subst buf.
  cbn zeta. repeat split.
Qed.

(** The zero-initialised globals, set up at 3 ms. *)
Lemma Sketch_setup_initial_state_witness :
  let s' := fst (Sketch.setup Funshield.uno (Sketch.zero rng0)
                   (Arduino.mk_env 3 all_up)) in
  Sketch.current_state s' = CONFIG
  /\ Display.cells (Sketch.disp s') = codes " 1d6".
Proof.
  intros s'.
  destruct (Sketch_setup_initial_state Funshield.uno (Sketch.zero rng0)
              (Arduino.mk_env 3 all_up)) as (H1 & H); [reflexivity|].
  split; [exact H1 | apply H].
Defined.

(** X13. Every iteration of [loop] makes exactly one write to the shift
    registers: the latch goes low, two bytes are shifted out, the latch
    goes high.  The bytes go out least significant bit first exactly when
    the iteration ends in Generating (the animation), and most significant
    bit first otherwise (the text).  With the active index inside the four
    positions, the second byte selects one position: bit [index] for the
    text and bit [index + 4] for the animation, whose first byte is the
    complement of the frame. *)
Theorem Sketch_loop_one_write
    (hw : Funshield.t) (s : Sketch.t) (e : Arduino.env) :
  let s' := fst (Sketch.loop hw s e) in
  let order := if Program_state_eqb (Sketch.current_state s') GENERATING
               then Arduino.LSBFIRST else Arduino.MSBFIRST in
  (exists v1 v2,
      snd (Sketch.loop hw s e)
        = [Arduino.DigitalWrite (Funshield.latch_pin hw) false;
           Arduino.ShiftOut (Funshield.data_pin hw) (Funshield.clock_pin hw)
             order v1;
           Arduino.ShiftOut (Funshield.data_pin hw) (Funshield.clock_pin hw)
             order v2;
           Arduino.DigitalWrite (Funshield.latch_pin hw) true]
      /\ 0 <= v1 <= 255 /\ 0 <= v2 <= 255
      /\ (0 <= Display.current_active_index (Sketch.disp s') <= 3 ->
          v2 = (if Program_state_eqb (Sketch.current_state s') GENERATING
                then 2 ^ (Display.current_active_index (Sketch.disp s') + 4)
                else 2 ^ Display.current_active_index (Sketch.disp s')))
      /\ (Sketch.current_state s' = GENERATING ->
          0 <= Display.current_animation_frame (Sketch.disp s') <= 255 ->
          v1 = 255 - Display.current_animation_frame (Sketch.disp s'))
      /\ (Sketch.current_state s' <> GENERATING ->
          v1 = to_byte
                 (Display.output_char_glyph hw
                    (array_get (Display.display_buffer (Sketch.disp s'))
                       (Display.current_active_index (Sketch.disp s')))))).
Proof.
  cbn zeta. unfold Sketch.loop.
  set (s1 := Sketch.tick_state s e). set (now := to_ulong (Arduino.millis e)).
  assert (Hbyte : forall z, 0 <= to_byte z <= 255).
  { intros z. unfold to_byte. pose proof (Z.mod_pos_bound z 256). lia. }
  assert (Hpos : forall i, 0 <= i <= 7 -> to_byte (to_int (Z.shiftl 1 i)) = 2 ^ i).
  { intros i Hi.
    assert (Hc : i = 0 \/ i = 1 \/ i = 2 \/ i = 3 \/ i = 4 \/ i = 5 \/ i = 6
                 \/ i = 7) by lia.
    destruct Hc as [-> | [-> | [-> | [-> | [-> | [-> | [-> | ->]]]]]]];
      reflexivity. }
  unfold Sketch.service_display.
  destruct (Program_state_eqb (Sketch.current_state s1) GENERATING) eqn:Hst.
  - unfold Display.multiplex_animation.
    set (d2 := if _ >=? _ then _ else _).
    cbn [fst snd Sketch.current_state Sketch.set_disp Sketch.disp].
    rewrite Hst. unfold Display.output_animation_frame, Arduino.digitalWrite,
      Arduino.shiftOut. cbn [app].
    eexists _, _. split; [reflexivity|].
    split; [apply Hbyte|]. split; [apply Hbyte|]. split; [|split].
    + intros Hix. rewrite (to_int_small (_ + 4)) by lia. apply Hpos. lia.
    + intros _ Hfr. unfold to_byte, Z.lnot.
      Z.div_mod_to_equations. lia.
    + intros Hne. destruct (Sketch.current_state s1); try discriminate.
      contradiction.
  - unfold Display.multiplex.
    cbn [fst snd Sketch.current_state Sketch.set_disp Sketch.disp].
    rewrite Hst. unfold Display.output_char, Arduino.digitalWrite,
      Arduino.shiftOut. cbn [app].
    eexists _, _. split; [reflexivity|].
    split; [apply Hbyte|]. split; [apply Hbyte|]. split; [|split].
    + intros Hix. unfold to_byte at 2. rewrite Z.mod_small by lia.
      apply Hpos. lia.
    + intros Hgen. rewrite Hgen in Hst. discriminate.
    + intros _. reflexivity.
Qed.

(** The board that is Idle with no result in memory, at 11 ms with no
    button pressed: the iteration ends in Generating and shows the frame
    0x40 at position 0 of the animation. *)
Lemma Sketch_loop_one_write_witness :
  snd (Sketch.loop Funshield.uno idle_without_result (Arduino.mk_env 11 all_up))
    = [Arduino.DigitalWrite 4 false;
       Arduino.ShiftOut 8 7 Arduino.LSBFIRST (255 - 0x40);
       Arduino.ShiftOut 8 7 Arduino.LSBFIRST (2 ^ 4);
       Arduino.DigitalWrite 4 true].
Proof.
  pose proof (Sketch_loop_one_write Funshield.uno idle_without_result
                (Arduino.mk_env 11 all_up)) as H.
  cbn zeta in H. destruct H as (v1 & v2 & Hout & _ & _ & Hv2 & Hv1 & _).
  rewrite Hout.
  rewrite Hv2 by (vm_compute; split; discriminate).
  rewrite Hv1 by (try reflexivity; vm_compute; split; discriminate).
  reflexivity.
Defined.

Lemma Program_state_eqb_eq a b : Program_state_eqb a b = true <-> a = b.
Proof. destruct a, b; cbn; split; congruence. Qed.

Lemma Sketch_loop_state hw s e :
  Sketch.current_state (fst (Sketch.loop hw s e))
    = Sketch.current_state
        (Sketch.handle_state (snd (Sketch.read_buttons s e))
           (to_ulong (Arduino.millis e))
           (roll_signal s e) (type_signal s e) (amount_signal s e))
  /\ Sketch.dice (fst (Sketch.loop hw s e))
     = Sketch.dice
         (Sketch.handle_state (snd (Sketch.read_buttons s e))
            (to_ulong (Arduino.millis e))
            (roll_signal s e) (type_signal s e) (amount_signal s e))
  /\ Display.display_buffer (Sketch.disp (fst (Sketch.loop hw s e)))
     = Display.display_buffer
         (Sketch.disp
            (Sketch.handle_state (snd (Sketch.read_buttons s e))
               (to_ulong (Arduino.millis e))
               (roll_signal s e) (type_signal s e) (amount_signal s e))).
Proof.
  unfold Sketch.loop.
  destruct (Sketch_service_display_frame hw (Sketch.tick_state s e)
              (to_ulong (Arduino.millis e))) as (S1 & S2 & S3 & _).
  rewrite S1, S2, S3, Sketch_tick_state_signals. repeat split.
Qed.

(** X14. The state an iteration of [loop] ends in is a function of the
    state it begins in and of the signals of the three buttons.  Config
    goes to Idle on roll [PRESSED] and stays otherwise; Generating goes to
    Idle on roll [RELEASED] and stays otherwise; Idle goes to Config on
    type or amount [PRESSED], else to Generating on roll [PRESSED] or with
    no result in memory, and stays otherwise.  So Config never leads to
    Generating, nor Generating to Config, in one iteration. *)
Theorem Sketch_loop_transitions
    (hw : Funshield.t) (s : Sketch.t) (e : Arduino.env) :
  Sketch.current_state (fst (Sketch.loop hw s e))
    = match Sketch.current_state s with
      | CONFIG =>
          if Button_signal_eqb (roll_signal s e) PRESSED then IDLE else CONFIG
      | GENERATING =>
          if Button_signal_eqb (roll_signal s e) RELEASED
          then IDLE else GENERATING
      | IDLE =>
          if Button_signal_eqb (type_signal s e) PRESSED
             || Button_signal_eqb (amount_signal s e) PRESSED
          then CONFIG
          else if Button_signal_eqb (roll_signal s e) PRESSED
                  || negb (Dice.has_roll_in_memory (Sketch.dice s))
               then GENERATING else IDLE
      end.
Proof.
  destruct (Sketch_loop_state hw s e) as (-> & _).
  destruct (Sketch_read_buttons_frame s e) as (F1 & _ & F3 & _).
  unfold Sketch.handle_state. rewrite F1.
  destruct (Sketch.current_state s) eqn:Hst.
  - unfold Sketch.config_case.
    destruct (Button_signal_eqb (type_signal s e) PRESSED),
      (Button_signal_eqb (amount_signal s e) PRESSED),
      (Button_signal_eqb (roll_signal s e) PRESSED);
      cbn [Sketch.current_state Sketch.set_current_state Sketch.set_disp
           Sketch.set_dice]; first [exact F1 | reflexivity | congruence].
  - unfold Sketch.idle_case. rewrite F3.
    destruct (Button_signal_eqb (type_signal s e) PRESSED
              || Button_signal_eqb (amount_signal s e) PRESSED);
      destruct (Button_signal_eqb (roll_signal s e) PRESSED
                || negb (Dice.has_roll_in_memory (Sketch.dice s)));
      cbn [Sketch.current_state Sketch.set_current_state Sketch.set_disp
           Sketch.set_dice]; first [reflexivity | congruence].
  - unfold Sketch.generating_case.
    destruct (Button_signal_eqb (roll_signal s e) RELEASED).
    + destruct (Dice.finish_roll _ _ _) as [[r dc] g]. reflexivity.
    + destruct (Display.should_animate _ _) as [[|] d1];
        cbn [Sketch.current_state Sketch.set_disp]; congruence.
Qed.

(** X15. An iteration of [loop] changes the type or the amount of the
    dice only when it begins in Config and the button of the type or of
    the amount signals [PRESSED]: rolling and idling never touch the
    configuration. *)
Theorem Sketch_loop_config_changes_in_config
    (hw : Funshield.t) (s : Sketch.t) (e : Arduino.env) :
  Dice.current_type_index (Sketch.dice (fst (Sketch.loop hw s e)))
    <> Dice.current_type_index (Sketch.dice s)
  \/ Dice.current_dice_amount (Sketch.dice (fst (Sketch.loop hw s e)))
     <> Dice.current_dice_amount (Sketch.dice s) ->
  Sketch.current_state s = CONFIG
  /\ (type_signal s e = PRESSED \/ amount_signal s e = PRESSED).
Proof.
  destruct (Sketch_loop_state hw s e) as (_ & -> & _).
  destruct (Sketch_read_buttons_frame s e) as (F1 & _ & F3 & _).
  set (s1 := snd (Sketch.read_buttons s e)) in *.
  rewrite <- F3. unfold Sketch.handle_state. rewrite F1.
  destruct (Sketch.current_state s).
  - intros Hchg. split; [reflexivity|].
    destruct (Button_signal_eqb (type_signal s e) PRESSED) eqn:Et.
    { left. apply Button_signal_eqb_eq, Et. }
    destruct (Button_signal_eqb (amount_signal s e) PRESSED) eqn:Ea.
    { right. apply Button_signal_eqb_eq, Ea. }
    exfalso.
    destruct (Sketch_config_case_dice s1 (roll_signal s e) (type_signal s e)
                (amount_signal s e)) as [_ Hsame].
    rewrite Hsame in Hchg by (apply Button_signal_eqb_neq; assumption).
    destruct Hchg as [H|H]; apply H; reflexivity.
  - intros Hchg. exfalso. unfold Sketch.idle_case in Hchg.
    destruct (_ || _) in Hchg; destruct (_ || _) in Hchg;
      destruct Hchg as [H|H]; apply H; reflexivity.
  - intros Hchg. exfalso. unfold Sketch.generating_case in Hchg.
    destruct (Button_signal_eqb (roll_signal s e) RELEASED).
    + pose proof (Dice_finish_roll_frame (Sketch.dice s1) (Sketch.rng s1)
                    (to_ulong (Arduino.millis e))) as (G1 & G2 & _).
      destruct (Dice.finish_roll _ _ _) as [[r dc] g].
      cbn in *. destruct Hchg as [H|H]; apply H; assumption.
    + destruct (Display.should_animate _ _) as [[|] d1];
        destruct Hchg as [H|H]; apply H; reflexivity.
Qed.

(** The board after [setup] with the amount button pressed at 10 ms: the
    amount changes, in Config and under a press. *)
Lemma Sketch_loop_config_changes_in_config_witness :
  Sketch.current_state after_setup = CONFIG
  /\ (type_signal after_setup (Arduino.mk_env 10 (pressing 16)) = PRESSED
      \/ amount_signal after_setup (Arduino.mk_env 10 (pressing 16)) = PRESSED).
Proof.
  apply (Sketch_loop_config_changes_in_config Funshield.uno after_setup
           (Arduino.mk_env 10 (pressing 16))).
  right. vm_compute. discriminate.
Defined.

(** ** Sketch: the invariant of the iterations *)

Lemma Timer_should_signal_delay tm now :
  Timer.delay (snd (Timer.should_signal tm now)) = Timer.delay tm.
Proof. rewrite Timer_should_signal_spec. destruct (_ >=? _); reflexivity. Qed.

Lemma Display_write_number_frame d n :
  let d' := Display.write_number d n in
  Display.multiplex_timer d' = Display.multiplex_timer d
  /\ Display.animation_timer d' = Display.animation_timer d
  /\ Display.current_animation_frame d' = Display.current_animation_frame d
  /\ Display.current_active_index d' = Display.current_active_index d
  /\ length (Display.display_buffer d') = length (Display.display_buffer d).
Proof.
  cbn zeta. unfold Display.write_number.
  pose proof (Display_write_next_number_frame d n
                (to_int (Display.display_digits - 1)) Display.display_digits)
    as (H1 & H2 & H3 & H4 & H5).
  destruct (Display.write_next_number d n _ _) as [d1 i1].
  cbn [fst] in *. unfold Display.erase_others.
  cbn [Display.set_display_buffer Display.multiplex_timer
       Display.animation_timer Display.current_animation_frame
       Display.current_active_index Display.display_buffer].
  rewrite Display_erase_others_loop_length. repeat split; assumption.
Qed.

Lemma Display_next_animation_frames d :
  In (Display.current_animation_frame d) animation_frames ->
  In (Display.current_animation_frame (Display.next_animation d))
    animation_frames.
Proof.
  destruct d as [mt at_ fr ix buf]. cbn [Display.current_animation_frame].
  intros Hin. cbn in Hin.
  repeat (destruct Hin as [<- | Hin]; [vm_compute; tauto|]).
  contradiction.
Qed.

Lemma Display_next_animation_frame d :
  Display.multiplex_timer (Display.next_animation d) = Display.multiplex_timer d
  /\ Display.animation_timer (Display.next_animation d)
     = Display.animation_timer d
  /\ Display.current_active_index (Display.next_animation d)
     = Display.current_active_index d
  /\ Display.display_buffer (Display.next_animation d)
     = Display.display_buffer d.
Proof.
  unfold Display.next_animation. destruct (_ <? _); repeat split.
Qed.

Lemma Display_write_config_string_cells d amount type :
  length (Display.display_buffer d) = 5%nat ->
  1 <= amount <= 9 ->
  In type dice_types ->
  Display.cells (Display.write_config_string d amount type)
    = config_cells amount type.
Proof.
  intros Hlen Ha Ht.
  destruct (buffer_of_length_5 _ Hlen) as (a & b & c & e & f & Hb).
  destruct d as [mt at_ fr ix buf]. cbn [Display.display_buffer] in Hb.
  subst buf. cbn in Ht.
  destruct (amount_cases amount Ha)
    as [-> | [-> | [-> | [-> | [-> | [-> | [-> | [-> | ->]]]]]]]];
    repeat (destruct Ht as [<- | Ht]; [reflexivity|]); contradiction.
Qed.

Lemma Display_write_number_cells_decimal d n :
  length (Display.display_buffer d) = 5%nat ->
  0 <= n <= 9999 ->
  Display.cells (Display.write_number d n) = right_justified 4 (decimal n).
Proof.
  intros Hlen Hn. rewrite (Display_write_number_cells_fresh d n Hlen).
  pose proof Display_write_number_decimal_check as Hall.
  rewrite forallb_forall in Hall.
  specialize (Hall (Z.to_nat n)).
  rewrite Z2Nat.id in Hall by lia.
  apply list_Z_eqb_eq, Hall, in_seq. lia.
Qed.

(** A result in the memory of a reachable engine is a sum of at most nine
    dice of at most a hundred faces. *)
Lemma Dice_reachable_last_roll d :
  Dice.reachable d ->
  Dice.last_roll d = Dice.clear_memory_value \/ 1 <= Dice.last_roll d <= 900.
Proof.
  induction 1 as [ | d _ IH | d now _ IH | d g now Hr IH | d _ IH | d _ IH
                 | d _ IH ].
  - left. reflexivity.
  - left. reflexivity.
  - exact IH.
  - right. pose proof (Dice_reachable_valid d Hr) as Hvalid.
    destruct (Dice_finish_roll_unfold d g now)
      as (d1 & g1 & Heq & Hv1 & Hc1 & Hf1 & _).
    destruct (Dice_roll_core d1 g1 (Hv1 Hvalid)) as (_ & _ & _ & Hsum).
    rewrite Hc1, Hf1 in Hsum.
    destruct Hvalid as [[Hi Ha] _].
    pose proof (dice_types_range _ (Dice_get_dice_type_in_table d Hi)) as Hf.
    unfold Dice.max_dice_amount in Ha.
    rewrite Heq. cbn [fst snd Dice.set_last_roll Dice.last_roll]. nia.
  - rewrite Dice_next_dice_type_last_roll. exact IH.
  - rewrite Dice_next_dice_amount_last_roll. exact IH.
  - left. reflexivity.
Qed.

(** The text of the last roll, for a reachable engine. *)
Lemma Display_write_number_idle_cells d dc :
  length (Display.display_buffer d) = 5%nat ->
  Dice.reachable dc ->
  Display.cells (Display.write_number d (Dice.get_last_roll dc))
    = idle_cells dc.
Proof.
  intros Hlen Hr. unfold idle_cells, Dice.has_roll_in_memory,
    Dice.get_last_roll.
  destruct (Dice_reachable_last_roll dc Hr) as [Hs | Hrange].
  - rewrite Hs. apply Display_write_number_sentinel_cells, Hlen.
  - destruct (Z.eqb_spec (Dice.last_roll dc) Dice.clear_memory_value) as [He|_].
    + unfold Dice.clear_memory_value in He. lia.
    + apply Display_write_number_cells_decimal; [exact Hlen | lia].
Qed.

Lemma display_valid_write_config_string d amount type :
  display_valid d -> display_valid (Display.write_config_string d amount type).
Proof.
  unfold display_valid.
  destruct (Display_write_config_string_frame d amount type)
    as (-> & -> & -> & -> & ->).
  tauto.
Qed.

Lemma display_valid_write_number d n :
  display_valid d -> display_valid (Display.write_number d n).
Proof.
  unfold display_valid.
  destruct (Display_write_number_frame d n) as (-> & -> & -> & -> & ->).
  tauto.
Qed.

Lemma display_valid_next_animation d :
  display_valid d -> display_valid (Display.next_animation d).
Proof.
  unfold display_valid. intros (H1 & H2 & H3 & H4).
  destruct (Display_next_animation_frame d) as (-> & -> & -> & ->).
  split; [exact H1|]. split; [exact H2|].
  split; [apply Display_next_animation_frames, H3 | exact H4].
Qed.

Lemma display_valid_prepare_animation d z :
  display_valid d -> display_valid (Display.prepare_animation d (to_ulong z)).
Proof.
  unfold display_valid. intros (H1 & H2 & _ & H4 & H5 & H6 & _).
  unfold Display.prepare_animation.
  cbn [Display.set_animation_timer Display.set_current_animation_frame
       Display.display_buffer Display.current_active_index
       Display.current_animation_frame Display.multiplex_timer
       Display.animation_timer Timer.reset_last_event_time Timer.delay
       Timer.last_event].
  repeat split; try assumption; try apply H2; try apply H6;
    try apply to_ulong_range.
  vm_compute. tauto.
Qed.

Lemma display_valid_should_animate d now :
  display_valid d -> display_valid (snd (Display.should_animate d now)).
Proof.
  unfold display_valid. intros (H1 & H2 & H3 & H4 & H5 & H6 & H7).
  unfold Display.should_animate.
  pose proof (Timer_should_signal_delay (Display.animation_timer d) now) as Hd.
  pose proof (Timer_should_signal_ulong (Display.animation_timer d) now H7)
    as Hu.
  destruct (Timer.should_signal (Display.animation_timer d) now) as [fired tm].
  cbn [fst snd Display.set_animation_timer Display.display_buffer
       Display.current_active_index Display.current_animation_frame
       Display.multiplex_timer Display.animation_timer] in *.
  rewrite Hd. tauto.
Qed.

Lemma display_valid_update_active_index d now :
  display_valid d -> display_valid (Display.update_active_index d now).
Proof.
  unfold display_valid. intros (H1 & H2 & H3 & H4 & H5 & H6 & H7).
  destruct (Display_update_active_index_spec d now H2)
    as (_ & U2 & U3 & -> & -> & ->).
  rewrite U3, Timer_should_signal_delay.
  pose proof (Timer_should_signal_ulong (Display.multiplex_timer d) now H6).
  tauto.
Qed.

Lemma display_valid_service_display hw s now :
  display_valid (Sketch.disp s) ->
  display_valid (Sketch.disp (fst (Sketch.service_display hw s now))).
Proof.
  intros Hv. unfold Sketch.service_display, Display.multiplex_animation,
    Display.multiplex.
  pose proof (display_valid_update_active_index (Sketch.disp s) now Hv) as Hu.
  destruct (Program_state_eqb _ _); cbn [fst Sketch.disp Sketch.set_disp];
    [|exact Hu].
  destruct (_ >=? _); [|exact Hu].
  unfold display_valid in *.
  cbn [Display.set_current_active_index Display.display_buffer
       Display.current_active_index Display.current_animation_frame
       Display.multiplex_timer Display.animation_timer].
  unfold Display.display_digits. intuition lia.
Qed.

(** A reachable engine has a valid amount and a type of the table. *)
Lemma Dice_reachable_config d :
  Dice.reachable d ->
  1 <= Dice.get_dice_amount d <= 9 /\ In (Dice.get_dice_type d) dice_types.
Proof.
  intros Hr. destruct (Dice_reachable_valid d Hr) as [[Hi Ha] _].
  split; [exact Ha | apply Dice_get_dice_type_in_table, Hi].
Qed.

(** Rendering the configuration of a reachable engine. *)
Lemma sketch_inv_show_config s dc :
  Dice.reachable dc ->
  display_valid (Sketch.disp s) ->
  sketch_inv
    (Sketch.set_current_state
       (Sketch.set_disp (Sketch.set_dice s dc)
          (Display.write_config_string (Sketch.disp s)
             (Dice.get_dice_amount dc) (Dice.get_dice_type dc)))
       CONFIG).
Proof.
  intros Hr Hv. destruct (Dice_reachable_config dc Hr) as [Ha Ht].
  split; [exact Hr|]. split.
  - apply display_valid_write_config_string, Hv.
  - apply Display_write_config_string_cells; [apply Hv | exact Ha | exact Ht].
Qed.

(** Rendering the last roll of a reachable engine. *)
Lemma sketch_inv_show_roll s dc g :
  Dice.reachable dc ->
  display_valid (Sketch.disp s) ->
  sketch_inv
    (Sketch.set_current_state
       (Sketch.set_disp (Sketch.set_rng (Sketch.set_dice s dc) g)
          (Display.write_number (Sketch.disp s) (Dice.get_last_roll dc)))
       IDLE).
Proof.
  intros Hr Hv.
  split; [exact Hr|]. split.
  - apply display_valid_write_number, Hv.
  - apply Display_write_number_idle_cells; [apply Hv | exact Hr].
Qed.

Lemma sketch_inv_config_case s r t a :
  Sketch.current_state s = CONFIG ->
  sketch_inv s ->
  sketch_inv (Sketch.config_case s r t a).
Proof.
  intros Hst Hinv. unfold Sketch.config_case.
  set (s1 := if Button_signal_eqb t PRESSED then _ else s).
  assert (H1 : Sketch.current_state s1 = CONFIG /\ sketch_inv s1).
  { subst s1. destruct (Button_signal_eqb t PRESSED); [|split; assumption].
    destruct Hinv as (Hr & Hv & _).
    cbn [Sketch.dice Sketch.disp Sketch.set_dice].
    split; [exact Hst|].
    pose proof (sketch_inv_show_config s
                  (Dice.next_dice_type (Dice.reset_roll_memory (Sketch.dice s)))
                  ltac:(apply Dice.reach_next_dice_type,
                          Dice.reach_reset_roll_memory, Hr) Hv) as Hn.
    destruct s as [st rb tb ab dp dc g]. cbn in Hst. subst st. exact Hn. }
  clearbody s1. destruct H1 as [Hst1 Hinv1].
  set (s2 := if Button_signal_eqb a PRESSED then _ else s1).
  assert (H2 : Sketch.current_state s2 = CONFIG /\ sketch_inv s2).
  { subst s2. destruct (Button_signal_eqb a PRESSED); [|split; assumption].
    destruct Hinv1 as (Hr & Hv & _).
    cbn [Sketch.dice Sketch.disp Sketch.set_dice].
    split; [exact Hst1|].
    pose proof (sketch_inv_show_config s1
                  (Dice.next_dice_amount
                     (Dice.reset_roll_memory (Sketch.dice s1)))
                  ltac:(apply Dice.reach_next_dice_amount,
                          Dice.reach_reset_roll_memory, Hr) Hv) as Hn.
    destruct s1 as [st rb tb ab dp dc g]. cbn in Hst1. subst st. exact Hn. }
  clearbody s2. destruct H2 as [Hst2 Hinv2].
  destruct (Button_signal_eqb r PRESSED); [|exact Hinv2].
  destruct Hinv2 as (Hr & Hv & _).
  pose proof (sketch_inv_show_roll s2 (Sketch.dice s2) (Sketch.rng s2) Hr Hv)
    as Hn.
  destruct s2 as [st rb tb ab dp dc g]. exact Hn.
Qed.

Lemma sketch_inv_idle_case s z r t a :
  Sketch.current_state s = IDLE ->
  sketch_inv s ->
  sketch_inv (Sketch.idle_case s (to_ulong z) r t a).
Proof.
  intros Hst Hinv. unfold Sketch.idle_case.
  set (s1 := if Button_signal_eqb r PRESSED || _ then _ else s).
  assert (H1 : sketch_inv s1).
  { subst s1. destruct (_ || _); [|exact Hinv].
    destruct Hinv as (Hr & Hv & _).
    split; [apply Dice.reach_start_roll, Hr|].
    split; [|exact I].
    apply display_valid_next_animation, display_valid_prepare_animation, Hv. }
  clearbody s1.
  destruct (_ || _); [|exact H1].
  destruct H1 as (Hr & Hv & _).
  pose proof (sketch_inv_show_config s1 (Sketch.dice s1) Hr Hv) as Hn.
  destruct s1 as [st rb tb ab dp dc g]. exact Hn.
Qed.

Lemma sketch_inv_generating_case s now r :
  Sketch.current_state s = GENERATING ->
  sketch_inv s ->
  sketch_inv (Sketch.generating_case s now r).
Proof.
  intros Hst (Hr & Hv & _). unfold Sketch.generating_case.
  destruct (Button_signal_eqb r RELEASED).
  - pose proof (Dice.reach_finish_roll (Sketch.dice s) (Sketch.rng s) now Hr)
      as Hr'.
    pose proof (Dice_finish_roll_frame (Sketch.dice s) (Sketch.rng s) now)
      as (_ & _ & _ & Hlast).
    destruct (Dice.finish_roll _ _ _) as [[x dc] g]. cbn [fst snd] in *.
    pose proof (sketch_inv_show_roll s dc g Hr' Hv) as Hn.
    unfold Dice.get_last_roll in Hn. rewrite Hlast in Hn. exact Hn.
  - pose proof (display_valid_should_animate (Sketch.disp s) now Hv) as Hv'.
    destruct (Display.should_animate _ _) as [[|] d1]; cbn [snd] in Hv'.
    + split; [exact Hr|]. split.
      * apply display_valid_next_animation, Hv'.
      * unfold display_shows. cbn. rewrite Hst. exact I.
    + split; [exact Hr|]. split; [exact Hv'|].
      unfold display_shows. cbn. rewrite Hst. exact I.
Qed.

Lemma sketch_inv_loop hw s e :
  sketch_inv s -> sketch_inv (fst (Sketch.loop hw s e)).
Proof.
  intros Hinv. unfold Sketch.loop.
  assert (Htick : sketch_inv (Sketch.tick_state s e)).
  { rewrite Sketch_tick_state_signals.
    destruct (Sketch_read_buttons_frame s e) as (F1 & F2 & F3 & _).
    set (s1 := snd (Sketch.read_buttons s e)) in *.
    assert (Hinv1 : sketch_inv s1).
    { unfold sketch_inv, display_shows in *. rewrite F1, F2, F3. exact Hinv. }
    unfold Sketch.handle_state.
    destruct (Sketch.current_state s1) eqn:Hst.
    - apply sketch_inv_config_case; assumption.
    - apply sketch_inv_idle_case; assumption.
    - apply sketch_inv_generating_case; assumption. }
  destruct (Sketch_service_display_frame hw (Sketch.tick_state s e)
              (to_ulong (Arduino.millis e))) as (S1 & S2 & S3 & _).
  destruct Htick as (Hr & Hv & Hs).
  split; [rewrite S2; exact Hr|]. split.
  - apply display_valid_service_display, Hv.
  - unfold display_shows, Display.cells in *. rewrite S1, S2, S3. exact Hs.
Qed.

Lemma sketch_inv_setup hw g e :
  sketch_inv (fst (Sketch.setup hw (Sketch.zero g) e)).
Proof.
  split; [apply Dice.reach_init|]. split.
  - change (Sketch.disp (fst (Sketch.setup hw (Sketch.zero g) e)))
      with (Display.write_config_string
              (fst (Display.init hw Display.zero (to_ulong (Arduino.millis e))))
              (Dice.get_dice_amount (Dice.init Dice.zero))
              (Dice.get_dice_type (Dice.init Dice.zero))).
    apply display_valid_write_config_string.
    unfold display_valid. cbn.
    repeat split; try apply to_ulong_range; try lia; try tauto.
  - reflexivity.
Qed.

Lemma sketch_inv_run hw es :
  forall s, sketch_inv s -> sketch_inv (Sketch.run hw s es).
Proof.
  induction es as [|e es IH]; intros s Hinv; [exact Hinv|].
  cbn [Sketch.run]. apply IH, sketch_inv_loop, Hinv.
Qed.

(** X16. After [setup] on the zero-initialised globals and any number of
    iterations of [loop], on any readings of the counter and of the pins:
    the type of the dice is one of the table and their amount is from 1 to
    9, the buffer has its five characters, the active index is one of the
    four positions, the frame is one of the six frames of the rolling dot
    and the timers keep their periods; in Config the display shows the
    current configuration, and in Idle it shows the last roll, or the
    text of the sentinel when there is none. *)
Theorem Sketch_run_invariant
    (hw : Funshield.t) (g : Arduino.rng) (e0 : Arduino.env)
    (es : list Arduino.env) :
  let s := Sketch.run hw (fst (Sketch.setup hw (Sketch.zero g) e0)) es in
  sketch_inv s
  /\ In (Dice.get_dice_type (Sketch.dice s)) dice_types
  /\ 1 <= Dice.get_dice_amount (Sketch.dice s) <= 9
  /\ length (Dice.dice (Sketch.dice s)) = 9%nat
  /\ length (Display.display_buffer (Sketch.disp s)) = 5%nat
  /\ 0 <= Display.current_active_index (Sketch.disp s) <= 3
  /\ In (Display.current_animation_frame (Sketch.disp s))
       [0x80; 0x40; 0x20; 0x10; 0x08; 0x04]
  /\ Timer.delay (Display.multiplex_timer (Sketch.disp s)) = 1
  /\ Timer.delay (Display.animation_timer (Sketch.disp s)) = 50
  /\ (Sketch.current_state s = CONFIG ->
      Display.cells (Sketch.disp s)
        = config_cells (Dice.get_dice_amount (Sketch.dice s))
            (Dice.get_dice_type (Sketch.dice s)))
  /\ (Sketch.current_state s = IDLE ->
      Display.cells (Sketch.disp s)
        = if Dice.has_roll_in_memory (Sketch.dice s)
          then right_justified 4 (decimal (Dice.get_last_roll (Sketch.dice s)))
          else codes "   /").
Proof.
  intros s.
  assert (Hinv : sketch_inv s) by apply sketch_inv_run, sketch_inv_setup.
  split; [exact Hinv|].
  destruct Hinv as (Hr & Hv & Hs).
  destruct (Dice_reachable_config _ Hr) as [Ha Ht].
  destruct (Dice_reachable_valid _ Hr) as [_ Hl].
  destruct Hv as (V1 & V2 & V3 & V4 & V5 & _).
  unfold Display.display_digits in V2.
  split; [exact Ht|]. split; [exact Ha|]. split; [exact Hl|].
  split; [exact V1|]. split; [lia|]. split; [exact V3|].
  split; [exact V4|]. split; [exact V5|].
  unfold display_shows in Hs.
  split; intros Hst; rewrite Hst in Hs; exact Hs.
Qed.

(** The board after [setup], the roll button pressed at 10 ms and the
    type button at 11 ms: back in Config, showing the configuration. *)
Lemma Sketch_run_invariant_witness :
  let s := Sketch.run Funshield.uno
             (fst (Sketch.setup Funshield.uno (Sketch.zero rng0)
                     (Arduino.mk_env 0 all_up)))
             [Arduino.mk_env 10 (pressing 15); Arduino.mk_env 11 (pressing 17)] in
  Display.cells (Sketch.disp s) = codes " 1d6".
Proof.
  intros s.
  pose proof (Sketch_run_invariant Funshield.uno rng0 (Arduino.mk_env 0 all_up)
                [Arduino.mk_env 10 (pressing 15);
                 Arduino.mk_env 11 (pressing 17)]) as H.
  cbn zeta in H.
  destruct H as (_ & _ & _ & _ & _ & _ & _ & _ & _ & H & _).
  subst s. rewrite (H eq_refl). reflexivity.
Defined.

(** X17. An iteration that begins in Generating, with a reachable dice
    engine, and sees the roll button [RELEASED] finishes the roll and goes
    to Idle: the sum is in memory, it lies between the amount and the
    amount times the faces, the random source is the one the roll left,
    and the display shows the decimal digits of the sum. *)
Theorem Sketch_generating_release_shows_roll
    (hw : Funshield.t) (s : Sketch.t) (e : Arduino.env) :
  Sketch.current_state s = GENERATING ->
  roll_signal s e = RELEASED ->
  Dice.reachable (Sketch.dice s) ->
  length (Display.display_buffer (Sketch.disp s)) = 5%nat ->
  let roll := Dice.finish_roll (Sketch.dice s) (Sketch.rng s)
                (to_ulong (Arduino.millis e)) in
  let s' := fst (Sketch.loop hw s e) in
  Sketch.current_state s' = IDLE
  /\ Sketch.dice s' = snd (fst roll)
  /\ Sketch.rng s' = snd roll
  /\ Dice.get_last_roll (Sketch.dice s') = fst (fst roll)
  /\ Dice.has_roll_in_memory (Sketch.dice s') = true
  /\ Dice.get_dice_amount (Sketch.dice s) <= fst (fst roll)
       <= Dice.get_dice_type (Sketch.dice s)
          * Dice.get_dice_amount (Sketch.dice s)
  /\ Display.cells (Sketch.disp s') = right_justified 4 (decimal (fst (fst roll))).
Proof.
  intros Hst Hrel Hr Hlen roll s'.
  destruct (Sketch_read_buttons_frame s e) as (F1 & F2 & F3 & F4).
  assert (Htick : Sketch.tick_state s e
                  = Sketch.set_current_state
                      (Sketch.set_disp
                         (Sketch.set_rng
                            (Sketch.set_dice (snd (Sketch.read_buttons s e))
                               (snd (fst roll)))
                            (snd roll))
                         (Display.write_number (Sketch.disp s) (fst (fst roll))))
                      IDLE).
  { rewrite Sketch_tick_state_signals. unfold Sketch.handle_state.
    rewrite F1, Hst. unfold Sketch.generating_case.
    rewrite Hrel. cbn [Button_signal_eqb]. rewrite F3, F4. fold roll.
    destruct roll as [[x dc] g']. cbn [fst snd Sketch.disp Sketch.set_dice
      Sketch.set_rng]. rewrite F2. reflexivity. }
  (* the roll *)
  pose proof (Dice_reachable_valid _ Hr) as Hvalid.
  destruct (Dice_finish_roll_unfold (Sketch.dice s) (Sketch.rng s)
              (to_ulong (Arduino.millis e)))
    as (d1 & g1 & Heq & Hv1 & Hc1 & Hf1 & _).
  destruct (Dice_roll_core d1 g1 (Hv1 Hvalid)) as (_ & _ & _ & Hsum).
  rewrite Hc1, Hf1 in Hsum.
  destruct (Dice_reachable_config _ Hr) as [Ha Ht].
  pose proof (dice_types_range _ Ht) as Hf.
  fold roll in Heq.
  assert (Hres : fst (fst roll) = Dice.get_dice_sum (fst (Dice.refresh_all_dice d1 g1)))
    by (rewrite Heq; reflexivity).
  assert (Hlast : Dice.last_roll (snd (fst roll)) = fst (fst roll))
    by (rewrite Heq; reflexivity).
  rewrite <- Hres in Hsum. unfold Dice.get_dice_amount in *.
  (* the iteration *)
  subst s'. unfold Sketch.loop.
  destruct (Sketch_service_display_frame hw (Sketch.tick_state s e)
              (to_ulong (Arduino.millis e))) as (S1 & S2 & S3 & _).
  assert (S4 : Sketch.rng (fst (Sketch.service_display hw (Sketch.tick_state s e)
                                  (to_ulong (Arduino.millis e))))
               = Sketch.rng (Sketch.tick_state s e)).
  { unfold Sketch.service_display. destruct (Program_state_eqb _ _).
    - destruct (Display.multiplex_animation _ _ _ _); reflexivity.
    - destruct (Display.multiplex _ _ _); reflexivity. }
  unfold Display.cells. rewrite S1, S2, S3, S4, Htick.
  cbn [Sketch.current_state Sketch.dice Sketch.disp Sketch.rng
       Sketch.set_current_state Sketch.set_disp Sketch.set_dice Sketch.set_rng].
  split; [reflexivity|]. split; [reflexivity|]. split; [reflexivity|].
  split; [exact Hlast|].
  split.
  { unfold Dice.has_roll_in_memory. rewrite Hlast.
    apply negb_true_iff, Z.eqb_neq. unfold Dice.clear_memory_value. lia. }
  split; [exact Hsum|].
  apply Display_write_number_cells_decimal; [exact Hlen | nia].
Qed.

(** The sample board in Generating, with the roll button released at
    30 ms: the die shows 2. *)
Lemma Sketch_generating_release_shows_roll_witness :
  let s' := fst (Sketch.loop Funshield.uno generating_held
                   (Arduino.mk_env 30 all_up)) in
  Sketch.current_state s' = IDLE
  /\ Display.cells (Sketch.disp s') = codes "   2".
Proof.
  intros s'.
  pose proof (Sketch_generating_release_shows_roll Funshield.uno
                generating_held (Arduino.mk_env 30 all_up)) as H.
  cbn zeta in H. destruct H as (H1 & _ & _ & _ & _ & _ & H7).
  - reflexivity.
  - reflexivity.
  - apply (sketch_inv_run Funshield.uno
             [Arduino.mk_env 10 (pressing 15); Arduino.mk_env 20 (pressing 15)]
             after_setup).
    apply sketch_inv_setup.
  - reflexivity.
  - subst s'. split; [exact H1|]. rewrite H7. reflexivity.
Defined.

Lemma Sketch_service_display_rng hw s now :
  Sketch.rng (fst (Sketch.service_display hw s now)) = Sketch.rng s.
Proof.
  unfold Sketch.service_display. destruct (Program_state_eqb _ _).
  - destruct (Display.multiplex_animation _ _ _ _); reflexivity.
  - destruct (Display.multiplex _ _ _); reflexivity.
Qed.

(** X18. An iteration that begins in Idle with a result in memory and in
    which no button signals [PRESSED] changes nothing but the multiplexing
    of the display: the state, the dice engine, the random source, the
    text, the frame and the animation timer stay. *)
Theorem Sketch_idle_stays
    (hw : Funshield.t) (s : Sketch.t) (e : Arduino.env) :
  Sketch.current_state s = IDLE ->
  Dice.has_roll_in_memory (Sketch.dice s) = true ->
  roll_signal s e <> PRESSED ->
  type_signal s e <> PRESSED ->
  amount_signal s e <> PRESSED ->
  let s' := fst (Sketch.loop hw s e) in
  Sketch.current_state s' = IDLE
  /\ Sketch.dice s' = Sketch.dice s
  /\ Sketch.rng s' = Sketch.rng s
  /\ Display.display_buffer (Sketch.disp s')
     = Display.display_buffer (Sketch.disp s)
  /\ Display.current_animation_frame (Sketch.disp s')
     = Display.current_animation_frame (Sketch.disp s)
  /\ Display.animation_timer (Sketch.disp s')
     = Display.animation_timer (Sketch.disp s).
Proof.
  intros Hst Hmem Hr Ht Ha s'.
  destruct (Sketch_read_buttons_frame s e) as (F1 & F2 & F3 & F4).
  assert (Htick : Sketch.tick_state s e = snd (Sketch.read_buttons s e)).
  { rewrite Sketch_tick_state_signals. unfold Sketch.handle_state.
    rewrite F1, Hst. unfold Sketch.idle_case. rewrite F3, Hmem.
    apply Button_signal_eqb_neq in Hr, Ht, Ha. rewrite Hr, Ht, Ha.
    reflexivity. }
  subst s'. unfold Sketch.loop.
  destruct (Sketch_service_display_frame hw (Sketch.tick_state s e)
              (to_ulong (Arduino.millis e))) as (S1 & S2 & S3 & S4 & S5).
  rewrite S1, S2, S3, S4, S5, Sketch_service_display_rng, Htick.
  rewrite F1, F2, F3, F4. repeat split. exact Hst.
Qed.

(** The board of the previous example, Idle with the roll of 2 in memory,
    at 40 ms with no button pressed. *)
Lemma Sketch_idle_stays_witness :
  let s := fst (Sketch.loop Funshield.uno generating_held
                  (Arduino.mk_env 30 all_up)) in
  Sketch.current_state
    (fst (Sketch.loop Funshield.uno s (Arduino.mk_env 40 all_up))) = IDLE
  /\ Sketch.dice (fst (Sketch.loop Funshield.uno s (Arduino.mk_env 40 all_up)))
     = Sketch.dice s.
Proof.
  intros s.
  pose proof (Sketch_idle_stays Funshield.uno s (Arduino.mk_env 40 all_up)) as H.
  cbn zeta in H. destruct H as (H1 & H2 & _).
  - reflexivity.
  - reflexivity.
  - vm_compute. discriminate.
  - vm_compute. discriminate.
  - vm_compute. discriminate.
  - split; [exact H1 | exact H2].
Defined.

(** X19. An iteration that begins in Generating and does not see the roll
    button [RELEASED] stays in Generating and leaves the dice engine, the
    random source and the text alone; it polls the animation timer and
    advances the frame exactly when that timer fires. *)
Theorem Sketch_generating_animates
    (hw : Funshield.t) (s : Sketch.t) (e : Arduino.env) :
  Sketch.current_state s = GENERATING ->
  roll_signal s e <> RELEASED ->
  let s' := fst (Sketch.loop hw s e) in
  let poll := Timer.should_signal (Display.animation_timer (Sketch.disp s))
                (to_ulong (Arduino.millis e)) in
  Sketch.current_state s' = GENERATING
  /\ Sketch.dice s' = Sketch.dice s
  /\ Sketch.rng s' = Sketch.rng s
  /\ Display.display_buffer (Sketch.disp s')
     = Display.display_buffer (Sketch.disp s)
  /\ Display.animation_timer (Sketch.disp s') = snd poll
  /\ Display.current_animation_frame (Sketch.disp s')
     = (if fst poll
        then Display.current_animation_frame
               (Display.next_animation (Sketch.disp s))
        else Display.current_animation_frame (Sketch.disp s)).
Proof.
  intros Hst Hr s' poll.
  destruct (Sketch_read_buttons_frame s e) as (F1 & F2 & F3 & F4).
  subst s'. unfold Sketch.loop.
  destruct (Sketch_service_display_frame hw (Sketch.tick_state s e)
              (to_ulong (Arduino.millis e))) as (S1 & S2 & S3 & S4 & S5).
  rewrite S1, S2, S3, S4, S5, Sketch_service_display_rng.
  rewrite Sketch_tick_state_signals. unfold Sketch.handle_state.
  rewrite F1, Hst. unfold Sketch.generating_case.
  apply Button_signal_eqb_neq in Hr. rewrite Hr.
  unfold Display.should_animate. rewrite F2. fold poll.
  destruct poll as [[|] tm];
    cbn [fst snd Sketch.current_state Sketch.dice Sketch.rng Sketch.disp
         Sketch.set_disp Display.set_animation_timer];
    rewrite ?F1, ?F3, ?F4;
    unfold Display.next_animation;
    cbn [Display.set_current_animation_frame Display.set_animation_timer
         Display.current_animation_frame Display.animation_timer
         Display.display_buffer];
    try destruct (_ <? _);
    cbn [Display.set_current_animation_frame Display.set_animation_timer
         Display.current_animation_frame Display.animation_timer
         Display.display_buffer];
    repeat split; exact Hst.
Qed.

(** The sample board in Generating, its animation prepared at 20 ms and
    the button still held at 70 ms: the timer fires, the frame advances. *)
Lemma Sketch_generating_animates_witness :
  let s' := fst (Sketch.loop Funshield.uno generating_held
                   (Arduino.mk_env 70 (pressing 15))) in
  Sketch.current_state s' = GENERATING
  /\ Display.current_animation_frame (Sketch.disp s') = 0x20.
Proof.
  intros s'.
  pose proof (Sketch_generating_animates Funshield.uno generating_held
                (Arduino.mk_env 70 (pressing 15))) as H.
  cbn zeta in H. destruct H as (H1 & _ & _ & _ & _ & H6).
  - reflexivity.
  - vm_compute. discriminate.
  - subst s'. split; [exact H1|]. rewrite H6. reflexivity.
Defined.

(** X20. [prepare_animation] discards the backlog of the animation timer:
    whatever its deadline was, after the call at [time_now] the frame is
    the start frame and the animation fires at a later poll exactly when
    the period of the timer has elapsed since [time_now] on the wrapping
    counter, so never at once for a positive period. *)
Theorem Display_prepare_animation_no_catch_up
    (d : Display.t) (time_now later : Z) :
  let d' := Display.prepare_animation d time_now in
  Display.current_animation_frame d' = Display.animation_start_frame
  /\ Display.display_buffer d' = Display.display_buffer d
  /\ Display.current_active_index d' = Display.current_active_index d
  /\ Display.multiplex_timer d' = Display.multiplex_timer d
  /\ (fst (Display.should_animate d' later) = true
      <-> Timer.delay (Display.animation_timer d) <= usub later time_now)
  /\ (0 < Timer.delay (Display.animation_timer d) ->
      fst (Display.should_animate d' (to_ulong time_now)) = false).
Proof.
  cbn zeta. unfold Display.prepare_animation, Display.should_animate,
    Display.set_animation_timer, Display.set_current_animation_frame,
    Timer.reset_last_event_time.
  cbn [Display.animation_timer Display.current_animation_frame
       Display.display_buffer Display.current_active_index
       Display.multiplex_timer].
  split; [reflexivity|]. split; [reflexivity|]. split; [reflexivity|].
  split; [reflexivity|].
  split.
  - rewrite Timer_should_signal_spec. cbn [Timer.delay Timer.last_event].
    destruct (Z.geb_spec (usub later time_now)
                (Timer.delay (Display.animation_timer d)));
      cbn [fst]; split; intros; try lia; try discriminate; reflexivity.
  - intros Hpos. rewrite Timer_should_signal_spec.
    cbn [Timer.delay Timer.last_event].
    assert (Hz : usub (to_ulong time_now) time_now = 0).
    { unfold usub, to_ulong. rewrite Zminus_mod_idemp_l, Z.sub_diag.
      reflexivity. }
    rewrite Hz.
    destruct (Z.geb_spec 0 (Timer.delay (Display.animation_timer d)));
      [lia | reflexivity].
Qed.

(** A display whose animation timer lies 1000 ms behind, prepared at
    1000 ms: no firing at 1049 ms, a firing at 1050 ms. *)
Lemma Display_prepare_animation_no_catch_up_witness :
  let d := fst (Display.init Funshield.uno Display.zero 0) in
  fst (Display.should_animate (Display.prepare_animation d 1000) 1000) = false
  /\ fst (Display.should_animate (Display.prepare_animation d 1000) 1049)
     = false
  /\ fst (Display.should_animate (Display.prepare_animation d 1000) 1050)
     = true.
Proof.
  intros d.
  pose proof (Display_prepare_animation_no_catch_up d 1000 1050) as H.
  cbn zeta in H. destruct H as (_ & _ & _ & _ & H5 & H6).
  split; [apply H6; reflexivity|].
  split; [reflexivity|].
  apply H5. vm_compute. discriminate.
Defined.
